(** * libdeep: the deep learner of [deeplearn.c]

    A shallow embedding of the training controller of libdeep
    ([src/deeplearn.c]): the error history with its in-place compaction,
    the layer-wise pretraining state machine [deeplearn_update], the binary
    persistence functions [deeplearn_save] and [deeplearn_load], and the
    comparison [deeplearn_compare].

    Conventions.
    - An [int] is a [Z] in the range of 32 bits; arithmetic that can leave
      the range is wrapped in two's complement ([int_wrap]).  An
      [unsigned int] is a [Z] in [0, UINT_MAX].
    - A [float] is its four bytes in memory ([float32]); the controller
      never computes with floats, it only copies and compares them, and the
      comparisons [==], [!=] and [<] are the IEEE-754 ones, defined on the
      bit pattern.
    - A [FILE] is the list of bytes written so far (when writing) or still
      to be read (when reading).
    - A pointer that the code tests against 0 ([autocoder]) is an [option].
    - Where the calls of [malloc] and [free] matter, the learner is the
      struct with the addresses in its pointers ([deeplearn_mem]) on a heap
      of blocks ([heap]), and undefined behaviour is [None].
    - A C string is the list of its chars ([string_ends_with_extension] of
      [utils.c]).
    - The back-propagation engine ([backprop.c]) is not part of this
      development: its functions are the fields of the class [backprop],
      and what the proofs need of them is the class [backprop_laws]. *)

From Stdlib Require Import ZArith NArith List Lia Bool.
From Stdlib Require Import Strings.Byte.
From coqutil Require Import Byte Word.LittleEndianList.
From stdpp Require Import base option list.
Import ListNotations.

#[local] Open Scope Z_scope.
#[local] Unset Default Proof Using.

(** ** Machine integers *)

Definition INT_MAX : Z := 2147483647.
Definition INT_MIN : Z := -2147483648.
Definition UINT_MAX : Z := 4294967295.

(** Two's complement wrap-around of a mathematical integer to [int]. *)
Definition int_wrap (z : Z) : Z := (z + 2 ^ 31) mod 2 ^ 32 - 2 ^ 31.

Definition int_range (z : Z) : Prop := INT_MIN <= z <= INT_MAX.
Definition uint_range (z : Z) : Prop := 0 <= z <= UINT_MAX.

(** The four bytes of an [int] or [unsigned int] in memory (little endian),
    and back. *)
Definition int_bytes (z : Z) : list byte := le_split 4 z.
Definition int_of_bytes (bs : list byte) : Z := int_wrap (le_combine bs).
Definition uint_of_bytes (bs : list byte) : Z := le_combine bs.

(** ** Floats *)

Record float32 : Type := F32 {
  f32_b0 : byte; f32_b1 : byte; f32_b2 : byte; f32_b3 : byte
}.

Definition float_bytes (x : float32) : list byte :=
  [f32_b0 x; f32_b1 x; f32_b2 x; f32_b3 x].

Definition float_bits (x : float32) : Z := le_combine (float_bytes x).

Definition float_of_bits (z : Z) : float32 :=
  F32 (byte.of_Z z) (byte.of_Z (Z.shiftr z 8))
      (byte.of_Z (Z.shiftr z 16)) (byte.of_Z (Z.shiftr z 24)).

Definition float_exponent (x : float32) : Z :=
  Z.land (Z.shiftr (float_bits x) 23) 255.
Definition float_mantissa (x : float32) : Z :=
  Z.land (float_bits x) (2 ^ 23 - 1).
Definition float_sign (x : float32) : bool := Z.testbit (float_bits x) 31.

Definition float_isnan (x : float32) : bool :=
  (float_exponent x =? 255) && negb (float_mantissa x =? 0).

(** Sign and magnitude as one integer: the order of these keys is the order
    of the values of two floats that are not NaN; both zeros have key 0. *)
Definition float_key (x : float32) : Z :=
  let m := Z.land (float_bits x) (2 ^ 31 - 1) in
  if float_sign x then - m else m.

(** C's [x == y], [x != y] and [x < y] on floats. *)
Definition float_eq (x y : float32) : bool :=
  negb (float_isnan x) && negb (float_isnan y) && (float_key x =? float_key y).
Definition float_ne (x y : float32) : bool := negb (float_eq x y).
Definition float_lt (x y : float32) : bool :=
  negb (float_isnan x) && negb (float_isnan y) && (float_key x <? float_key y).

Definition float_zero : float32 := float_of_bits 0.

(** ** Arrays

    A C array is a list.  Reading or writing outside the array is undefined
    in C; here such a read gives [float_zero] and such a write does
    nothing, and the results below that depend on the contents of an array
    bound the index. *)

Definition arr_get (a : list float32) (i : Z) : float32 :=
  if i <? 0 then float_zero else default float_zero (a !! Z.to_nat i).

Definition arr_set (a : list float32) (i : Z) (v : float32) : list float32 :=
  if i <? 0 then a else <[Z.to_nat i := v]> a.

(** ** Files *)

Definition FILE : Type := list byte.

(** An operation on an open file: it returns a value and the new file. *)
Definition io (A : Type) : Type := FILE → A * FILE.

Definition io_ret {A} (a : A) : io A := fun fp => (a, fp).
Definition io_bind {A B} (m : io A) (k : A → io B) : io B :=
  fun fp => let '(a, fp') := m fp in k a fp'.

Declare Scope io_scope.
Delimit Scope io_scope with io.
Notation "x <- m ;; k" := (io_bind m (fun x => k))
  (at level 20, m at level 99, k at level 200, only parsing) : io_scope.
Notation "' p <- m ;; k" := (io_bind m (fun p => k))
  (at level 20, p pattern, m at level 99, k at level 200, only parsing)
  : io_scope.

(** [fwrite(&v, sizeof(int), 1, fp)]: the bytes are appended, one item is
    reported written. *)
Definition fwrite_int (v : Z) : io Z := fun fp => (1, fp ++ int_bytes v).
Definition fwrite_float (v : float32) : io Z :=
  fun fp => (1, fp ++ float_bytes v).

(** [fwrite(a, sizeof(float), n, fp)]: the first [n] floats of [a]. *)
Definition fwrite_floats (a : list float32) (n : Z) : io Z :=
  fun fp => (Z.max 0 n, fp ++ concat (map float_bytes (take (Z.to_nat n) a))).

(** Four bytes from the file, if it has that many; a shorter rest is
    consumed and nothing is delivered.  (The C call stores the bytes of an
    item that is not complete, which the model does not: the statements
    read files whose items are whole up to the end of the file.) *)
Definition fread4 (fp : FILE) : option (byte * byte * byte * byte) * FILE :=
  match fp with
  | a :: b :: c :: d :: fp' => (Some (a, b, c, d), fp')
  | _ => (None, [])
  end.

(** [fread(&v, sizeof(int), 1, fp)]: the count of items read and the value
    of [v] afterwards, which is the old one when the read fails. *)
Definition fread_int (old : Z) : io (Z * Z) := fun fp =>
  match fread4 fp with
  | (Some (a, b, c, d), fp') => ((1, int_of_bytes [a; b; c; d]), fp')
  | (None, fp') => ((0, old), fp')
  end.
Definition fread_uint (old : Z) : io (Z * Z) := fun fp =>
  match fread4 fp with
  | (Some (a, b, c, d), fp') => ((1, uint_of_bytes [a; b; c; d]), fp')
  | (None, fp') => ((0, old), fp')
  end.
Definition fread_float (old : float32) : io (Z * float32) := fun fp =>
  match fread4 fp with
  | (Some (a, b, c, d), fp') => ((1, F32 a b c d), fp')
  | (None, fp') => ((0, old), fp')
  end.

(** [fread(a, sizeof(float), n, fp)]: the floats read, at most [n], in
    order; reading stops at the first float that is not complete. *)
Fixpoint fread_items (n : nat) (fp : FILE) : list float32 * FILE :=
  match n with
  | O => ([], fp)
  | S n' =>
      match fread4 fp with
      | (Some (a, b, c, d), fp') =>
          let '(xs, fp'') := fread_items n' fp' in (F32 a b c d :: xs, fp'')
      | (None, fp') => ([], fp')
      end
  end.

(** The count of items read and the array afterwards: the items read
    replace the first entries of [old].  (The statements read counts that
    are within the array: a negative count, which the C call takes for a
    huge one, and a count beyond the array, where the C call writes past
    it, are not modelled.) *)
Definition fread_floats (old : list float32) (n : Z) : io (Z * list float32) :=
  fun fp =>
    let '(xs, fp') := fread_items (Z.to_nat n) fp in
    ((Z.of_nat (length xs), xs ++ drop (length xs) old), fp').

(** [malloc(n * sizeof(float))]: the contents of a fresh block are
    indeterminate; the model fills it with zeros. *)
Definition malloc_floats (n : Z) : list float32 :=
  replicate (Z.to_nat n) float_zero.

(** ** The back-propagation engine

    The struct [bp] and the functions of [backprop.c], which [deeplearn.c]
    calls, are declared in a header that is not part of this
    development. *)

Module bp.
(** Modelled from the spec: the struct [bp], a Network with its readable
    fields "hiddenLayerCount", "runningAverageError" and "stepsTaken"
    under the names that [deeplearn.c] uses for them; [units] stands for
    every other member (layers, weights, rates). *)
Record t (W : Type) : Type := mk {
  HiddenLayers : Z;
  BPerrorAverage : float32;
  itterations : Z;
  units : W
}.
Arguments mk {W}.
Arguments HiddenLayers {W}.
Arguments BPerrorAverage {W}.
Arguments itterations {W}.
Arguments units {W}.

Definition set_itterations {W} (v : Z) (n : t W) : t W :=
  mk (HiddenLayers n) (BPerrorAverage n) v (units n).
End bp.

(** Modelled from the spec: the network capability contract ("step",
    "createAutoencoder", "promoteFromAutoencoder", "save", "load",
    "equals").  A function that takes a pointer to a network it changes
    returns the changed network.  [bp_init] and [bp_load] are given the
    value of the random seed; what they leave in the seed is not read by
    the controller.  [bp_save] gives its return value and the bytes it
    appends; [bp_load] is an operation on the file that gives its return
    value and the network. *)
Class backprop (W : Type) : Type := {
  bp_init : Z → Z → Z → Z → Z → bp.t W;
  bp_create_autocoder : bp.t W → Z → bp.t W;
  bp_pretrain : bp.t W → bp.t W → Z → bp.t W * bp.t W;
  bp_update_from_autocoder : bp.t W → bp.t W → Z → bp.t W;
  bp_update : bp.t W → bp.t W;
  bp_set_input : bp.t W → Z → float32 → bp.t W;
  bp_set_output : bp.t W → Z → float32 → bp.t W;
  bp_save : bp.t W → Z * list byte;
  bp_load : Z → io (Z * bp.t W);
  bp_compare : bp.t W → bp.t W → Z
}.

(** Modelled from the spec: the two macros of [deeplearn.h] that
    [deeplearn.c] uses, the capacity of the history ("a compile-time
    constant C") and the value that stands for an unknown error. *)
Class deeplearn_h : Type := {
  DEEPLEARN_HISTORY_SIZE : Z;
  DEEPLEARN_UNKNOWN_ERROR : float32
}.

(** ** The learner *)

(** The struct [deeplearn], with the members that [deeplearn.c] uses;
    [deeplearn_save] gives the sizes of the numbers, and [history] is an
    array of [DEEPLEARN_HISTORY_SIZE] floats in the struct. *)
Record deeplearn (W : Type) : Type := mk_deeplearn {
  net : bp.t W;
  autocoder : option (bp.t W);
  current_hidden_layer : Z;
  BPerror : float32;
  itterations : Z;
  error_threshold : list float32;
  training_complete : Z;
  history : list float32;
  history_index : Z;
  history_ctr : Z;
  history_step : Z
}.
Arguments mk_deeplearn {W}.
Arguments net {W}.
Arguments autocoder {W}.
Arguments current_hidden_layer {W}.
Arguments BPerror {W}.
Arguments itterations {W}.
Arguments error_threshold {W}.
Arguments training_complete {W}.
Arguments history {W}.
Arguments history_index {W}.
Arguments history_ctr {W}.
Arguments history_step {W}.

Section Learner.
Context {W : Type} {BP : backprop W} {HDR : deeplearn_h}.

#[local] Abbreviation deeplearn := (deeplearn W).

(** Assignments to the members of the struct. *)
Definition set_net (v : bp.t W) (l : deeplearn) : deeplearn :=
  mk_deeplearn v (autocoder l) (current_hidden_layer l) (BPerror l)
    (itterations l) (error_threshold l) (training_complete l)
    (history l) (history_index l) (history_ctr l) (history_step l).
Definition set_autocoder (v : option (bp.t W)) (l : deeplearn) : deeplearn :=
  mk_deeplearn (net l) v (current_hidden_layer l) (BPerror l)
    (itterations l) (error_threshold l) (training_complete l)
    (history l) (history_index l) (history_ctr l) (history_step l).
Definition set_current_hidden_layer (v : Z) (l : deeplearn) : deeplearn :=
  mk_deeplearn (net l) (autocoder l) v (BPerror l)
    (itterations l) (error_threshold l) (training_complete l)
    (history l) (history_index l) (history_ctr l) (history_step l).
Definition set_BPerror (v : float32) (l : deeplearn) : deeplearn :=
  mk_deeplearn (net l) (autocoder l) (current_hidden_layer l) v
    (itterations l) (error_threshold l) (training_complete l)
    (history l) (history_index l) (history_ctr l) (history_step l).
Definition set_itterations (v : Z) (l : deeplearn) : deeplearn :=
  mk_deeplearn (net l) (autocoder l) (current_hidden_layer l) (BPerror l)
    v (error_threshold l) (training_complete l)
    (history l) (history_index l) (history_ctr l) (history_step l).
Definition set_error_threshold (v : list float32) (l : deeplearn)
  : deeplearn :=
  mk_deeplearn (net l) (autocoder l) (current_hidden_layer l) (BPerror l)
    (itterations l) v (training_complete l)
    (history l) (history_index l) (history_ctr l) (history_step l).
Definition set_training_complete (v : Z) (l : deeplearn) : deeplearn :=
  mk_deeplearn (net l) (autocoder l) (current_hidden_layer l) (BPerror l)
    (itterations l) (error_threshold l) v
    (history l) (history_index l) (history_ctr l) (history_step l).
Definition set_history (v : list float32) (l : deeplearn) : deeplearn :=
  mk_deeplearn (net l) (autocoder l) (current_hidden_layer l) (BPerror l)
    (itterations l) (error_threshold l) (training_complete l)
    v (history_index l) (history_ctr l) (history_step l).
Definition set_history_index (v : Z) (l : deeplearn) : deeplearn :=
  mk_deeplearn (net l) (autocoder l) (current_hidden_layer l) (BPerror l)
    (itterations l) (error_threshold l) (training_complete l)
    (history l) v (history_ctr l) (history_step l).
Definition set_history_ctr (v : Z) (l : deeplearn) : deeplearn :=
  mk_deeplearn (net l) (autocoder l) (current_hidden_layer l) (BPerror l)
    (itterations l) (error_threshold l) (training_complete l)
    (history l) (history_index l) v (history_step l).
Definition set_history_step (v : Z) (l : deeplearn) : deeplearn :=
  mk_deeplearn (net l) (autocoder l) (current_hidden_layer l) (BPerror l)
    (itterations l) (error_threshold l) (training_complete l)
    (history l) (history_index l) (history_ctr l) v.

(** *** [deeplean_update_history] *)

(** The loop [for (i = 0; i < n; i++) history[i/2] = history[i];] *)
Definition compact_history (n : nat) (h : list float32) : list float32 :=
  fold_left
    (fun h i => arr_set h (Z.of_nat i `quot` 2) (arr_get h (Z.of_nat i)))
    (seq 0 n) h.

Definition deeplean_update_history (learner : deeplearn) : deeplearn :=
  let learner := set_history_ctr (int_wrap (history_ctr learner + 1)) learner in
  if history_ctr learner >=? history_step learner then
    let error_value := BPerror learner in
    let error_value :=
      if float_eq error_value DEEPLEARN_UNKNOWN_ERROR then float_zero
      else error_value in
    let learner :=
      set_history
        (arr_set (history learner) (history_index learner) error_value)
        learner in
    let learner :=
      set_history_index (int_wrap (history_index learner + 1)) learner in
    let learner := set_history_ctr 0 learner in
    if history_index learner >=? DEEPLEARN_HISTORY_SIZE then
      let learner :=
        set_history
          (compact_history (Z.to_nat (history_index learner))
             (history learner))
          learner in
      let learner :=
        set_history_index (history_index learner `quot` 2) learner in
      set_history_step (int_wrap (history_step learner * 2)) learner
    else learner
  else learner.

(** *** [deeplearn_init]

    [learner] is the struct the caller passes, with whatever it holds:
    the function does not touch the array [history].  [error_threshold]
    is the caller's array, of which [memcpy] takes the first
    [hidden_layers+1] floats (C has no length to check, and reads past
    the end of a shorter array). *)
Definition deeplearn_init (learner : deeplearn)
    (no_of_inputs no_of_hiddens hidden_layers no_of_outputs : Z)
    (error_threshold : list float32) (random_seed : Z) : deeplearn :=
  let learner := set_training_complete 0 learner in
  let learner :=
    set_error_threshold
      (take (Z.to_nat (int_wrap (hidden_layers + 1))) error_threshold)
      learner in
  let learner := set_history_index 0 learner in
  let learner := set_history_ctr 0 learner in
  let learner := set_history_step 1 learner in
  let learner := set_itterations 0 learner in
  let learner := set_current_hidden_layer 0 learner in
  let learner :=
    set_net
      (bp_init no_of_inputs no_of_hiddens hidden_layers no_of_outputs
         random_seed)
      learner in
  let learner :=
    set_autocoder
      (Some (bp_create_autocoder (net learner)
               (current_hidden_layer learner)))
      learner in
  set_BPerror DEEPLEARN_UNKNOWN_ERROR learner.

(** *** [deeplearn_update]

    [None] is the dereference of a null [autocoder]. *)
Definition deeplearn_update (learner : deeplearn) : option deeplearn :=
  if training_complete learner =? 1 then Some learner else
  let max_backprop_error :=
    arr_get (error_threshold learner) (current_hidden_layer learner) in
  learner ←
    (if current_hidden_layer learner <? bp.HiddenLayers (net learner) then
       ac ← autocoder learner;
       let '(n, ac) :=
         bp_pretrain (net learner) ac (current_hidden_layer learner) in
       let learner := set_autocoder (Some ac) (set_net n learner) in
       let learner := set_BPerror (bp.BPerrorAverage ac) learner in
       if float_ne (BPerror learner) DEEPLEARN_UNKNOWN_ERROR
          && float_lt (BPerror learner) max_backprop_error
          && (100 <? bp.itterations ac)
       then
         let learner :=
           set_net
             (bp_update_from_autocoder (net learner) ac
                (current_hidden_layer learner))
             learner in
         let learner := set_autocoder None learner in
         let learner :=
           set_current_hidden_layer
             (int_wrap (current_hidden_layer learner + 1)) learner in
         let learner :=
           if current_hidden_layer learner
              <? bp.HiddenLayers (net learner)
           then
             set_autocoder
               (Some (bp_create_autocoder (net learner)
                        (current_hidden_layer learner)))
               learner
           else learner in
         Some (set_BPerror DEEPLEARN_UNKNOWN_ERROR learner)
       else Some learner
     else
       let learner := set_net (bp_update (net learner)) learner in
       let learner :=
         set_BPerror (bp.BPerrorAverage (net learner)) learner in
       if float_lt (BPerror learner) max_backprop_error
       then Some (set_training_complete 1 learner)
       else Some learner);
  let learner := deeplean_update_history learner in
  if bp.itterations (net learner) <? UINT_MAX then
    Some (set_net
            (bp.set_itterations (bp.itterations (net learner) + 1)
               (net learner))
            learner)
  else Some learner.

(** *** [deeplearn_set_input] and [deeplearn_set_output] *)

Definition deeplearn_set_input (learner : deeplearn) (index : Z)
    (value : float32) : deeplearn :=
  set_net (bp_set_input (net learner) index value) learner.

Definition deeplearn_set_output (learner : deeplearn) (index : Z)
    (value : float32) : deeplearn :=
  set_net (bp_set_output (net learner) index value) learner.

(** *** [deeplearn_save] *)

Definition bp_save_to (n : bp.t W) : io Z :=
  fun fp => let '(retval, bytes) := bp_save n in (retval, fp ++ bytes).

Definition deeplearn_save (learner : deeplearn) : io Z :=
  (retval <- fwrite_int (training_complete learner);;
   retval <- fwrite_int (itterations learner);;
   retval <- fwrite_int (current_hidden_layer learner);;
   retval <- fwrite_float (BPerror learner);;
   retval <- bp_save_to (net learner);;
   retval <-
     match autocoder learner with
     | Some ac => (retval <- fwrite_int 1;; bp_save_to ac)
     | None => fwrite_int 0
     end;;
   retval <-
     fwrite_floats (error_threshold learner)
       (int_wrap (bp.HiddenLayers (net learner) + 1));;
   retval <- fwrite_int (history_index learner);;
   retval <- fwrite_int (history_ctr learner);;
   retval <- fwrite_int (history_step learner);;
   retval <- fwrite_floats (history learner) (history_index learner);;
   io_ret retval)%io.

(** *** [deeplearn_load]

    [learner] is the struct the caller passes, with whatever it holds; a
    member whose read fails keeps what it held. *)
Definition deeplearn_load (learner : deeplearn) (random_seed : Z)
  : io (Z * deeplearn) :=
  ('(retval, v) <- fread_int (training_complete learner);;
   let learner := set_training_complete v learner in
   '(retval, v) <- fread_uint (itterations learner);;
   let learner := set_itterations v learner in
   '(retval, v) <- fread_int (current_hidden_layer learner);;
   let learner := set_current_hidden_layer v learner in
   '(retval, v) <- fread_float (BPerror learner);;
   let learner := set_BPerror v learner in
   '(retval, n) <- bp_load random_seed;;
   let learner := set_net n learner in
   '(retval, val) <- fread_int 0;;
   '(retval, learner) <-
     (if val =? 1 then
        '(retval, ac) <- bp_load random_seed;;
        io_ret (retval, set_autocoder (Some ac) learner)
      else io_ret (retval, set_autocoder None learner));;
   let n := int_wrap (bp.HiddenLayers (net learner) + 1) in
   '(retval, a) <- fread_floats (malloc_floats n) n;;
   let learner := set_error_threshold a learner in
   '(retval, v) <- fread_int (history_index learner);;
   let learner := set_history_index v learner in
   '(retval, v) <- fread_int (history_ctr learner);;
   let learner := set_history_ctr v learner in
   '(retval, v) <- fread_int (history_step learner);;
   let learner := set_history_step v learner in
   '(retval, a) <- fread_floats (history learner) (history_index learner);;
   let learner := set_history a learner in
   io_ret (retval, learner))%io.

(** *** [deeplearn_compare] *)

(** [for (i = 0; i < n; i++) if (a[i] != b[i]) return ...;] leaves the
    function exactly when some entry below [n] differs. *)
Definition arrays_differ (a b : list float32) (n : Z) : bool :=
  existsb (fun i => float_ne (arr_get a (Z.of_nat i)) (arr_get b (Z.of_nat i)))
    (seq 0 (Z.to_nat n)).

Definition is_null {A} (p : option A) : bool :=
  match p with None => true | Some _ => false end.

Definition deeplearn_compare (learner1 learner2 : deeplearn) : Z :=
  if negb (current_hidden_layer learner1 =? current_hidden_layer learner2)
  then -1 else
  if float_ne (BPerror learner1) (BPerror learner2) then -2 else
  let retval := bp_compare (net learner1) (net learner2) in
  if retval <? 1 then -3 else
  if negb (Bool.eqb (is_null (autocoder learner1))
                    (is_null (autocoder learner2)))
  then -4 else
  if negb (history_index learner1 =? history_index learner2) then -5 else
  if negb (history_ctr learner1 =? history_ctr learner2) then -6 else
  if negb (history_step learner1 =? history_step learner2) then -7 else
  if arrays_differ (history learner1) (history learner2)
       (history_index learner1)
  then -8 else
  if negb (itterations learner1 =? itterations learner2) then -9 else
  if arrays_differ (error_threshold learner1) (error_threshold learner2)
       (int_wrap (bp.HiddenLayers (net learner1) + 1))
  then -10 else
  1.

End Learner.

(** ** Runs of the controller *)

Section Runs.
Context {W : Type} {BP : backprop W} {HDR : deeplearn_h}.

(** [n] calls of [deeplearn_update], one after the other. *)
Definition deeplearn_updates (n : N) (learner : deeplearn W)
  : option (deeplearn W) :=
  N.iter n (fun o => o ≫= deeplearn_update) (Some learner).

(** The later states of a learner: after calls of [deeplearn_update],
    between which the caller sets inputs and outputs. *)
Inductive later (learner : deeplearn W) : deeplearn W → Prop :=
| later_now : later learner learner
| later_update l l' :
    later learner l → deeplearn_update l = Some l' → later learner l'
| later_set_input l index value :
    later learner l → later learner (deeplearn_set_input l index value)
| later_set_output l index value :
    later learner l → later learner (deeplearn_set_output l index value).

(** The states of a learner that [deeplearn_init] has made from the
    struct [learner]. *)
Definition reachable (learner : deeplearn W)
    (no_of_inputs no_of_hiddens hidden_layers no_of_outputs : Z)
    (error_threshold : list float32) (random_seed : Z)
    (l : deeplearn W) : Prop :=
  later
    (deeplearn_init learner no_of_inputs no_of_hiddens hidden_layers
       no_of_outputs error_threshold random_seed)
    l.
End Runs.

(** ** What the proofs ask of the engine

    [bp_valid] is the engine's own invariant of a network.  The engine
    keeps it and the number of hidden layers, on calls within the layers
    of the network; the count of a valid network can be incremented as
    [deeplearn_update] does; a valid network that is saved loads back,
    whatever follows it in the file, as a network that [bp_compare]
    accepts, with the same number of hidden layers. *)
Class backprop_laws (W : Type) {BP : backprop W} : Type := {
  bp_valid : bp.t W → Prop;
  bp_valid_HiddenLayers n :
    bp_valid n → int_range (bp.HiddenLayers n);
  bp_init_valid ni nh hl no seed :
    0 < hl <= INT_MAX → bp_valid (bp_init ni nh hl no seed);
  bp_init_HiddenLayers ni nh hl no seed :
    bp.HiddenLayers (bp_init ni nh hl no seed) = hl;
  bp_create_autocoder_valid n layer :
    bp_valid n → 0 <= layer < bp.HiddenLayers n →
    bp_valid (bp_create_autocoder n layer);
  bp_pretrain_valid n ac layer :
    bp_valid n → bp_valid ac → 0 <= layer < bp.HiddenLayers n →
    bp_valid (bp_pretrain n ac layer).1 ∧ bp_valid (bp_pretrain n ac layer).2;
  bp_pretrain_HiddenLayers n ac layer :
    bp.HiddenLayers (bp_pretrain n ac layer).1 = bp.HiddenLayers n;
  bp_update_from_autocoder_valid n ac layer :
    bp_valid n → bp_valid ac → 0 <= layer < bp.HiddenLayers n →
    bp_valid (bp_update_from_autocoder n ac layer);
  bp_update_from_autocoder_HiddenLayers n ac layer :
    bp.HiddenLayers (bp_update_from_autocoder n ac layer) = bp.HiddenLayers n;
  bp_update_valid n : bp_valid n → bp_valid (bp_update n);
  bp_update_HiddenLayers n :
    bp.HiddenLayers (bp_update n) = bp.HiddenLayers n;
  bp_set_input_valid n i v : bp_valid n → bp_valid (bp_set_input n i v);
  bp_set_input_HiddenLayers n i v :
    bp.HiddenLayers (bp_set_input n i v) = bp.HiddenLayers n;
  bp_set_output_valid n i v : bp_valid n → bp_valid (bp_set_output n i v);
  bp_set_output_HiddenLayers n i v :
    bp.HiddenLayers (bp_set_output n i v) = bp.HiddenLayers n;
  bp_count_valid n :
    bp_valid n → bp.itterations n < UINT_MAX →
    bp_valid (bp.set_itterations (bp.itterations n + 1) n);
  bp_load_save n seed rest :
    bp_valid n →
    ∃ retval n',
      bp_load seed ((bp_save n).2 ++ rest) = ((retval, n'), rest)
      ∧ 1 <= bp_compare n n'
      ∧ bp.HiddenLayers n' = bp.HiddenLayers n
}.

(** ** A small engine to run the controller on

    A network of this engine has no units; a training step counts one
    itteration and reports as its running average the error [err k],
    where [k] is the new count. *)

Section Toy.
Variable err : Z → float32.

Definition toy_unknown : float32 := float_of_bits 0x461C3C00.

Definition toy_step (n : bp.t unit) : bp.t unit :=
  let k :=
    if bp.itterations n <? UINT_MAX then bp.itterations n + 1
    else bp.itterations n in
  bp.mk (bp.HiddenLayers n) (err k) k tt.

Definition toy_save (n : bp.t unit) : Z * list byte :=
  (1, int_bytes (bp.HiddenLayers n) ++ float_bytes (bp.BPerrorAverage n)
      ++ int_bytes (bp.itterations n)).

Definition toy_load (seed : Z) : io (Z * bp.t unit) :=
  ('(r, hl) <- fread_int 0;;
   '(r, err) <- fread_float float_zero;;
   '(r, it) <- fread_uint 0;;
   io_ret (r, bp.mk hl err it tt))%io.

Definition toy_compare (a b : bp.t unit) : Z :=
  if (bp.HiddenLayers a =? bp.HiddenLayers b)
     && (float_bits (bp.BPerrorAverage a) =? float_bits (bp.BPerrorAverage b))
     && (bp.itterations a =? bp.itterations b)
  then 1 else -1.

Definition toy_valid (n : bp.t unit) : Prop :=
  int_range (bp.HiddenLayers n) ∧ uint_range (bp.itterations n).

Definition toy : backprop unit := {|
  bp_init := fun _ _ hidden_layers _ _ =>
    bp.mk hidden_layers toy_unknown 0 tt;
  bp_create_autocoder := fun _ _ => bp.mk 1 toy_unknown 0 tt;
  bp_pretrain := fun n ac _ => (n, toy_step ac);
  bp_update_from_autocoder := fun n _ _ => n;
  bp_update := toy_step;
  bp_set_input := fun n _ _ => n;
  bp_set_output := fun n _ _ => n;
  bp_save := toy_save;
  bp_load := toy_load;
  bp_compare := toy_compare
|}.
End Toy.

(** The header with a history of 8 entries, and with one of 1024. *)
Definition header8 : deeplearn_h :=
  {| DEEPLEARN_HISTORY_SIZE := 8; DEEPLEARN_UNKNOWN_ERROR := toy_unknown |}.
Definition header1024 : deeplearn_h :=
  {| DEEPLEARN_HISTORY_SIZE := 1024; DEEPLEARN_UNKNOWN_ERROR := toy_unknown |}.

(** ** Vocabulary of the statements *)

Section Vocabulary.
Context {W : Type} {BP : backprop W} {HDR : deeplearn_h}.

(** The value that [deeplean_update_history] records. *)
Definition recorded_value (learner : deeplearn W) : float32 :=
  if float_eq (BPerror learner) DEEPLEARN_UNKNOWN_ERROR then float_zero
  else BPerror learner.

(** The count of a network after [deeplearn_update] has incremented it, or
    left it at [UINT_MAX]. *)
Definition counted (n : bp.t W) : bp.t W :=
  if bp.itterations n <? UINT_MAX
  then bp.set_itterations (bp.itterations n + 1) n else n.


(** The ten agreements that [deeplearn_compare] checks, in its order.
    Floats agree when C's [==] holds of them. *)
Definition agreements (learner1 learner2 : deeplearn W) : list Prop :=
  [ current_hidden_layer learner1 = current_hidden_layer learner2;
    float_eq (BPerror learner1) (BPerror learner2) = true;
    1 <= bp_compare (net learner1) (net learner2);
    (autocoder learner1 = None ↔ autocoder learner2 = None);
    history_index learner1 = history_index learner2;
    history_ctr learner1 = history_ctr learner2;
    history_step learner1 = history_step learner2;
    (∀ i, 0 <= i < history_index learner1 →
          float_eq (arr_get (history learner1) i)
            (arr_get (history learner2) i) = true);
    itterations learner1 = itterations learner2;
    (∀ i, 0 <= i < int_wrap (bp.HiddenLayers (net learner1) + 1) →
          float_eq (arr_get (error_threshold learner1) i)
            (arr_get (error_threshold learner2) i) = true) ].

(** The first [k] agreements hold and the next one does not. *)
Definition first_mismatch (learner1 learner2 : deeplearn W) (k : nat)
  : Prop :=
  Forall id (take k (agreements learner1 learner2))
  ∧ ¬ nth k (agreements learner1 learner2) True.

(** The ten tests of [deeplearn_compare], each true when the function
    returns at it, and the place of the first test that is true. *)
Definition compare_tests (learner1 learner2 : deeplearn W) : list bool :=
  [ negb (current_hidden_layer learner1 =? current_hidden_layer learner2);
    float_ne (BPerror learner1) (BPerror learner2);
    bp_compare (net learner1) (net learner2) <? 1;
    negb (Bool.eqb (is_null (autocoder learner1))
                   (is_null (autocoder learner2)));
    negb (history_index learner1 =? history_index learner2);
    negb (history_ctr learner1 =? history_ctr learner2);
    negb (history_step learner1 =? history_step learner2);
    arrays_differ (history learner1) (history learner2)
      (history_index learner1);
    negb (itterations learner1 =? itterations learner2);
    arrays_differ (error_threshold learner1) (error_threshold learner2)
      (int_wrap (bp.HiddenLayers (net learner1) + 1)) ].

Fixpoint first_true (bs : list bool) : option nat :=
  match bs with
  | [] => None
  | b :: bs => if b then Some 0%nat else S <$> first_true bs
  end.

(** The layout of the file, field by field in the order of the
    specification: trainingComplete, stepCount, currentHiddenLayer,
    currentError, the network, hasAutoencoder and the autocoder if there is
    one, the thresholds, the three history fields and the samples. *)
Definition floats_bytes (a : list float32) (n : Z) : list byte :=
  concat (map float_bytes (take (Z.to_nat n) a)).

Definition learner_header_bytes (learner : deeplearn W) : list byte :=
  int_bytes (training_complete learner)
  ++ int_bytes (itterations learner)
  ++ int_bytes (current_hidden_layer learner)
  ++ float_bytes (BPerror learner)
  ++ (bp_save (net learner)).2
  ++ match autocoder learner with
     | Some ac => int_bytes 1 ++ (bp_save ac).2
     | None => int_bytes 0
     end
  ++ floats_bytes (error_threshold learner)
       (int_wrap (bp.HiddenLayers (net learner) + 1))
  ++ int_bytes (history_index learner)
  ++ int_bytes (history_ctr learner)
  ++ int_bytes (history_step learner).

Definition learner_bytes (learner : deeplearn W) : list byte :=
  learner_header_bytes learner
  ++ floats_bytes (history learner) (history_index learner).

(** The same members bit for bit, as the claim has it: the members that
    [deeplearn_compare] looks at are equal, the floats as bit patterns. *)
Definition bitwise_agreements (learner1 learner2 : deeplearn W) : list Prop :=
  [ current_hidden_layer learner1 = current_hidden_layer learner2;
    BPerror learner1 = BPerror learner2;
    1 <= bp_compare (net learner1) (net learner2);
    (autocoder learner1 = None ↔ autocoder learner2 = None);
    history_index learner1 = history_index learner2;
    history_ctr learner1 = history_ctr learner2;
    history_step learner1 = history_step learner2;
    (∀ i, 0 <= i < history_index learner1 →
          arr_get (history learner1) i = arr_get (history learner2) i);
    itterations learner1 = itterations learner2;
    (∀ i, 0 <= i < int_wrap (bp.HiddenLayers (net learner1) + 1) →
          arr_get (error_threshold learner1) i
          = arr_get (error_threshold learner2) i) ].
End Vocabulary.

(** A learner whose history of 8 entries holds 1.0, 2.0, ..., 7.0 and whose
    error is 8.0. *)
Definition full_history_learner : deeplearn unit :=
  mk_deeplearn (bp.mk 2 toy_unknown 0 tt) (Some (bp.mk 1 toy_unknown 0 tt))
    0 (float_of_bits 0x41000000) 0
    (replicate 3 (float_of_bits 0x3DCCCCCD)) 0
    (map float_of_bits
       [0x3F800000; 0x40000000; 0x40400000; 0x40800000;
        0x40A00000; 0x40C00000; 0x40E00000; 0])
    7 0 1.

(** ** The index, counter and step of the history *)

(** What [deeplean_update_history] does to the index, the counter and the
    step of a history of [size] entries. *)
Definition history_control (size : Z) (s : Z * Z * Z) : Z * Z * Z :=
  let '(index, ctr, step) := s in
  let ctr := int_wrap (ctr + 1) in
  if ctr >=? step then
    let index := int_wrap (index + 1) in
    if index >=? size then (index `quot` 2, 0, int_wrap (step * 2))
    else (index, 0, step)
  else (index, ctr, step).

Definition control {W} (learner : deeplearn W) : Z * Z * Z :=
  (history_index learner, history_ctr learner, history_step learner).

(** The number of updates until the history of [size] entries has been
    compacted [rounds] times, when every update records or skips. *)
Definition updates_until (size : Z) (rounds : nat) : N :=
  Z.to_N (size + (size - size `quot` 2) * (2 ^ Z.of_nat rounds - 2)).

(** ** Learners that can be saved *)

Section WellFormed.
Context {W : Type} {BP : backprop W} {LAWS : backprop_laws W}.

(** The members are in the range of their types, the networks are valid,
    the array of thresholds has an entry for each hidden layer and one
    more, and the index of the history is within the array. *)
Record well_formed (learner : deeplearn W) : Prop := {
  wf_training_complete : int_range (training_complete learner);
  wf_itterations : uint_range (itterations learner);
  wf_current_hidden_layer : int_range (current_hidden_layer learner);
  wf_net : bp_valid (net learner);
  wf_autocoder : ∀ ac, autocoder learner = Some ac → bp_valid ac;
  wf_HiddenLayers : 0 <= bp.HiddenLayers (net learner) < INT_MAX;
  wf_error_threshold :
    bp.HiddenLayers (net learner) + 1
    <= Z.of_nat (length (error_threshold learner));
  wf_history_index :
    0 <= history_index learner <= Z.of_nat (length (history learner));
  wf_history_index_range : int_range (history_index learner);
  wf_history_ctr : int_range (history_ctr learner);
  wf_history_step : int_range (history_step learner)
}.

(** None of the floats that [deeplearn_compare] looks at is a NaN. *)
Definition nan_free (learner : deeplearn W) : Prop :=
  float_isnan (BPerror learner) = false
  ∧ (∀ i, 0 <= i < history_index learner →
          float_isnan (arr_get (history learner) i) = false)
  ∧ (∀ i, 0 <= i < bp.HiddenLayers (net learner) + 1 →
          float_isnan (arr_get (error_threshold learner) i) = false).

(** What holds of the history after [deeplearn_init] and any number of
    updates: the array has its [DEEPLEARN_HISTORY_SIZE] entries, the index
    is within it, the counter is below the step (or 0, once the step has
    left the positive range), and the step is a power of two in 32-bit
    arithmetic. *)
Record history_invariant {HDR : deeplearn_h} (learner : deeplearn W)
  : Prop := {
  hi_length : Z.of_nat (length (history learner)) = DEEPLEARN_HISTORY_SIZE;
  hi_index : 0 <= history_index learner < DEEPLEARN_HISTORY_SIZE;
  hi_ctr : 0 <= history_ctr learner;
  hi_ctr_step :
    history_ctr learner < history_step learner ∨ history_ctr learner = 0;
  hi_step : ∃ k : nat, history_step learner = int_wrap (2 ^ Z.of_nat k)
}.

(** Two learners with the same history. *)
Definition same_history (learner1 learner2 : deeplearn W) : Prop :=
  history learner1 = history learner2
  ∧ history_index learner1 = history_index learner2
  ∧ history_ctr learner1 = history_ctr learner2
  ∧ history_step learner1 = history_step learner2.

(** What holds of the other members of a learner that [deeplearn_init]
    has made with [hidden_layers] hidden layers and the array
    [thresholds]. *)
Record learner_invariant (hidden_layers : Z) (thresholds : list float32)
    (learner : deeplearn W) : Prop := {
  li_HiddenLayers : bp.HiddenLayers (net learner) = hidden_layers;
  li_net : bp_valid (net learner);
  li_autocoder_valid : ∀ ac, autocoder learner = Some ac → bp_valid ac;
  li_layer : 0 <= current_hidden_layer learner <= hidden_layers;
  li_autocoder :
    autocoder learner = None ↔ current_hidden_layer learner = hidden_layers;
  li_error_threshold :
    error_threshold learner = take (Z.to_nat (hidden_layers + 1)) thresholds;
  li_itterations : itterations learner = 0;
  li_training_complete :
    training_complete learner = 0
    ∨ (training_complete learner = 1
       ∧ current_hidden_layer learner = hidden_layers)
}.
End WellFormed.

(** ** Learners to run

    An engine whose error is always 0.0, one whose error always is the
    unknown error, and one whose error is always a NaN; the struct that a
    caller passes to [deeplearn_init], with whatever it holds, for a
    history of 8 entries; and the learner of the test
    [test_deeplearn_update]: 10 inputs, 4 hidden units in each of 2 hidden
    layers, 2 outputs, thresholds 0.1. *)

Definition float_nan : float32 := float_of_bits 0x7FC00000.
Definition float_tenth : float32 := float_of_bits 0x3DCCCCCD.

Definition quick_engine : backprop unit := toy (fun _ => float_zero).
Definition stalled_engine : backprop unit := toy (fun _ => toy_unknown).
Definition nan_engine : backprop unit := toy (fun _ => float_nan).

Definition blank_learner : deeplearn unit :=
  mk_deeplearn (bp.mk 7 float_zero 3 tt) None 5 float_zero 77 [] 9
    (replicate 8 (float_of_bits 0xDEADBEEF)) 4 5 6.

Definition test_learner (BP : backprop unit) : deeplearn unit :=
  deeplearn_init (BP := BP) (HDR := header8) blank_learner 10 4 2 2
    [float_tenth; float_tenth; float_tenth] 123.

(** The test learner after [n] updates. *)
Definition test_learner_after (BP : backprop unit) (n : N) : deeplearn unit :=
  default blank_learner
    (deeplearn_updates (BP := BP) (HDR := header8) n (test_learner BP)).

(** The test learner with a history of 1024 entries, on the engine whose
    error is always unknown. *)
Definition blank_learner_1024 : deeplearn unit :=
  mk_deeplearn (bp.mk 7 float_zero 3 tt) None 5 float_zero 77 [] 9
    (replicate 1024 (float_of_bits 0xDEADBEEF)) 4 5 6.

Definition stalled_learner : deeplearn unit :=
  deeplearn_init (BP := stalled_engine) (HDR := header1024)
    blank_learner_1024 10 4 2 2 [float_tenth; float_tenth; float_tenth] 123.

(** A learner on that engine that is, and stays, at layer 0. *)
Definition stalled (learner : deeplearn unit) : Prop :=
  training_complete learner = 0
  ∧ current_hidden_layer learner = 0
  ∧ bp.HiddenLayers (net learner) = 2
  ∧ is_null (autocoder learner) = false.

(** ** Strings ([utils.c])

    A C string is the list of its chars, without the NUL that ends it; a
    pointer into a string is the rest of the string from there on, and a
    null pointer is [None]. *)

(** [strrchr(s, c)], for a [c] that is not NUL: the string from the last
    [c] on. *)
Fixpoint strrchr (s : list byte) (c : byte) : option (list byte) :=
  match s with
  | [] => None
  | x :: s' =>
      match strrchr s' c with
      | Some r => Some r
      | None => if Byte.eqb x c then Some s else None
      end
  end.

(** [strcmp(s1, s2)]: the sign of the first difference, the chars compared
    as [unsigned char]. *)
Fixpoint strcmp (s1 s2 : list byte) : Z :=
  match s1, s2 with
  | [], [] => 0
  | [], _ :: _ => -1
  | _ :: _, [] => 1
  | c1 :: s1', c2 :: s2' =>
      if byte.unsigned c1 <? byte.unsigned c2 then -1
      else if byte.unsigned c2 <? byte.unsigned c1 then 1
      else strcmp s1' s2'
  end.

Definition string_ends_with_extension (str extension : list byte) : Z :=
  match strrchr str "."%byte with
  | Some dot =>
      let dot := tail dot in
      if strcmp dot extension =? 0 then 1 else 0
  | None => 0
  end.

(** ** The heap

    What [malloc] and [free] see of the learner.  A block of the heap is
    at an address, its place in the list; it has been released ([Freed]),
    or it holds floats, or it is the size of a [bp]: [Raw] as [malloc]
    gives it or as [bp_free] leaves it, [Network] once the engine has
    made a network in it, which owns memory of the engine's.  [free] of a
    [Network] releases the block and loses that memory ([Leaked]).  [None]
    is undefined behaviour: a block is used that is not there or is not
    what the code takes it for, or it is released twice.  [malloc] gives a
    new block (the code does not test its result). *)

Inductive block : Type := Freed | Leaked | Floats | Raw | Network.

#[global] Instance block_eq_dec : EqDecision block.
Proof. solve_decision. Defined.

Abbreviation heap := (list block).

Definition malloc (b : block) (h : heap) : nat * heap := (length h, h ++ [b]).

Definition free (a : nat) (h : heap) : option heap :=
  match h !! a with
  | Some Floats | Some Raw => Some (<[a := Freed]> h)
  | Some Network => Some (<[a := Leaked]> h)
  | _ => None
  end.

(** The engine makes a network in a block ([bp_init],
    [bp_create_autocoder], [bp_load]), releases what a network owns
    ([bp_free]), or uses a network. *)
Definition bp_made (a : nat) (h : heap) : option heap :=
  match h !! a with
  | Some Raw => Some (<[a := Network]> h)
  | _ => None
  end.

Definition bp_free (a : nat) (h : heap) : option heap :=
  match h !! a with
  | Some Network => Some (<[a := Raw]> h)
  | _ => None
  end.

Definition used (b : block) (a : nat) (h : heap) : option heap :=
  match h !! a with
  | Some b' => if decide (b' = b) then Some h else None
  | None => None
  end.

(** The struct [deeplearn] in memory: its members, and the addresses in
    its three pointers.  The pointer [autocoder] is null when the member
    is [None], whatever its address here. *)
Record deeplearn_mem (W : Type) : Type := mk_mem {
  members : deeplearn W;
  net_ptr : nat;
  autocoder_ptr : nat;
  error_threshold_ptr : nat
}.
Arguments mk_mem {W}.
Arguments members {W}.
Arguments net_ptr {W}.
Arguments autocoder_ptr {W}.
Arguments error_threshold_ptr {W}.

Section Memory.
Context {W : Type} {BP : backprop W} {HDR : deeplearn_h}.

(** [deeplearn_init] with its three calls of [malloc]. *)
Definition deeplearn_init_mem (s : deeplearn_mem W)
    (no_of_inputs no_of_hiddens hidden_layers no_of_outputs : Z)
    (error_threshold : list float32) (random_seed : Z) (h : heap)
  : option (deeplearn_mem W * heap) :=
  let learner := members s in
  let learner := set_training_complete 0 learner in
  let '(thresholds_at, h) := malloc Floats h in
  let learner :=
    set_error_threshold
      (take (Z.to_nat (int_wrap (hidden_layers + 1))) error_threshold)
      learner in
  let learner := set_history_index 0 learner in
  let learner := set_history_ctr 0 learner in
  let learner := set_history_step 1 learner in
  let learner := set_itterations 0 learner in
  let learner := set_current_hidden_layer 0 learner in
  let '(net_at, h) := malloc Raw h in
  h ← bp_made net_at h;
  let learner :=
    set_net
      (bp_init no_of_inputs no_of_hiddens hidden_layers no_of_outputs
         random_seed)
      learner in
  let '(autocoder_at, h) := malloc Raw h in
  h ← used Network net_at h;
  h ← bp_made autocoder_at h;
  let learner :=
    set_autocoder
      (Some (bp_create_autocoder (net learner)
               (current_hidden_layer learner)))
      learner in
  let learner := set_BPerror DEEPLEARN_UNKNOWN_ERROR learner in
  Some (mk_mem learner net_at autocoder_at thresholds_at, h).

(** [deeplearn_update] with the blocks it uses, releases and makes. *)
Definition deeplearn_update_mem (s : deeplearn_mem W) (h : heap)
  : option (deeplearn_mem W * heap) :=
  let learner := members s in
  if training_complete learner =? 1 then Some (s, h) else
  h ← used Floats (error_threshold_ptr s) h;
  let max_backprop_error :=
    arr_get (error_threshold learner) (current_hidden_layer learner) in
  h ← used Network (net_ptr s) h;
  '(s, h) ←
    (if current_hidden_layer learner <? bp.HiddenLayers (net learner) then
       ac ← autocoder learner;
       h ← used Network (autocoder_ptr s) h;
       let '(n, ac) :=
         bp_pretrain (net learner) ac (current_hidden_layer learner) in
       let learner := set_autocoder (Some ac) (set_net n learner) in
       let learner := set_BPerror (bp.BPerrorAverage ac) learner in
       if float_ne (BPerror learner) DEEPLEARN_UNKNOWN_ERROR
          && float_lt (BPerror learner) max_backprop_error
          && (100 <? bp.itterations ac)
       then
         let learner :=
           set_net
             (bp_update_from_autocoder (net learner) ac
                (current_hidden_layer learner))
             learner in
         h ← bp_free (autocoder_ptr s) h;
         h ← free (autocoder_ptr s) h;
         let learner := set_autocoder None learner in
         let learner :=
           set_current_hidden_layer
             (int_wrap (current_hidden_layer learner + 1)) learner in
         '(learner, autocoder_at, h) ←
           (if current_hidden_layer learner
               <? bp.HiddenLayers (net learner)
            then
              let '(autocoder_at, h) := malloc Raw h in
              h ← bp_made autocoder_at h;
              Some
                (set_autocoder
                   (Some (bp_create_autocoder (net learner)
                            (current_hidden_layer learner)))
                   learner,
                 autocoder_at, h)
            else Some (learner, autocoder_ptr s, h));
         Some
           (mk_mem (set_BPerror DEEPLEARN_UNKNOWN_ERROR learner)
              (net_ptr s) autocoder_at (error_threshold_ptr s),
            h)
       else
         Some
           (mk_mem learner (net_ptr s) (autocoder_ptr s)
              (error_threshold_ptr s),
            h)
     else
       let learner := set_net (bp_update (net learner)) learner in
       let learner :=
         set_BPerror (bp.BPerrorAverage (net learner)) learner in
       if float_lt (BPerror learner) max_backprop_error
       then
         Some
           (mk_mem (set_training_complete 1 learner) (net_ptr s)
              (autocoder_ptr s) (error_threshold_ptr s),
            h)
       else
         Some
           (mk_mem learner (net_ptr s) (autocoder_ptr s)
              (error_threshold_ptr s),
            h));
  let learner := deeplean_update_history (members s) in
  let learner :=
    if bp.itterations (net learner) <? UINT_MAX then
      set_net
        (bp.set_itterations (bp.itterations (net learner) + 1)
           (net learner))
        learner
    else learner in
  Some
    (mk_mem learner (net_ptr s) (autocoder_ptr s) (error_threshold_ptr s),
     h).

(** [deeplearn_free]: the pointers of the struct are left as they
    are. *)
Definition deeplearn_free (s : deeplearn_mem W) (h : heap) : option heap :=
  h ← bp_free (net_ptr s) h;
  h ← free (net_ptr s) h;
  h ← free (error_threshold_ptr s) h;
  if negb (is_null (autocoder (members s))) then
    h ← bp_free (autocoder_ptr s) h;
    free (autocoder_ptr s) h
  else Some h.

(** [deeplearn_set_input] and [deeplearn_set_output] use the network. *)
Definition deeplearn_set_input_mem (s : deeplearn_mem W) (index : Z)
    (value : float32) (h : heap) : option (deeplearn_mem W * heap) :=
  h ← used Network (net_ptr s) h;
  Some
    (mk_mem (deeplearn_set_input (members s) index value) (net_ptr s)
       (autocoder_ptr s) (error_threshold_ptr s),
     h).

Definition deeplearn_set_output_mem (s : deeplearn_mem W) (index : Z)
    (value : float32) (h : heap) : option (deeplearn_mem W * heap) :=
  h ← used Network (net_ptr s) h;
  Some
    (mk_mem (deeplearn_set_output (members s) index value) (net_ptr s)
       (autocoder_ptr s) (error_threshold_ptr s),
     h).
End Memory.

Section Ownership.
Context {W : Type} {BP : backprop W} {HDR : deeplearn_h}.

(** The later states of a learner in memory: after updates, between which
    the caller sets inputs and outputs. *)
Inductive later_mem (s : deeplearn_mem W) (h : heap)
  : deeplearn_mem W → heap → Prop :=
| later_mem_now : later_mem s h s h
| later_mem_update s1 h1 s2 h2 :
    later_mem s h s1 h1 → deeplearn_update_mem s1 h1 = Some (s2, h2) →
    later_mem s h s2 h2
| later_mem_set_input s1 h1 index value s2 h2 :
    later_mem s h s1 h1 →
    deeplearn_set_input_mem s1 index value h1 = Some (s2, h2) →
    later_mem s h s2 h2
| later_mem_set_output s1 h1 index value s2 h2 :
    later_mem s h s1 h1 →
    deeplearn_set_output_mem s1 index value h1 = Some (s2, h2) →
    later_mem s h s2 h2.

(** The learner owns its blocks on a heap that has grown from [h0]: what
    was in [h0] is as it was; the network, the thresholds and, when there
    is one, the autocoder are blocks allocated since, each what it should
    be, and the autocoder is not the network; every other block allocated
    since has been released. *)
Record owns (h0 : heap) (s : deeplearn_mem W) (h : heap) : Prop := {
  owns_length : (length h0 ≤ length h)%nat;
  owns_base : ∀ a, (a < length h0)%nat → h !! a = h0 !! a;
  owns_net :
    (length h0 ≤ net_ptr s)%nat ∧ h !! net_ptr s = Some Network;
  owns_error_threshold :
    (length h0 ≤ error_threshold_ptr s)%nat
    ∧ h !! error_threshold_ptr s = Some Floats;
  owns_autocoder :
    autocoder (members s) ≠ None →
    (length h0 ≤ autocoder_ptr s)%nat
    ∧ h !! autocoder_ptr s = Some Network
    ∧ autocoder_ptr s ≠ net_ptr s;
  owns_others :
    ∀ a, (length h0 ≤ a < length h)%nat →
         a ≠ net_ptr s → a ≠ error_threshold_ptr s →
         (autocoder (members s) ≠ None → a ≠ autocoder_ptr s) →
         h !! a = Some Freed
}.

(** [n] calls of [deeplearn_update] in memory, one after the other. *)
Definition deeplearn_updates_mem (n : N) (s : deeplearn_mem W) (h : heap)
  : option (deeplearn_mem W * heap) :=
  N.iter n (fun o => o ≫= λ '(s, h), deeplearn_update_mem s h) (Some (s, h)).

(** Every block allocated since [h0] has been released. *)
Definition released (h0 h : heap) : Prop :=
  h = h0 ++ replicate (length h - length h0) Freed.
End Ownership.

(** ** Files and the test in memory *)

Definition float_hundredth : float32 := float_of_bits 0x3C23D70A.

Section MemoryLoad.
Context {W : Type} {BP : backprop W}.

(** [deeplearn_load] with its calls of [malloc]: the result, the struct,
    what is left of the file, and the heap. *)
Definition deeplearn_load_mem (s : deeplearn_mem W) (random_seed : Z)
    (fp : FILE) (h : heap)
  : option (Z * deeplearn_mem W * FILE * heap) :=
  let learner := members s in
  let '((retval, v), fp) := fread_int (training_complete learner) fp in
  let learner := set_training_complete v learner in
  let '((retval, v), fp) := fread_uint (itterations learner) fp in
  let learner := set_itterations v learner in
  let '((retval, v), fp) := fread_int (current_hidden_layer learner) fp in
  let learner := set_current_hidden_layer v learner in
  let '((retval, v), fp) := fread_float (BPerror learner) fp in
  let learner := set_BPerror v learner in
  let '(net_at, h) := malloc Raw h in
  let '((retval, n), fp) := bp_load random_seed fp in
  h ← bp_made net_at h;
  let learner := set_net n learner in
  let '((retval, val), fp) := fread_int 0 fp in
  '(retval, learner, autocoder_at, fp, h) ←
    (if val =? 1 then
       let '(autocoder_at, h) := malloc Raw h in
       let '((retval, ac), fp) := bp_load random_seed fp in
       h ← bp_made autocoder_at h;
       Some (retval, set_autocoder (Some ac) learner, autocoder_at, fp, h)
     else
       Some (retval, set_autocoder None learner, autocoder_ptr s, fp, h));
  h ← used Network net_at h;
  let n := int_wrap (bp.HiddenLayers (net learner) + 1) in
  let '(thresholds_at, h) := malloc Floats h in
  let '((retval, a), fp) := fread_floats (malloc_floats n) n fp in
  let learner := set_error_threshold a learner in
  let '((retval, v), fp) := fread_int (history_index learner) fp in
  let learner := set_history_index v learner in
  let '((retval, v), fp) := fread_int (history_ctr learner) fp in
  let learner := set_history_ctr v learner in
  let '((retval, v), fp) := fread_int (history_step learner) fp in
  let learner := set_history_step v learner in
  let '((retval, a), fp) :=
    fread_floats (history learner) (history_index learner) fp in
  let learner := set_history a learner in
  Some (retval, mk_mem learner net_at autocoder_at thresholds_at, fp, h).
End MemoryLoad.

Section MemoryFiles.
Context {W : Type} {BP : backprop W}.

(** [deeplearn_save] and [deeplearn_compare] read the blocks of the
    learners. *)
Definition deeplearn_save_mem (s : deeplearn_mem W) (fp : FILE) (h : heap)
  : option (Z * FILE) :=
  h ← used Network (net_ptr s) h;
  h ← (if negb (is_null (autocoder (members s)))
       then used Network (autocoder_ptr s) h else Some h);
  h ← used Floats (error_threshold_ptr s) h;
  Some (deeplearn_save (members s) fp).

(** [deeplearn_compare] uses the networks when it comes to
    [bp_compare], and the thresholds when it comes to them and there is
    one to compare. *)
Definition deeplearn_compare_mem (s1 s2 : deeplearn_mem W) (h : heap)
  : option Z :=
  let learner1 := members s1 in
  let learner2 := members s2 in
  if negb (current_hidden_layer learner1 =? current_hidden_layer learner2)
  then Some (-1) else
  if float_ne (BPerror learner1) (BPerror learner2) then Some (-2) else
  h ← used Network (net_ptr s1) h;
  h ← used Network (net_ptr s2) h;
  let retval := bp_compare (net learner1) (net learner2) in
  if retval <? 1 then Some (-3) else
  if negb (Bool.eqb (is_null (autocoder learner1))
                    (is_null (autocoder learner2)))
  then Some (-4) else
  if negb (history_index learner1 =? history_index learner2)
  then Some (-5) else
  if negb (history_ctr learner1 =? history_ctr learner2) then Some (-6) else
  if negb (history_step learner1 =? history_step learner2)
  then Some (-7) else
  if arrays_differ (history learner1) (history learner2)
       (history_index learner1)
  then Some (-8) else
  if negb (itterations learner1 =? itterations learner2) then Some (-9) else
  h ←
    (if 0 <? int_wrap (bp.HiddenLayers (net learner1) + 1) then
       h ← used Floats (error_threshold_ptr s1) h;
       used Floats (error_threshold_ptr s2) h
     else Some h);
  if arrays_differ (error_threshold learner1) (error_threshold learner2)
       (int_wrap (bp.HiddenLayers (net learner1) + 1))
  then Some (-10) else
  Some 1.
End MemoryFiles.

Section MemoryTest.
Context {W : Type} {BP : backprop W} {HDR : deeplearn_h}.

(** The test [test_deeplearn_save_load] ([tests_deeplearn.c]).  The two
    structs are locals of the test, which hold anything; [seed] is what
    [bp_init] has left in [random_seed] when [deeplearn_load] gets it.  The
    file is opened empty for writing and read again from its start (both
    calls of [fopen] are taken to succeed).  The result is [false] with
    the heap as it is when [assert] stops the test, and [true] with the
    heap at the end of the test. *)
Definition test_deeplearn_save_load (learner1 learner2 : deeplearn_mem W)
    (seed : Z) (h : heap) : option (bool * heap) :=
  let no_of_inputs := 10 in
  let no_of_hiddens := 4 in
  let no_of_outputs := 3 in
  let hidden_layers := 3 in
  let error_threshold :=
    [float_hundredth; float_hundredth; float_hundredth; float_hundredth] in
  let random_seed := 123 in
  '(learner1, h) ←
    deeplearn_init_mem learner1 no_of_inputs no_of_hiddens hidden_layers
      no_of_outputs error_threshold random_seed h;
  let fp : FILE := [] in
  '(_, fp) ← deeplearn_save_mem learner1 fp h;
  '(_, learner2, _, h) ← deeplearn_load_mem learner2 seed fp h;
  retval ← deeplearn_compare_mem learner1 learner2 h;
  if negb (retval =? 1) then Some (false, h) else
  h ← deeplearn_free learner1 h;
  h ← deeplearn_free learner2 h;
  Some (true, h).
End MemoryTest.

(** The blocks of a learner are there. *)
Definition blocks_of {W} (s : deeplearn_mem W) (h : heap) : Prop :=
  h !! net_ptr s = Some Network
  ∧ h !! error_threshold_ptr s = Some Floats
  ∧ (autocoder (members s) ≠ None →
     h !! autocoder_ptr s = Some Network ∧ autocoder_ptr s ≠ net_ptr s).

(** ** More learners to run

    The test learner with a history of 1024 entries, on the engine whose
    error is always 0.0; a learner as a file can describe it, at layer 0
    of 2 and with no autocoder; and the test learner in memory, made on a
    heap [h0] from a struct whose pointers hold 0. *)

Definition test_learner_1024 : deeplearn unit :=
  deeplearn_init (BP := quick_engine) (HDR := header1024) blank_learner_1024
    10 4 2 2 [float_tenth; float_tenth; float_tenth] 123.

Definition test_learner_1024_after (n : N) : deeplearn unit :=
  default blank_learner_1024
    (deeplearn_updates (BP := quick_engine) (HDR := header1024) n
       test_learner_1024).

Definition unchecked_learner : deeplearn unit :=
  mk_deeplearn (bp.mk 2 toy_unknown 0 tt) None 0 toy_unknown 0
    [float_tenth; float_tenth; float_tenth] 0 (replicate 8 float_zero)
    0 0 1.

Definition blank_struct : deeplearn_mem unit := mk_mem blank_learner 0 0 0.

Definition test_struct (h0 : heap) : deeplearn_mem unit * heap :=
  default (blank_struct, h0)
    (deeplearn_init_mem (BP := quick_engine) (HDR := header8) blank_struct
       10 4 2 2 [float_tenth; float_tenth; float_tenth] 123 h0).

Definition test_struct_after (h0 : heap) (n : N)
  : deeplearn_mem unit * heap :=
  default (blank_struct, h0)
    (deeplearn_updates_mem (BP := quick_engine) (HDR := header8) n
       (test_struct h0).1 (test_struct h0).2).

(** The test learner in memory after 150 updates, initialised a second
    time and updated three times, and the heap after [deeplearn_free]. *)
Definition test_struct_again (h0 : heap) : deeplearn_mem unit * heap :=
  let '(s, h) := test_struct_after h0 150 in
  let start :=
    default (s, h)
      (deeplearn_init_mem (BP := quick_engine) (HDR := header8) s
         10 4 2 2 [float_tenth; float_tenth; float_tenth] 123 h) in
  default start
    (deeplearn_updates_mem (BP := quick_engine) (HDR := header8) 3
       start.1 start.2).

(** * Properties *)

(** ** Integers and bytes *)

Lemma int_wrap_id z : int_range z → int_wrap z = z.
Proof.
  unfold int_range, int_wrap, INT_MIN, INT_MAX. intros Hz.
  rewrite Z.mod_small; lia.
Qed.

Lemma int_wrap_range z : int_range (int_wrap z).
Proof.
  unfold int_range, int_wrap, INT_MIN, INT_MAX.
  pose proof (Z.mod_pos_bound (z + 2 ^ 31) (2 ^ 32) ltac:(lia)). lia.
Qed.

Lemma int_of_bytes_int_bytes z : int_range z → int_of_bytes (int_bytes z) = z.
Proof.
  intros Hz. unfold int_of_bytes, int_bytes.
  rewrite le_combine_split. change (Z.of_nat 4 * 8) with 32.
  unfold int_wrap. unfold int_range, INT_MIN, INT_MAX in Hz.
  rewrite Zplus_mod_idemp_l. rewrite Z.mod_small; lia.
Qed.

Lemma uint_of_bytes_int_bytes z :
  uint_range z → uint_of_bytes (int_bytes z) = z.
Proof.
  intros Hz. unfold uint_of_bytes, int_bytes.
  rewrite le_combine_split. change (Z.of_nat 4 * 8) with 32.
  unfold uint_range, UINT_MAX in Hz. rewrite Z.mod_small; lia.
Qed.

Lemma int_bytes_four z : ∃ a b c d, int_bytes z = [a; b; c; d].
Proof. unfold int_bytes. simpl. eauto. Qed.

(** ** Reading back what was written *)

Lemma fread_int_int_bytes old z rest :
  int_range z → fread_int old (int_bytes z ++ rest) = ((1, z), rest).
Proof.
  intros Hz. destruct (int_bytes_four z) as (a & b & c & d & E).
  unfold fread_int. rewrite E. simpl. rewrite <- E.
  by rewrite int_of_bytes_int_bytes.
Qed.

Lemma fread_uint_int_bytes old z rest :
  uint_range z → fread_uint old (int_bytes z ++ rest) = ((1, z), rest).
Proof.
  intros Hz. destruct (int_bytes_four z) as (a & b & c & d & E).
  unfold fread_uint. rewrite E. simpl. rewrite <- E.
  by rewrite uint_of_bytes_int_bytes.
Qed.

Lemma fread_float_float_bytes old x rest :
  fread_float old (float_bytes x ++ rest) = ((1, x), rest).
Proof. by destruct x. Qed.

Lemma fread_items_float_bytes xs rest :
  fread_items (length xs) (concat (map float_bytes xs) ++ rest) = (xs, rest).
Proof.
  induction xs as [|x xs IH]; [done|].
  destruct x. simpl. by rewrite IH.
Qed.

Lemma fread_floats_float_bytes old xs n rest :
  Z.to_nat n = length xs → 0 <= n →
  fread_floats old n (concat (map float_bytes xs) ++ rest)
  = ((n, xs ++ drop (length xs) old), rest).
Proof.
  intros Hn Hpos. unfold fread_floats. rewrite Hn.
  rewrite fread_items_float_bytes. do 3 f_equal. lia.
Qed.

(** ** Floats *)

Lemma float_eq_refl x : float_isnan x = false → float_eq x x = true.
Proof. intros H. unfold float_eq. rewrite H. simpl. apply Z.eqb_refl. Qed.

Lemma float_eq_self x : float_eq x x = true ↔ float_isnan x = false.
Proof.
  unfold float_eq. rewrite Z.eqb_refl, andb_true_r.
  destruct (float_isnan x); cbn; split; done.
Qed.

Lemma float_ne_false x y : float_ne x y = false ↔ float_eq x y = true.
Proof. unfold float_ne. by destruct (float_eq x y). Qed.

(** The comparisons at some floats: 0 < 0.1 < 9999; a NaN is not equal to
    itself and not below 0.1; -0 == +0; -1 < 0; -inf < +inf. *)
Example float_comparisons :
  float_lt float_zero float_tenth = true
  ∧ float_lt float_tenth toy_unknown = true
  ∧ float_eq float_nan float_nan = false
  ∧ float_ne float_nan float_nan = true
  ∧ float_lt float_nan float_tenth = false
  ∧ float_eq (float_of_bits 0x80000000) float_zero = true
  ∧ float_lt (float_of_bits 0xBF800000) float_zero = true
  ∧ float_lt (float_of_bits 0xFF800000) (float_of_bits 0x7F800000) = true.
Proof. by vm_compute. Qed.

(** ** Arrays *)

Lemma arr_get_nat (a : list float32) (i : nat) :
  arr_get a (Z.of_nat i) = default float_zero (a !! i).
Proof.
  unfold arr_get. destruct (Z.ltb_spec (Z.of_nat i) 0); [lia|].
  by rewrite Nat2Z.id.
Qed.

Lemma arr_set_nat (a : list float32) (i : nat) v :
  arr_set a (Z.of_nat i) v = <[i := v]> a.
Proof.
  unfold arr_set. destruct (Z.ltb_spec (Z.of_nat i) 0); [lia|].
  by rewrite Nat2Z.id.
Qed.

Lemma arr_set_length a i v : length (arr_set a i v) = length a.
Proof. unfold arr_set. destruct (i <? 0); [done|]. apply length_insert. Qed.

(** ** The compaction of the history *)

Lemma quot2_nat (i : nat) : Z.of_nat i `quot` 2 = Z.of_nat (i / 2).
Proof. rewrite Z.quot_div_nonneg by lia. by rewrite Nat2Z.inj_div. Qed.

Lemma compact_history_S n h :
  compact_history (S n) h
  = <[(n / 2)%nat := default float_zero (compact_history n h !! n)]>
      (compact_history n h).
Proof.
  unfold compact_history. rewrite seq_S, fold_left_app. simpl.
  by rewrite quot2_nat, arr_set_nat, arr_get_nat.
Qed.

Lemma compact_history_length n h : length (compact_history n h) = length h.
Proof.
  induction n as [|n IH]; [done|].
  by rewrite compact_history_S, length_insert.
Qed.

(** After the loop has run over the first [n] entries, entry [j] holds the
    last entry that was copied to it: the odd one of the pair [2j], [2j+1]
    when both are below [n]. *)
Lemma compact_history_lookup n h j :
  (n ≤ length h)%nat →
  compact_history n h !! j
  = if decide (2 * j + 1 < n)%nat then h !! (2 * j + 1)%nat
    else if decide (2 * j < n)%nat then h !! (2 * j)%nat
    else h !! j.
Proof.
  revert j. induction n as [|n IH]; intros j Hn.
  - repeat case_decide; try lia. done.
  - rewrite compact_history_S.
    assert (Hn' : (n ≤ length h)%nat) by lia.
    assert (Hdiv : (2 * (n / 2) ≤ n < 2 * (n / 2) + 2)%nat).
    { pose proof (Nat.div_mod_eq n 2).
      pose proof (Nat.mod_upper_bound n 2). lia. }
    assert (Hread : compact_history n h !! n = h !! n).
    { rewrite IH by done. repeat case_decide; try lia; done. }
    assert (Hlt : (n < length h)%nat) by lia.
    destruct (lookup_lt_is_Some_2 h n Hlt) as [x Hx].
    rewrite Hread, Hx. cbn [from_option id].
    destruct (decide (j = n / 2)%nat) as [->|Hj].
    + rewrite list_lookup_insert_eq
        by (rewrite compact_history_length; lia).
      repeat case_decide; try lia.
      * replace (2 * (n / 2) + 1)%nat with n by lia. done.
      * replace (2 * (n / 2))%nat with n by lia. done.
    + rewrite list_lookup_insert_ne by done.
      rewrite IH by done. repeat case_decide; try lia; done.
Qed.

(** ** [deeplean_update_history] *)

Section History.
Context {W : Type} {HDR : deeplearn_h}.
Implicit Type learner : deeplearn W.

(** The members that [deeplean_update_history] does not assign. *)
Lemma update_history_frame learner :
  let learner' := deeplean_update_history learner in
  net learner' = net learner
  ∧ autocoder learner' = autocoder learner
  ∧ current_hidden_layer learner' = current_hidden_layer learner
  ∧ BPerror learner' = BPerror learner
  ∧ itterations learner' = itterations learner
  ∧ error_threshold learner' = error_threshold learner
  ∧ training_complete learner' = training_complete learner.
Proof.
  unfold deeplean_update_history. cbn.
  repeat (match goal with |- context [if ?b then _ else _] => destruct b end);
    cbn; auto 10.
Qed.

(** The same, to reason about a learner after [deeplean_update_history]
    without looking into the function. *)
Lemma update_history_frame_ind learner (P : deeplearn W → Prop) :
  (∀ learner',
     net learner' = net learner →
     autocoder learner' = autocoder learner →
     current_hidden_layer learner' = current_hidden_layer learner →
     BPerror learner' = BPerror learner →
     itterations learner' = itterations learner →
     error_threshold learner' = error_threshold learner →
     training_complete learner' = training_complete learner →
     P learner') →
  P (deeplean_update_history learner).
Proof.
  intros HP.
  destruct (update_history_frame learner) as (?&?&?&?&?&?&?).
  by apply HP.
Qed.

(** Between two recorded samples only the counter moves. *)
Lemma update_history_skip learner :
  int_wrap (history_ctr learner + 1) < history_step learner →
  deeplean_update_history learner
  = set_history_ctr (int_wrap (history_ctr learner + 1)) learner.
Proof.
  intros H. unfold deeplean_update_history. cbn.
  destruct (Z.geb_spec (int_wrap (history_ctr learner + 1))
              (history_step learner)); [lia|done].
Qed.

(** A sample is recorded and the history is not full. *)
Lemma update_history_record learner :
  history_step learner <= int_wrap (history_ctr learner + 1) →
  int_wrap (history_index learner + 1) < DEEPLEARN_HISTORY_SIZE →
  let learner' := deeplean_update_history learner in
  history learner'
  = arr_set (history learner) (history_index learner)
      (recorded_value learner)
  ∧ history_index learner' = int_wrap (history_index learner + 1)
  ∧ history_ctr learner' = 0
  ∧ history_step learner' = history_step learner.
Proof.
  intros H1 H2. unfold deeplean_update_history, recorded_value. cbn.
  destruct (Z.geb_spec (int_wrap (history_ctr learner + 1))
              (history_step learner)); [|lia]. cbn.
  destruct (Z.geb_spec (int_wrap (history_index learner + 1))
              DEEPLEARN_HISTORY_SIZE); [lia|]. done.
Qed.

(** A sample is recorded and fills the history. *)
Lemma update_history_compact learner :
  history_step learner <= int_wrap (history_ctr learner + 1) →
  DEEPLEARN_HISTORY_SIZE <= int_wrap (history_index learner + 1) →
  let learner' := deeplean_update_history learner in
  history learner'
  = compact_history (Z.to_nat (int_wrap (history_index learner + 1)))
      (arr_set (history learner) (history_index learner)
         (recorded_value learner))
  ∧ history_index learner' = int_wrap (history_index learner + 1) `quot` 2
  ∧ history_ctr learner' = 0
  ∧ history_step learner' = int_wrap (history_step learner * 2).
Proof.
  intros H1 H2. unfold deeplean_update_history, recorded_value. cbn.
  destruct (Z.geb_spec (int_wrap (history_ctr learner + 1))
              (history_step learner)); [|lia]. cbn.
  destruct (Z.geb_spec (int_wrap (history_index learner + 1))
              DEEPLEARN_HISTORY_SIZE); [|lia]. done.
Qed.
End History.

(** ** C3: what the compaction keeps *)

Section Compaction.
Context {W : Type} {HDR : deeplearn_h}.
Implicit Type learner : deeplearn W.

(** C3, as amended.  When the sample that [deeplean_update_history]
    records fills the history (the index reaches
    [DEEPLEARN_HISTORY_SIZE]), the loop [history[i/2] = history[i]]
    leaves in entry [k], for every [k] below half the size, the sample
    that was at the odd index [2k+1] before the compaction - the later
    one of each pair, not the one at the even index [2k]; the index is
    halved and the step is doubled in 32-bit arithmetic. *)
Theorem compaction_keeps_odd_samples learner :
  0 < DEEPLEARN_HISTORY_SIZE <= INT_MAX →
  Z.of_nat (length (history learner)) = DEEPLEARN_HISTORY_SIZE →
  history_index learner = DEEPLEARN_HISTORY_SIZE - 1 →
  history_step learner <= int_wrap (history_ctr learner + 1) →
  let pre :=
    arr_set (history learner) (history_index learner)
      (recorded_value learner) in
  let learner' := deeplean_update_history learner in
  (∀ k, 0 <= k < DEEPLEARN_HISTORY_SIZE `quot` 2 →
        arr_get (history learner') k = arr_get pre (2 * k + 1))
  ∧ history_index learner' = DEEPLEARN_HISTORY_SIZE `quot` 2
  ∧ history_step learner' = int_wrap (history_step learner * 2).
Proof.
  intros HC Hlen Hidx Hctr pre learner'.
  assert (Hw : int_wrap (history_index learner + 1) = DEEPLEARN_HISTORY_SIZE).
  { rewrite Hidx. rewrite int_wrap_id; [lia|].
    unfold int_range, INT_MIN, INT_MAX in *. lia. }
  destruct (update_history_compact learner) as (Hh & Hi & _ & Hs);
    [done|lia|].
  fold learner' in Hh, Hi, Hs. rewrite Hw in Hh, Hi. fold pre in Hh.
  split; [|done].
  intros k Hk. rewrite Hh.
  rewrite Z.quot_div_nonneg in Hk by lia.
  replace k with (Z.of_nat (Z.to_nat k)) by lia.
  replace (2 * Z.of_nat (Z.to_nat k) + 1)
    with (Z.of_nat (2 * Z.to_nat k + 1)) by lia.
  rewrite !arr_get_nat.
  rewrite compact_history_lookup
    by (unfold pre; rewrite arr_set_length; lia).
  assert (2 * k + 1 < DEEPLEARN_HISTORY_SIZE).
  { pose proof (Z.mul_div_le DEEPLEARN_HISTORY_SIZE 2 ltac:(lia)). lia. }
  case_decide; [done|lia].
Qed.
End Compaction.

Lemma compaction_keeps_odd_samples_witness :
  let learner := full_history_learner in
  let pre :=
    arr_set (history learner) (history_index learner)
      (recorded_value (HDR := header8) learner) in
  let learner' := deeplean_update_history (HDR := header8) learner in
  (0 < 8 <= INT_MAX
   ∧ Z.of_nat (length (history learner)) = 8
   ∧ history_index learner = 8 - 1
   ∧ history_step learner <= int_wrap (history_ctr learner + 1))
  ∧ (∀ k, 0 <= k < 8 `quot` 2 →
          arr_get (history learner') k = arr_get pre (2 * k + 1))
  ∧ history_index learner' = 8 `quot` 2
  ∧ history_step learner' = int_wrap (history_step learner * 2).
Proof.
  intros learner pre learner'.
  assert (Hyp : 0 < 8 <= INT_MAX
                ∧ Z.of_nat (length (history learner)) = 8
                ∧ history_index learner = 8 - 1
                ∧ history_step learner <= int_wrap (history_ctr learner + 1)).
  { vm_compute. intuition discriminate. }
  split; [exact Hyp|].
  destruct Hyp as (H1 & H2 & H3 & H4).
  exact (compaction_keeps_odd_samples (HDR := header8) learner H1 H2 H3 H4).
Defined.

(** C3, as the claim states it, fails: after the compaction of a full
    history that held 1.0, 2.0, ..., 8.0, entry 0 holds 2.0, which was at
    index 1, and not 1.0, which was at index 0. *)
Lemma compaction_keeps_even_samples_fails :
  let learner := full_history_learner in
  let pre :=
    arr_set (history learner) (history_index learner)
      (recorded_value (HDR := header8) learner) in
  let learner' := deeplean_update_history (HDR := header8) learner in
  history_index learner + 1 = DEEPLEARN_HISTORY_SIZE (deeplearn_h := header8)
  ∧ ¬ (∀ k, 0 <= k < DEEPLEARN_HISTORY_SIZE (deeplearn_h := header8) `quot` 2 →
            arr_get (history learner') k = arr_get pre (2 * k)).
Proof.
  split; [reflexivity|].
  intros H. specialize (H 0 ltac:(by vm_compute)).
  vm_compute in H. discriminate H.
Qed.

(** ** [deeplearn_update] *)

Section Update.
Context {W : Type} {BP : backprop W} {HDR : deeplearn_h}.
Implicit Type learner : deeplearn W.


(** The last two steps of [deeplearn_update]: the history and the count. *)
Lemma update_tail learner :
  let learner' := deeplean_update_history learner in
  (if bp.itterations (net learner') <? UINT_MAX then
     Some (set_net
             (bp.set_itterations (bp.itterations (net learner') + 1)
                (net learner'))
             learner')
   else Some learner')
  = Some (set_net (counted (net learner)) learner').
Proof.
  intros learner'.
  destruct (update_history_frame learner) as (Hn & _).
  fold learner' in Hn. unfold counted. rewrite Hn.
  destruct (bp.itterations (net learner) <? UINT_MAX); [done|].
  f_equal. rewrite <- Hn. by destruct learner'.
Qed.

(** [deeplearn_update] in the pretraining phase. *)
Lemma update_pretraining learner ac :
  training_complete learner ≠ 1 →
  current_hidden_layer learner < bp.HiddenLayers (net learner) →
  autocoder learner = Some ac →
  let layer := current_hidden_layer learner in
  let n1 := (bp_pretrain (net learner) ac layer).1 in
  let ac1 := (bp_pretrain (net learner) ac layer).2 in
  let n2 := bp_update_from_autocoder n1 ac1 layer in
  let layer' := int_wrap (layer + 1) in
  deeplearn_update learner
  = Some
      (if float_ne (bp.BPerrorAverage ac1) DEEPLEARN_UNKNOWN_ERROR
          && float_lt (bp.BPerrorAverage ac1)
               (arr_get (error_threshold learner) layer)
          && (100 <? bp.itterations ac1)
       then
         set_net (counted n2)
           (deeplean_update_history
              (set_BPerror DEEPLEARN_UNKNOWN_ERROR
                 (set_autocoder
                    (if layer' <? bp.HiddenLayers n2
                     then Some (bp_create_autocoder n2 layer') else None)
                    (set_current_hidden_layer layer'
                       (set_net n2 learner)))))
       else
         set_net (counted n1)
           (deeplean_update_history
              (set_BPerror (bp.BPerrorAverage ac1)
                 (set_autocoder (Some ac1) (set_net n1 learner))))).
Proof.
  intros Htc Hlayer Hac layer n1 ac1 n2 layer'.
  unfold deeplearn_update.
  destruct (Z.eqb_spec (training_complete learner) 1); [done|].
  destruct (Z.ltb_spec (current_hidden_layer learner)
              (bp.HiddenLayers (net learner))); [|lia].
  rewrite Hac. cbn [mbind option_bind].
  subst layer' n2 n1 ac1 layer.
  destruct (bp_pretrain (net learner) ac (current_hidden_layer learner))
    as [n1 ac1].
  cbn [fst snd set_BPerror set_autocoder set_net BPerror current_hidden_layer
       net].
  destruct (float_ne (bp.BPerrorAverage ac1) DEEPLEARN_UNKNOWN_ERROR
            && float_lt (bp.BPerrorAverage ac1)
                 (arr_get (error_threshold learner)
                    (current_hidden_layer learner))
            && (100 <? bp.itterations ac1)).
  - cbn [set_BPerror set_autocoder set_net set_current_hidden_layer BPerror
         current_hidden_layer net].
    destruct (int_wrap (current_hidden_layer learner + 1)
              <? bp.HiddenLayers
                   (bp_update_from_autocoder n1 ac1
                      (current_hidden_layer learner)));
      cbn [mbind option_bind]; rewrite update_tail; reflexivity.
  - cbn [mbind option_bind]. rewrite update_tail. reflexivity.
Qed.

(** [deeplearn_update] in the fine-tuning phase. *)
Lemma update_finetuning learner :
  training_complete learner ≠ 1 →
  bp.HiddenLayers (net learner) <= current_hidden_layer learner →
  let n1 := bp_update (net learner) in
  deeplearn_update learner
  = Some
      (set_net (counted n1)
         (deeplean_update_history
            (if float_lt (bp.BPerrorAverage n1)
                  (arr_get (error_threshold learner)
                     (current_hidden_layer learner))
             then
               set_training_complete 1
                 (set_BPerror (bp.BPerrorAverage n1) (set_net n1 learner))
             else set_BPerror (bp.BPerrorAverage n1) (set_net n1 learner)))).
Proof.
  intros Htc Hlayer n1.
  unfold deeplearn_update.
  destruct (Z.eqb_spec (training_complete learner) 1); [done|].
  destruct (Z.ltb_spec (current_hidden_layer learner)
              (bp.HiddenLayers (net learner))); [lia|].
  cbn. fold n1.
  destruct (float_lt (bp.BPerrorAverage n1)
              (arr_get (error_threshold learner)
                 (current_hidden_layer learner)));
    cbn; rewrite update_tail; done.
Qed.

Lemma update_complete learner :
  training_complete learner = 1 → deeplearn_update learner = Some learner.
Proof. intros H. unfold deeplearn_update. by rewrite H. Qed.

Lemma update_null_autocoder learner :
  training_complete learner ≠ 1 →
  current_hidden_layer learner < bp.HiddenLayers (net learner) →
  autocoder learner = None →
  deeplearn_update learner = None.
Proof.
  intros Htc Hlayer Hac. unfold deeplearn_update.
  destruct (Z.eqb_spec (training_complete learner) 1); [done|].
  destruct (Z.ltb_spec (current_hidden_layer learner)
              (bp.HiddenLayers (net learner))); [|lia].
  by rewrite Hac.
Qed.
End Update.

(** The test learner on the engine whose error is always 0.0: the
    autocoder of layer 0 is promoted by update 101, when it has made more
    than 100 itterations, the one of layer 1 by update 202, which leaves
    no autocoder, and update 203 completes the training. *)
Example test_learner_run :
  let state n :=
    let l := test_learner_after quick_engine n in
    (current_hidden_layer l, is_null (autocoder l), training_complete l) in
  state 100%N = (0, false, 0)
  ∧ state 101%N = (1, false, 0)
  ∧ state 201%N = (1, false, 0)
  ∧ state 202%N = (2, true, 0)
  ∧ state 203%N = (2, true, 1).
Proof. by vm_compute. Qed.

(** ** C2: the promotion of a layer *)

Section Promotion.
Context {W : Type} {BP : backprop W} {HDR : deeplearn_h}.
Implicit Type learner : deeplearn W.

End Promotion.


(** ** C7: the count of itterations *)

Section Count.
Context {W : Type} {BP : backprop W} {HDR : deeplearn_h}.
Implicit Type learner : deeplearn W.

(** C7 fails on the code.  An update of a learner that is not complete
    leaves the member [itterations] of the learner, which [deeplearn_init]
    clears and which [deeplearn_save] writes as the second field of the
    file, as it was: the increment that stops at [UINT_MAX] is applied to
    the member [itterations] of the network, after the engine has trained
    it. *)
Theorem update_leaves_itterations learner learner' :
  training_complete learner ≠ 1 →
  deeplearn_update learner = Some learner' →
  itterations learner' = itterations learner
  ∧ ∃ n, net learner' = counted n.
Proof.
  intros Htc Hup.
  destruct (Z.lt_ge_cases (current_hidden_layer learner)
              (bp.HiddenLayers (net learner))) as [Hl|Hl].
  - destruct (autocoder learner) as [ac|] eqn:Hac.
    + rewrite (update_pretraining learner ac Htc Hl Hac) in Hup.
      apply (inj Some) in Hup; subst learner'.
      match goal with
      | |- context [if ?b then _ else _] => destruct b
      end;
        apply update_history_frame_ind; intros d _ _ _ _ Hi _ _;
        (split; [exact Hi | eexists; reflexivity]).
    + by rewrite (update_null_autocoder learner Htc Hl Hac) in Hup.
  - rewrite (update_finetuning learner Htc) in Hup by lia.
    apply (inj Some) in Hup; subst learner'.
    apply update_history_frame_ind; intros d _ _ _ _ Hi _ _.
    split; [|eexists; reflexivity].
    change (itterations d = itterations learner).
    rewrite Hi.
    match goal with
    | |- context [if ?b then _ else _] => destruct b
    end; reflexivity.
Qed.
End Count.

Lemma update_leaves_itterations_witness :
  let learner := test_learner quick_engine in
  let learner' := test_learner_after quick_engine 1 in
  (training_complete learner ≠ 1
   ∧ deeplearn_update (BP := quick_engine) (HDR := header8) learner
     = Some learner')
  ∧ itterations learner' = itterations learner
  ∧ ∃ n, net learner' = counted n.
Proof.
  intros learner learner'.
  assert (Hyp : training_complete learner ≠ 1
                ∧ deeplearn_update (BP := quick_engine) (HDR := header8)
                    learner = Some learner').
  { split; [vm_compute; discriminate | vm_compute; reflexivity]. }
  split; [exact Hyp|].
  destruct Hyp as (H1 & H2).
  exact (update_leaves_itterations (BP := quick_engine) (HDR := header8)
           learner learner' H1 H2).
Defined.

(** C7, at the test learner: after one update, and after 2.5 times the
    history, the count of the learner is still 0 while the network has
    counted the updates. *)
Example itterations_after_updates :
  itterations (test_learner quick_engine) = 0
  ∧ itterations (test_learner_after quick_engine 1) = 0
  ∧ bp.itterations (net (test_learner_after quick_engine 1)) = 1
  ∧ itterations (test_learner_after quick_engine 20) = 0
  ∧ bp.itterations (net (test_learner_after quick_engine 20)) = 20.
Proof. by vm_compute. Qed.

(** ** C4: [deeplearn_init] and the length of the thresholds *)

Section Init.
Context {W : Type} {BP : backprop W} {HDR : deeplearn_h}.

(** C4, as amended.  [deeplearn_init] returns nothing and checks no
    length: for an array of thresholds that has at least
    [hidden_layers+1] entries - more are not refused - the learner holds
    the first [hidden_layers+1] of them; the network and the autocoder for
    layer 0 are both allocated, and the other members are reset. *)
Theorem init_takes_first_thresholds (learner : deeplearn W)
    (no_of_inputs no_of_hiddens hidden_layers no_of_outputs : Z)
    (thresholds : list float32) (random_seed : Z) :
  0 <= hidden_layers < INT_MAX →
  hidden_layers + 1 <= Z.of_nat (length thresholds) →
  let learner' :=
    deeplearn_init learner no_of_inputs no_of_hiddens hidden_layers
      no_of_outputs thresholds random_seed in
  let n :=
    bp_init no_of_inputs no_of_hiddens hidden_layers no_of_outputs
      random_seed in
  error_threshold learner' = take (Z.to_nat (hidden_layers + 1)) thresholds
  ∧ Z.of_nat (length (error_threshold learner')) = hidden_layers + 1
  ∧ net learner' = n
  ∧ autocoder learner' = Some (bp_create_autocoder n 0)
  ∧ current_hidden_layer learner' = 0
  ∧ training_complete learner' = 0
  ∧ BPerror learner' = DEEPLEARN_UNKNOWN_ERROR
  ∧ itterations learner' = 0
  ∧ history_index learner' = 0
  ∧ history_ctr learner' = 0
  ∧ history_step learner' = 1
  ∧ history learner' = history learner.
Proof.
  intros Hhl Hlen learner' n.
  assert (Hw : int_wrap (hidden_layers + 1) = hidden_layers + 1).
  { apply int_wrap_id. unfold int_range, INT_MIN, INT_MAX in *. lia. }
  subst learner' n. unfold deeplearn_init. cbn. rewrite Hw.
  repeat split. rewrite length_take. lia.
Qed.
End Init.

Lemma init_takes_first_thresholds_witness :
  let thresholds := replicate 4 float_tenth in
  let learner' :=
    deeplearn_init (BP := quick_engine) (HDR := header8) blank_learner
      10 4 2 2 thresholds 123 in
  let n := bp_init (backprop := quick_engine) 10 4 2 2 123 in
  (0 <= 2 < INT_MAX ∧ 2 + 1 <= Z.of_nat (length thresholds))
  ∧ error_threshold learner' = take (Z.to_nat (2 + 1)) thresholds
  ∧ Z.of_nat (length (error_threshold learner')) = 2 + 1
  ∧ net learner' = n
  ∧ autocoder learner'
    = Some (bp_create_autocoder (backprop := quick_engine) n 0)
  ∧ current_hidden_layer learner' = 0
  ∧ training_complete learner' = 0
  ∧ BPerror learner' = DEEPLEARN_UNKNOWN_ERROR (deeplearn_h := header8)
  ∧ itterations learner' = 0
  ∧ history_index learner' = 0
  ∧ history_ctr learner' = 0
  ∧ history_step learner' = 1
  ∧ history learner' = history blank_learner.
Proof.
  intros thresholds learner' n.
  assert (Hyp : 0 <= 2 < INT_MAX ∧ 2 + 1 <= Z.of_nat (length thresholds)).
  { vm_compute. intuition discriminate. }
  split; [exact Hyp|].
  destruct Hyp as (H1 & H2).
  exact (init_takes_first_thresholds (BP := quick_engine) (HDR := header8)
           blank_learner 10 4 2 2 thresholds 123 H1 H2).
Defined.

(** C4, as the claim states it, fails: with 2 hidden layers and an array
    of 4 thresholds, whose length is not 3, [deeplearn_init] makes a
    learner all the same, and both networks are allocated. *)
Lemma init_accepts_wrong_length :
  let thresholds := replicate 4 float_tenth in
  let learner' :=
    deeplearn_init (BP := quick_engine) (HDR := header8) blank_learner
      10 4 2 2 thresholds 123 in
  Z.of_nat (length thresholds) ≠ 2 + 1
  ∧ error_threshold learner' = replicate 3 float_tenth
  ∧ net learner' = bp_init (backprop := quick_engine) 10 4 2 2 123
  ∧ is_null (autocoder learner') = false.
Proof. by vm_compute. Qed.

(** ** [deeplearn_compare] *)

Section Compare.
Context {W : Type} {BP : backprop W}.
Implicit Type learner : deeplearn W.

Lemma arrays_differ_false a b n :
  arrays_differ a b n = false
  ↔ ∀ i, 0 <= i < n → float_eq (arr_get a i) (arr_get b i) = true.
Proof.
  unfold arrays_differ. split.
  - intros H i Hi.
    apply float_ne_false.
    destruct (float_ne (arr_get a i) (arr_get b i)) eqn:E; [|done].
    assert (existsb
              (fun i => float_ne (arr_get a (Z.of_nat i))
                          (arr_get b (Z.of_nat i)))
              (seq 0 (Z.to_nat n)) = true); [|congruence].
    apply existsb_exists. exists (Z.to_nat i). split.
    + apply in_seq. lia.
    + by rewrite Z2Nat.id by lia.
  - intros H.
    destruct (existsb _ _) eqn:E; [|done].
    apply existsb_exists in E as (i & Hin & Hne).
    apply in_seq in Hin.
    rewrite (proj2 (float_ne_false _ _)) in Hne; [done|].
    apply H. lia.
Qed.

Lemma is_null_eqb {A} (p q : option A) :
  Bool.eqb (is_null p) (is_null q) = true ↔ (p = None ↔ q = None).
Proof. destruct p, q; cbn; intuition congruence. Qed.

Lemma first_true_spec (bs : list bool) (As : list Prop) :
  Forall2 (fun b A => b = false ↔ A) bs As →
  (first_true bs = None ↔ Forall id As)
  ∧ (∀ k, first_true bs = Some k
          ↔ Forall id (take k As) ∧ ¬ nth k As True).
Proof.
  induction 1 as [|b A bs As HbA _ [IHn IHs]].
  - split; [by split|].
    intros k. destruct k; cbn; split; try done; intros [_ []]; done.
  - cbn [first_true]. destruct b.
    + assert (¬ A) by (intros HA; apply HbA in HA; done).
      split.
      * split; [done|]. intros HF. by apply Forall_cons in HF as [? _].
      * intros [|k]; cbn [take nth].
        -- split; [by split|done].
        -- split; [done|]. intros [HF _].
           by apply Forall_cons in HF as [? _].
    + assert (HA : A) by (by apply HbA).
      split.
      * rewrite Forall_cons. destruct (first_true bs); cbn; [|tauto].
        split; [done|]. intros [_ HF]. by apply IHn in HF.
      * intros [|k]; cbn [take nth].
        -- destruct (first_true bs); cbn; (split; [done|]);
             intros [_ Hn]; done.
        -- rewrite Forall_cons. specialize (IHs k).
           destruct (first_true bs) as [j|]; cbn.
           ++ assert (Some (S j) = Some (S k) ↔ Some j = Some k) as ->
                by (split; intros [= ->]; done).
              unfold id in *. tauto.
           ++ unfold id in *. intuition congruence.
Qed.

Lemma compare_first_true learner1 learner2 :
  deeplearn_compare learner1 learner2
  = match first_true (compare_tests learner1 learner2) with
    | None => 1
    | Some k => - Z.of_nat (S k)
    end.
Proof.
  unfold deeplearn_compare, compare_tests. cbn [first_true].
  repeat
    (match goal with
     | |- (if ?b then _ else _) = _ => destruct b; [reflexivity|]
     end; cbn [fmap option_fmap option_map first_true]).
  reflexivity.
Qed.

Lemma compare_tests_agreements learner1 learner2 :
  Forall2 (fun b A => b = false ↔ A)
    (compare_tests learner1 learner2) (agreements learner1 learner2).
Proof.
  unfold compare_tests, agreements.
  repeat apply List.Forall2_cons; try apply List.Forall2_nil.
  - rewrite negb_false_iff. apply Z.eqb_eq.
  - apply float_ne_false.
  - rewrite Z.ltb_ge. done.
  - rewrite negb_false_iff. apply is_null_eqb.
  - rewrite negb_false_iff. apply Z.eqb_eq.
  - rewrite negb_false_iff. apply Z.eqb_eq.
  - rewrite negb_false_iff. apply Z.eqb_eq.
  - apply arrays_differ_false.
  - rewrite negb_false_iff. apply Z.eqb_eq.
  - apply arrays_differ_false.
Qed.

(** Each result of [deeplearn_compare] against the agreements it checks. *)
Lemma compare_code learner1 learner2 :
  (deeplearn_compare learner1 learner2 = 1
   ↔ Forall id (agreements learner1 learner2))
  ∧ (∀ k, deeplearn_compare learner1 learner2 = - Z.of_nat (S k)
          ↔ first_mismatch learner1 learner2 k).
Proof.
  destruct (first_true_spec _ _ (compare_tests_agreements learner1 learner2))
    as [Hn Hs].
  rewrite compare_first_true. unfold first_mismatch. split.
  - rewrite <- Hn. destruct (first_true _); [|done]. split; [lia|done].
  - intros k. rewrite <- Hs. destruct (first_true _) as [j|].
    + split; [intros; f_equal; lia | by intros [= ->]].
    + split; [lia|done].
Qed.
End Compare.

(** ** [deeplearn_save] writes the layout *)

Section Save.
Context {W : Type} {BP : backprop W}.
Implicit Type learner : deeplearn W.

Lemma deeplearn_save_bytes learner fp :
  deeplearn_save learner fp
  = (Z.max 0 (history_index learner), fp ++ learner_bytes learner).
Proof.
  unfold deeplearn_save, learner_bytes, learner_header_bytes, floats_bytes,
    io_bind, io_ret, fwrite_int, fwrite_float, fwrite_floats, bp_save_to.
  destruct (bp_save (net learner)) as [r1 b1].
  destruct (autocoder learner) as [ac|].
  - destruct (bp_save ac) as [r2 b2]. cbn [snd].
    f_equal. rewrite <- !app_assoc. reflexivity.
  - cbn [snd]. f_equal. rewrite <- !app_assoc. reflexivity.
Qed.
End Save.

(** ** [deeplearn_load] reads the layout *)

Lemma io_bind_eq {A B} (m : io A) (k : A → io B) fp a fp' :
  m fp = (a, fp') → io_bind m k fp = k a fp'.
Proof. intros H. unfold io_bind. by rewrite H. Qed.

Lemma fread_floats_floats_bytes old a n rest :
  0 <= n <= Z.of_nat (length a) →
  fread_floats old n (floats_bytes a n ++ rest)
  = ((n, take (Z.to_nat n) a ++ drop (Z.to_nat n) old), rest).
Proof.
  intros Hn. unfold floats_bytes.
  assert (Hlen : length (take (Z.to_nat n) a) = Z.to_nat n).
  { rewrite length_take. apply Nat.min_l. lia. }
  rewrite fread_floats_float_bytes by (rewrite ?Hlen; lia).
  by rewrite Hlen.
Qed.

Section Load.
Context {W : Type} {BP : backprop W} {LAWS : backprop_laws W}.
Implicit Type learner : deeplearn W.

(** The header of a well-formed learner that was written loads back,
    into any struct, member by member, the networks as the engine loads
    them; what follows the header is read as the samples, and the count of
    the samples read is the result. *)
Lemma deeplearn_load_header learner learner0 random_seed tail :
  well_formed learner →
  ∃ n' ac',
    deeplearn_load learner0 random_seed (learner_header_bytes learner ++ tail)
    = (let '((retval, samples), rest) :=
         fread_floats (history learner0) (history_index learner) tail in
       ((retval,
         mk_deeplearn n' ac' (current_hidden_layer learner)
           (BPerror learner) (itterations learner)
           (take (Z.to_nat (bp.HiddenLayers (net learner) + 1))
              (error_threshold learner))
           (training_complete learner) samples
           (history_index learner) (history_ctr learner)
           (history_step learner)),
        rest))
    ∧ 1 <= bp_compare (net learner) n'
    ∧ bp.HiddenLayers n' = bp.HiddenLayers (net learner)
    ∧ (autocoder learner = None ↔ ac' = None).
Proof.
  intros [Htc Hit Hl Hn Hac Hhl Hthr Hidx Hidxr Hctr Hstep].
  assert (Hw : int_wrap (bp.HiddenLayers (net learner) + 1)
               = bp.HiddenLayers (net learner) + 1).
  { apply int_wrap_id. unfold int_range, INT_MIN, INT_MAX in *. lia. }
  unfold learner_header_bytes. rewrite Hw. rewrite <- !app_assoc.
  unfold deeplearn_load.
  erewrite io_bind_eq by (by apply fread_int_int_bytes). cbv beta iota zeta.
  erewrite io_bind_eq by (by apply fread_uint_int_bytes). cbv beta iota zeta.
  erewrite io_bind_eq by (by apply fread_int_int_bytes). cbv beta iota zeta.
  erewrite io_bind_eq by (by apply fread_float_float_bytes).
  cbv beta iota zeta.
  destruct (bp_load_save (net learner) random_seed
              (match autocoder learner with
               | Some ac => int_bytes 1 ++ (bp_save ac).2
               | None => int_bytes 0
               end ++
               floats_bytes (error_threshold learner)
                 (bp.HiddenLayers (net learner) + 1) ++
               int_bytes (history_index learner) ++
               int_bytes (history_ctr learner) ++
               int_bytes (history_step learner) ++ tail)
              Hn) as (r1 & n' & Hload & Hcmp & Hhl').
  erewrite io_bind_eq by exact Hload. cbv beta iota zeta.
  change (net (set_net n' ?l)) with n'.
  destruct (autocoder learner) as [ac|] eqn:Eac.
  - rewrite <- !app_assoc.
    erewrite io_bind_eq
      by (apply fread_int_int_bytes; by vm_compute).
    cbv beta iota zeta. change (1 =? 1) with true. cbv beta iota zeta.
    destruct (bp_load_save ac random_seed
                (floats_bytes (error_threshold learner)
                   (bp.HiddenLayers (net learner) + 1) ++
                 int_bytes (history_index learner) ++
                 int_bytes (history_ctr learner) ++
                 int_bytes (history_step learner) ++ tail)
                (Hac ac eq_refl)) as (r2 & ac' & Hload2 & _ & _).
    erewrite io_bind_eq; cycle 1.
    { erewrite io_bind_eq by exact Hload2. reflexivity. }
    cbv beta iota zeta.
    change (net (set_autocoder ?a (set_net n' ?l))) with n'.
    rewrite Hhl', Hw.
    erewrite io_bind_eq by (apply fread_floats_floats_bytes; lia).
    cbv beta iota zeta.
    erewrite io_bind_eq by (by apply fread_int_int_bytes). cbv beta iota zeta.
    erewrite io_bind_eq by (by apply fread_int_int_bytes). cbv beta iota zeta.
    erewrite io_bind_eq by (by apply fread_int_int_bytes). cbv beta iota zeta.
    exists n', (Some ac'). split; [|by intuition].
    unfold io_bind, io_ret, malloc_floats.
    rewrite drop_replicate, Nat.sub_diag. cbn [replicate]. rewrite app_nil_r.
    change (history_index (set_history_step ?a (set_history_ctr ?b
              (set_history_index ?c ?l)))) with c.
    change (history (set_history_step ?a (set_history_ctr ?b
              (set_history_index ?c (set_error_threshold ?d
                (set_autocoder ?e' (set_net ?f (set_BPerror ?g
                  (set_current_hidden_layer ?h (set_itterations ?i
                    (set_training_complete ?j ?l))))))))))) with (history l).
    destruct (fread_floats (history learner0) (history_index learner) tail)
      as [[r samples] rest].
    reflexivity.
  - erewrite io_bind_eq by (apply fread_int_int_bytes; by vm_compute).
    cbv beta iota zeta. change (0 =? 1) with false. cbv beta iota zeta.
    erewrite io_bind_eq by reflexivity.
    cbv beta iota zeta.
    change (net (set_autocoder ?a (set_net n' ?l))) with n'.
    rewrite Hhl', Hw.
    erewrite io_bind_eq by (apply fread_floats_floats_bytes; lia).
    cbv beta iota zeta.
    erewrite io_bind_eq by (by apply fread_int_int_bytes). cbv beta iota zeta.
    erewrite io_bind_eq by (by apply fread_int_int_bytes). cbv beta iota zeta.
    erewrite io_bind_eq by (by apply fread_int_int_bytes). cbv beta iota zeta.
    exists n', None. split; [|by intuition].
    unfold io_bind, io_ret, malloc_floats.
    rewrite drop_replicate, Nat.sub_diag. cbn [replicate]. rewrite app_nil_r.
    change (history_index (set_history_step ?a (set_history_ctr ?b
              (set_history_index ?c ?l)))) with c.
    change (history (set_history_step ?a (set_history_ctr ?b
              (set_history_index ?c (set_error_threshold ?d
                (set_autocoder ?e' (set_net ?f (set_BPerror ?g
                  (set_current_hidden_layer ?h (set_itterations ?i
                    (set_training_complete ?j ?l))))))))))) with (history l).
    destruct (fread_floats (history learner0) (history_index learner) tail)
      as [[r samples] rest].
    reflexivity.
Qed.

(** A well-formed learner that was written loads back, into any struct
    and whatever follows it in the file, member by member. *)
Lemma deeplearn_load_bytes learner learner0 random_seed rest :
  well_formed learner →
  ∃ n' ac',
    deeplearn_load learner0 random_seed (learner_bytes learner ++ rest)
    = ((history_index learner,
        mk_deeplearn n' ac' (current_hidden_layer learner)
          (BPerror learner) (itterations learner)
          (take (Z.to_nat (bp.HiddenLayers (net learner) + 1))
             (error_threshold learner))
          (training_complete learner)
          (take (Z.to_nat (history_index learner)) (history learner)
           ++ drop (Z.to_nat (history_index learner)) (history learner0))
          (history_index learner) (history_ctr learner)
          (history_step learner)),
       rest)
    ∧ 1 <= bp_compare (net learner) n'
    ∧ bp.HiddenLayers n' = bp.HiddenLayers (net learner)
    ∧ (autocoder learner = None ↔ ac' = None).
Proof.
  intros Hwf.
  destruct (deeplearn_load_header learner learner0 random_seed
              (floats_bytes (history learner) (history_index learner) ++ rest)
              Hwf) as (n' & ac' & Hload & H).
  exists n', ac'. split; [|done].
  unfold learner_bytes. rewrite <- app_assoc, Hload.
  rewrite fread_floats_floats_bytes by (destruct Hwf; lia).
  reflexivity.
Qed.
End Load.

(** ** What every reachable learner satisfies *)

Lemma int_wrap_double a : int_wrap (int_wrap a * 2) = int_wrap (a * 2).
Proof.
  unfold int_wrap. f_equal.
  replace ((a + 2 ^ 31) `mod` 2 ^ 32 - 2 ^ 31) with
    ((a + 2 ^ 31) `mod` 2 ^ 32 + - 2 ^ 31) by lia.
  rewrite <- (Zplus_mod_idemp_l ((_ + _) * 2)).
  rewrite <- (Zmult_mod_idemp_l (_ + - 2 ^ 31)).
  rewrite <- (Zplus_mod_idemp_l _ (- 2 ^ 31)).
  rewrite Zmod_mod.
  rewrite (Zplus_mod_idemp_l _ (- 2 ^ 31)).
  rewrite Zmult_mod_idemp_l, Zplus_mod_idemp_l.
  f_equal. lia.
Qed.

Lemma int_wrap_pow2_pos (k : nat) :
  0 < int_wrap (2 ^ Z.of_nat k) →
  (k ≤ 30)%nat ∧ int_wrap (2 ^ Z.of_nat k) = 2 ^ Z.of_nat k.
Proof.
  intros Hpos.
  destruct (decide (k ≤ 30)%nat) as [Hk|Hk].
  - split; [done|]. apply int_wrap_id.
    assert (0 < 2 ^ Z.of_nat k <= 2 ^ 30).
    { split; [apply Z.pow_pos_nonneg; lia|].
      apply Z.pow_le_mono_r; lia. }
    unfold int_range, INT_MIN, INT_MAX. lia.
  - exfalso. revert Hpos. unfold int_wrap.
    destruct (decide (k = 31)%nat) as [->|].
    + by vm_compute.
    + replace (Z.of_nat k) with (32 + (Z.of_nat k - 32)) by lia.
      rewrite Z.pow_add_r by lia.
      rewrite Z.add_comm, Z.mul_comm, Z_mod_plus_full. by vm_compute.
Qed.

Section HistoryInvariant.
Context {W : Type} {HDR : deeplearn_h}.
Implicit Type learner : deeplearn W.

Hypothesis size_range : 0 < DEEPLEARN_HISTORY_SIZE <= INT_MAX.

Lemma update_history_invariant learner :
  history_invariant learner →
  history_invariant (deeplean_update_history learner).
Proof.
  intros [Hlen Hidx Hctr Hcs [k Hk]].
  assert (Hsr : int_range (history_step learner))
    by (rewrite Hk; apply int_wrap_range).
  assert (Hcw : int_wrap (history_ctr learner + 1) = history_ctr learner + 1).
  { apply int_wrap_id. unfold int_range, INT_MIN, INT_MAX in *. lia. }
  assert (Hiw : int_wrap (history_index learner + 1)
                = history_index learner + 1).
  { apply int_wrap_id. unfold int_range, INT_MIN, INT_MAX in *. lia. }
  destruct (Z.lt_ge_cases (int_wrap (history_ctr learner + 1))
              (history_step learner)) as [Hskip|Hrec].
  - rewrite update_history_skip by done. rewrite Hcw in *.
    split; cbn; eauto; lia.
  - destruct (Z.lt_ge_cases (int_wrap (history_index learner + 1))
                DEEPLEARN_HISTORY_SIZE) as [Hroom|Hfull].
    + destruct (update_history_record learner) as (Hh & Hi & Hc & Hs);
        [lia|done|].
      split.
      * rewrite Hh, arr_set_length. done.
      * rewrite Hi. lia.
      * rewrite Hc. done.
      * rewrite Hc. by right.
      * rewrite Hs. eauto.
    + destruct (update_history_compact learner) as (Hh & Hi & Hc & Hs);
        [lia|lia|].
      split.
      * rewrite Hh, compact_history_length, arr_set_length. done.
      * rewrite Hi, Hiw.
        assert (history_index learner + 1 = DEEPLEARN_HISTORY_SIZE) as ->
          by lia.
        rewrite Z.quot_div_nonneg by lia.
        split; [apply Z.div_pos; lia | apply Z.div_lt; lia].
      * rewrite Hc. done.
      * rewrite Hc. by right.
      * exists (S k). rewrite Hs, Hk, int_wrap_double.
        rewrite Nat2Z.inj_succ, Z.pow_succ_r by lia. f_equal. lia.
Qed.
End HistoryInvariant.

Section HistoryReachable.
Context {W : Type} {BP : backprop W} {HDR : deeplearn_h}.
Implicit Type learner : deeplearn W.

Hypothesis size_range : 0 < DEEPLEARN_HISTORY_SIZE <= INT_MAX.

Lemma history_invariant_ext learner learner' :
  same_history learner learner' →
  history_invariant learner → history_invariant learner'.
Proof.
  intros (Hh & Hi & Hc & Hs) [H1 H2 H3 H4 H5].
  split; rewrite <- ?Hh, <- ?Hi, <- ?Hc, <- ?Hs; done.
Qed.

Lemma same_history_set_net n learner :
  same_history learner (set_net n learner).
Proof. by repeat split. Qed.

(** The history after an update is the one before, or the one that
    [deeplean_update_history] makes of it. *)
Lemma update_history_shape learner learner' :
  deeplearn_update learner = Some learner' →
  same_history learner learner'
  ∨ ∃ L, same_history learner L
         ∧ same_history (deeplean_update_history L) learner'.
Proof.
  intros Hup.
  destruct (decide (training_complete learner = 1)) as [Htc|Htc].
  { rewrite update_complete in Hup by done. injection Hup as <-.
    left. by repeat split. }
  right.
  destruct (Z.lt_ge_cases (current_hidden_layer learner)
              (bp.HiddenLayers (net learner))) as [Hlt|Hge].
  - destruct (autocoder learner) as [ac|] eqn:Eac;
      [|by rewrite update_null_autocoder in Hup].
    rewrite (update_pretraining learner ac Htc Hlt Eac) in Hup.
    apply (inj Some) in Hup. subst learner'.
    match goal with
    | |- context [if ?b then _ else _] => destruct b
    end;
      match goal with
      | |- context [deeplean_update_history ?l] => exists l
      end;
      (split; [by repeat split | apply same_history_set_net]).
  - rewrite (update_finetuning learner Htc Hge) in Hup.
    apply (inj Some) in Hup. subst learner'.
    match goal with
    | |- context [if ?b then _ else _] => destruct b
    end;
      match goal with
      | |- context [deeplean_update_history ?l] => exists l
      end;
      (split; [by repeat split | apply same_history_set_net]).
Qed.

Lemma later_history_invariant learner learner' :
  later learner learner' →
  history_invariant learner → history_invariant learner'.
Proof.
  intros Hlater Hhi.
  induction Hlater as [|l l' _ IH Hup|l i v _ IH|l i v _ IH].
  - done.
  - destruct (update_history_shape l l' Hup) as [Hs|(L & Hs1 & Hs2)].
    + by apply (history_invariant_ext l).
    + apply (history_invariant_ext (deeplean_update_history L)); [done|].
      apply (update_history_invariant size_range).
      by apply (history_invariant_ext l).
  - apply (history_invariant_ext l); [|done]. by repeat split.
  - apply (history_invariant_ext l); [|done]. by repeat split.
Qed.
End HistoryReachable.

Section Invariant.
Context {W : Type} {BP : backprop W} {LAWS : backprop_laws W}
  {HDR : deeplearn_h}.
Implicit Type learner : deeplearn W.

Variable hidden_layers : Z.
Variable thresholds : list float32.

Hypothesis layers_range : 0 < hidden_layers < INT_MAX.

Lemma counted_HiddenLayers (n : bp.t W) :
  bp.HiddenLayers (counted n) = bp.HiddenLayers n.
Proof. unfold counted. by destruct (bp.itterations n <? UINT_MAX). Qed.

Lemma counted_valid (n : bp.t W) : bp_valid n → bp_valid (counted n).
Proof.
  intros Hn. unfold counted.
  destruct (Z.ltb_spec (bp.itterations n) UINT_MAX); [|done].
  by apply bp_count_valid.
Qed.

(** The invariant after the training step of [deeplearn_update], given
    the members that the step has assigned. *)
Lemma update_tail_invariant learner L n :
  learner_invariant hidden_layers thresholds learner →
  error_threshold L = error_threshold learner →
  itterations L = itterations learner →
  bp_valid n → bp.HiddenLayers n = hidden_layers →
  (∀ ac, autocoder L = Some ac → bp_valid ac) →
  0 <= current_hidden_layer L <= hidden_layers →
  (autocoder L = None ↔ current_hidden_layer L = hidden_layers) →
  (training_complete L = 0
   ∨ training_complete L = 1 ∧ current_hidden_layer L = hidden_layers) →
  current_hidden_layer learner <= current_hidden_layer L →
  learner_invariant hidden_layers thresholds
    (set_net (counted n) (deeplean_update_history L))
  ∧ current_hidden_layer learner
    <= current_hidden_layer (set_net (counted n) (deeplean_update_history L)).
Proof.
  intros Hli Ht Hit Hn Hhl Hacv Hlayer Hac Htc Hmono.
  apply update_history_frame_ind.
  intros d _ Ha Hl _ Hi' Ht' Htc'. split.
  - destruct Hli. split.
    + change (net (set_net (counted n) d)) with (counted n).
      by rewrite counted_HiddenLayers.
    + by apply counted_valid.
    + change (autocoder (set_net (counted n) d)) with (autocoder d).
      by rewrite Ha.
    + change (current_hidden_layer (set_net (counted n) d))
        with (current_hidden_layer d). by rewrite Hl.
    + change (autocoder (set_net (counted n) d)) with (autocoder d).
      change (current_hidden_layer (set_net (counted n) d))
        with (current_hidden_layer d). by rewrite Ha, Hl.
    + change (error_threshold (set_net (counted n) d))
        with (error_threshold d). by rewrite Ht', Ht.
    + change (itterations (set_net (counted n) d)) with (itterations d).
      by rewrite Hi', Hit.
    + change (training_complete (set_net (counted n) d))
        with (training_complete d).
      change (current_hidden_layer (set_net (counted n) d))
        with (current_hidden_layer d). by rewrite Htc', Hl.
  - change (current_hidden_layer (set_net (counted n) d))
      with (current_hidden_layer d). by rewrite Hl.
Qed.

(** An update of a learner that satisfies the invariant returns, and the
    learner it returns satisfies it; the layer does not decrease. *)
Lemma update_invariant learner :
  learner_invariant hidden_layers thresholds learner →
  ∃ learner',
    deeplearn_update learner = Some learner'
    ∧ learner_invariant hidden_layers thresholds learner'
    ∧ current_hidden_layer learner <= current_hidden_layer learner'.
Proof.
  intros Hli.
  destruct (decide (training_complete learner = 1)) as [Htc|Htc].
  { exists learner. rewrite update_complete by done.
    split; [done|]. split; [done|lia]. }
  pose proof Hli as [Hhl Hn Hacv Hlayer Hac Hthr Hit Htc'].
  destruct Htc' as [Htc0|[? _]]; [|done].
  destruct (Z.lt_ge_cases (current_hidden_layer learner)
              (bp.HiddenLayers (net learner))) as [Hlt|Hge].
  - destruct (autocoder learner) as [ac|] eqn:Eac;
      [|exfalso; destruct Hac as [Hac _]; specialize (Hac eq_refl); lia].
    rewrite (update_pretraining learner ac Htc Hlt Eac).
    set (layer := current_hidden_layer learner) in *.
    destruct (bp_pretrain_valid (net learner) ac layer Hn (Hacv ac eq_refl)
                ltac:(lia)) as [Hn1 Hac1].
    pose proof (bp_pretrain_HiddenLayers (net learner) ac layer) as Hhl1.
    set (n1 := (bp_pretrain (net learner) ac layer).1) in *.
    set (ac1 := (bp_pretrain (net learner) ac layer).2) in *.
    assert (Hw : int_wrap (layer + 1) = layer + 1).
    { apply int_wrap_id. unfold int_range, INT_MIN, INT_MAX in *. lia. }
    rewrite Hw.
    pose proof (bp_update_from_autocoder_valid n1 ac1 layer Hn1 Hac1
                  ltac:(lia)) as Hn2.
    pose proof (bp_update_from_autocoder_HiddenLayers n1 ac1 layer) as Hhl2.
    set (n2 := bp_update_from_autocoder n1 ac1 layer) in *.
    destruct (float_ne (bp.BPerrorAverage ac1) DEEPLEARN_UNKNOWN_ERROR
              && float_lt (bp.BPerrorAverage ac1)
                   (arr_get (error_threshold learner) layer)
              && (100 <? bp.itterations ac1)).
    + eexists. split; [reflexivity|].
      apply (update_tail_invariant learner);
        [done | reflexivity | reflexivity | done | congruence
        | | | | | ]; cbn.
      * destruct (Z.ltb_spec (layer + 1) (bp.HiddenLayers n2));
          intros ac' [= <-].
        apply bp_create_autocoder_valid; [done|lia].
      * lia.
      * destruct (Z.ltb_spec (layer + 1) (bp.HiddenLayers n2));
          split; try done; lia.
      * by left.
      * lia.
    + eexists. split; [reflexivity|].
      apply (update_tail_invariant learner);
        [done | reflexivity | reflexivity | done | congruence
        | | | | | ]; cbn.
      * by intros ac' [= <-].
      * lia.
      * split; [done|lia].
      * by left.
      * lia.
  - rewrite (update_finetuning learner Htc Hge).
    pose proof (bp_update_valid (net learner) Hn) as Hn1.
    pose proof (bp_update_HiddenLayers (net learner)) as Hhl1.
    set (n1 := bp_update (net learner)) in *.
    assert (Heq : current_hidden_layer learner = hidden_layers) by lia.
    destruct (float_lt (bp.BPerrorAverage n1)
                (arr_get (error_threshold learner)
                   (current_hidden_layer learner))).
    + eexists. split; [reflexivity|].
      apply (update_tail_invariant learner);
        [done | reflexivity | reflexivity | done | congruence
        | | | | | ]; cbn.
      * done.
      * lia.
      * done.
      * by right.
      * lia.
    + eexists. split; [reflexivity|].
      apply (update_tail_invariant learner);
        [done | reflexivity | reflexivity | done | congruence
        | | | | | ]; cbn.
      * done.
      * lia.
      * done.
      * by left.
      * lia.
Qed.

Lemma later_invariant learner learner' :
  later learner learner' →
  learner_invariant hidden_layers thresholds learner →
  learner_invariant hidden_layers thresholds learner'
  ∧ current_hidden_layer learner <= current_hidden_layer learner'.
Proof.
  intros Hlater Hli.
  induction Hlater as [|l l' _ (IHl & IHm) Hup
                       |l i v _ (IHl & IHm)
                       |l i v _ (IHl & IHm)].
  - split; [done|lia].
  - destruct (update_invariant l IHl) as (l'' & Hup' & ? & ?).
    rewrite Hup in Hup'. injection Hup' as <-.
    split; [done|lia].
  - split; [|done].
    destruct IHl. split; try done.
    + cbn. by rewrite bp_set_input_HiddenLayers.
    + cbn. by apply bp_set_input_valid.
  - split; [|done].
    destruct IHl. split; try done.
    + cbn. by rewrite bp_set_output_HiddenLayers.
    + cbn. by apply bp_set_output_valid.
Qed.
End Invariant.

Section Reachable.
Context {W : Type} {BP : backprop W} {LAWS : backprop_laws W}
  {HDR : deeplearn_h}.
Implicit Type learner : deeplearn W.

Variable learner0 : deeplearn W.
Variables no_of_inputs no_of_hiddens hidden_layers no_of_outputs : Z.
Variable thresholds : list float32.
Variable random_seed : Z.

Lemma init_history_invariant :
  0 < DEEPLEARN_HISTORY_SIZE →
  Z.of_nat (length (history learner0)) = DEEPLEARN_HISTORY_SIZE →
  history_invariant
    (deeplearn_init learner0 no_of_inputs no_of_hiddens hidden_layers
       no_of_outputs thresholds random_seed).
Proof.
  intros HC Hlen. split; cbn.
  - done.
  - lia.
  - done.
  - left. lia.
  - by exists 0%nat.
Qed.

Lemma init_invariant :
  0 < hidden_layers < INT_MAX →
  learner_invariant hidden_layers thresholds
    (deeplearn_init learner0 no_of_inputs no_of_hiddens hidden_layers
       no_of_outputs thresholds random_seed).
Proof.
  intros Hhl.
  assert (Hw : int_wrap (hidden_layers + 1) = hidden_layers + 1).
  { apply int_wrap_id. unfold int_range, INT_MIN, INT_MAX in *. lia. }
  assert (Hn : bp_valid (bp_init no_of_inputs no_of_hiddens hidden_layers
                           no_of_outputs random_seed))
    by (apply bp_init_valid; lia).
  split; cbn.
  - apply bp_init_HiddenLayers.
  - done.
  - intros ac [= <-]. apply bp_create_autocoder_valid; [done|].
    rewrite bp_init_HiddenLayers. lia.
  - lia.
  - split; [done|lia].
  - by rewrite Hw.
  - done.
  - by left.
Qed.

Lemma reachable_history_invariant learner :
  0 < DEEPLEARN_HISTORY_SIZE <= INT_MAX →
  Z.of_nat (length (history learner0)) = DEEPLEARN_HISTORY_SIZE →
  reachable learner0 no_of_inputs no_of_hiddens hidden_layers no_of_outputs
    thresholds random_seed learner →
  history_invariant learner.
Proof.
  intros HC Hlen Hr.
  apply (later_history_invariant HC _ _ Hr).
  apply init_history_invariant; [lia|done].
Qed.

Lemma reachable_invariant learner :
  0 < hidden_layers < INT_MAX →
  reachable learner0 no_of_inputs no_of_hiddens hidden_layers no_of_outputs
    thresholds random_seed learner →
  learner_invariant hidden_layers thresholds learner.
Proof.
  intros Hhl Hr.
  by destruct (later_invariant hidden_layers thresholds Hhl _ _ Hr
                 (init_invariant Hhl)).
Qed.
End Reachable.

(** ** The small engine keeps the laws *)

Lemma toy_step_valid err n : toy_valid n → toy_valid (toy_step err n).
Proof.
  unfold toy_valid, toy_step, uint_range. cbn. intros [H1 H2].
  split; [done|].
  destruct (Z.ltb_spec (bp.itterations n) UINT_MAX); lia.
Qed.

Lemma toy_load_save n seed rest :
  toy_valid n →
  ∃ retval n',
    toy_load seed ((toy_save n).2 ++ rest) = ((retval, n'), rest)
    ∧ 1 <= toy_compare n n'
    ∧ bp.HiddenLayers n' = bp.HiddenLayers n.
Proof.
  intros [H1 H2]. exists 1, n. split; [|split; [|done]].
  - unfold toy_load, toy_save. cbn [snd]. rewrite <- !app_assoc.
    erewrite io_bind_eq by (by apply fread_int_int_bytes).
    cbv beta iota zeta.
    erewrite io_bind_eq by (by apply fread_float_float_bytes).
    cbv beta iota zeta.
    erewrite io_bind_eq by (by apply fread_uint_int_bytes).
    cbv beta iota zeta. unfold io_ret. by destruct n as [? ? ? []].
  - unfold toy_compare. rewrite !Z.eqb_refl. done.
Qed.

Lemma toy_laws err : backprop_laws unit (BP := toy err).
Proof.
  unshelve eapply Build_backprop_laws.
  - exact toy_valid.
  - by intros n [H _].
  - intros ni nh hl no seed H. split; cbn.
    + unfold int_range, INT_MIN, INT_MAX in *. lia.
    + by vm_compute.
  - done.
  - intros n layer _ _. by vm_compute.
  - intros n ac layer Hn Hac _. split; [done|]. by apply toy_step_valid.
  - done.
  - done.
  - done.
  - intros n. apply toy_step_valid.
  - done.
  - done.
  - done.
  - done.
  - done.
  - intros n [H1 H2] Hlt. split; cbn; [done|].
    unfold uint_range in *. lia.
  - intros n seed rest. apply toy_load_save.
Defined.

(** ** Runs are reachable *)

Section RunsLater.
Context {W : Type} {BP : backprop W} {HDR : deeplearn_h}.
Implicit Type learner : deeplearn W.

Lemma deeplearn_updates_succ n learner :
  deeplearn_updates (N.succ n) learner
  = deeplearn_updates n learner ≫= deeplearn_update.
Proof. unfold deeplearn_updates. by rewrite N.iter_succ. Qed.

Lemma deeplearn_updates_later n learner learner' :
  deeplearn_updates n learner = Some learner' → later learner learner'.
Proof.
  revert learner'. induction n as [|n IH] using N.peano_ind; intros l' H.
  - injection H as <-. apply later_now.
  - rewrite deeplearn_updates_succ in H.
    destruct (deeplearn_updates n learner) as [l|]; [|done].
    cbn in H. eapply later_update; [by apply IH|done].
Qed.
End RunsLater.

(** ** C9: the life of the autocoder *)

Section Lifecycle.
Context {W : Type} {BP : backprop W} {LAWS : backprop_laws W}
  {HDR : deeplearn_h}.

(** C9, as amended.  For a learner that [deeplearn_init] has made with at
    least one hidden layer, in every state that updates (and the setting
    of inputs and outputs) reach, the autocoder is there exactly when the
    layer is below the number of hidden layers of the network.  An update
    returns a learner, whose layer is not lower; an update that brings the
    layer to the number of hidden layers leaves no autocoder, and once
    there is none there is none in any later state. *)
Theorem autocoder_lifecycle (learner0 : deeplearn W)
    (no_of_inputs no_of_hiddens hidden_layers no_of_outputs : Z)
    (thresholds : list float32) (random_seed : Z) (learner : deeplearn W) :
  0 < hidden_layers < INT_MAX →
  reachable learner0 no_of_inputs no_of_hiddens hidden_layers no_of_outputs
    thresholds random_seed learner →
  (autocoder learner ≠ None
   ↔ current_hidden_layer learner < bp.HiddenLayers (net learner))
  ∧ (∃ learner',
       deeplearn_update learner = Some learner'
       ∧ current_hidden_layer learner <= current_hidden_layer learner'
       ∧ (current_hidden_layer learner' = bp.HiddenLayers (net learner') →
          autocoder learner' = None))
  ∧ (∀ learner',
       later learner learner' →
       autocoder learner = None → autocoder learner' = None).
Proof.
  intros Hhl Hr.
  pose proof (reachable_invariant learner0 no_of_inputs no_of_hiddens
                hidden_layers no_of_outputs thresholds random_seed learner
                Hhl Hr) as Hli.
  split; [|split].
  - destruct Hli as [-> _ _ Hl Hac _ _ _]. rewrite Hac. lia.
  - destruct (update_invariant hidden_layers thresholds Hhl learner Hli)
      as (l' & Hup & Hli' & Hm).
    exists l'. split; [done|]. split; [done|].
    destruct Hli' as [-> _ _ _ Hac _ _ _]. by rewrite Hac.
  - intros l' Hl' Hnone.
    destruct (later_invariant hidden_layers thresholds Hhl _ _ Hl' Hli)
      as [Hli' Hm].
    destruct Hli as [_ _ _ Hl Hac _ _ _].
    destruct Hli' as [_ _ _ Hl2 Hac2 _ _ _].
    apply Hac2. apply Hac in Hnone. lia.
Qed.
End Lifecycle.

Lemma autocoder_lifecycle_witness :
  let learner := test_learner_after quick_engine 150 in
  (0 < 2 < INT_MAX
   ∧ reachable (BP := quick_engine) (HDR := header8) blank_learner 10 4 2 2
       [float_tenth; float_tenth; float_tenth] 123 learner)
  ∧ (autocoder learner ≠ None
     ↔ current_hidden_layer learner < bp.HiddenLayers (net learner))
  ∧ (∃ learner',
       deeplearn_update (BP := quick_engine) (HDR := header8) learner
       = Some learner'
       ∧ current_hidden_layer learner <= current_hidden_layer learner'
       ∧ (current_hidden_layer learner' = bp.HiddenLayers (net learner') →
          autocoder learner' = None))
  ∧ (∀ learner',
       later (BP := quick_engine) (HDR := header8) learner learner' →
       autocoder learner = None → autocoder learner' = None).
Proof.
  intros learner.
  assert (Hyp : 0 < 2 < INT_MAX
                ∧ reachable (BP := quick_engine) (HDR := header8)
                    blank_learner 10 4 2 2
                    [float_tenth; float_tenth; float_tenth] 123 learner).
  { split; [by vm_compute|].
    apply (deeplearn_updates_later (BP := quick_engine) (HDR := header8) 150).
    vm_compute. reflexivity. }
  split; [exact Hyp|].
  destruct Hyp as (H1 & H2).
  exact (autocoder_lifecycle (LAWS := toy_laws (fun _ => float_zero))
           (HDR := header8) blank_learner 10 4 2 2
           [float_tenth; float_tenth; float_tenth] 123 learner H1 H2).
Defined.

(** C9, as the claim states it, fails for a learner without hidden
    layers: [deeplearn_init] makes an autocoder for layer 0 although the
    layer, 0, is not below the number of hidden layers, 0. *)
Lemma autocoder_without_hidden_layers :
  let learner :=
    deeplearn_init (BP := quick_engine) (HDR := header8) blank_learner
      10 4 0 2 [float_tenth] 123 in
  reachable (BP := quick_engine) (HDR := header8) blank_learner 10 4 0 2
    [float_tenth] 123 learner
  ∧ ¬ (autocoder learner ≠ None
       ↔ current_hidden_layer learner < bp.HiddenLayers (net learner)).
Proof.
  split; [apply later_now|].
  intros [H _]. vm_compute in H. by specialize (H ltac:(discriminate)).
Qed.

(** ** The bound of the history *)

Section HistoryBound.
Context {W : Type} {BP : backprop W} {HDR : deeplearn_h}.

(** The part of C8 that holds.  In every state that updates reach from
    [deeplearn_init], the index of the history is below
    [DEEPLEARN_HISTORY_SIZE], and the step is a power of two in 32-bit
    arithmetic: as long as it is positive it is one of 1, 2, ..., 2^30. *)
Theorem history_bound (learner0 : deeplearn W)
    (no_of_inputs no_of_hiddens hidden_layers no_of_outputs : Z)
    (thresholds : list float32) (random_seed : Z) (learner : deeplearn W) :
  0 < DEEPLEARN_HISTORY_SIZE <= INT_MAX →
  Z.of_nat (length (history learner0)) = DEEPLEARN_HISTORY_SIZE →
  reachable learner0 no_of_inputs no_of_hiddens hidden_layers no_of_outputs
    thresholds random_seed learner →
  0 <= history_index learner < DEEPLEARN_HISTORY_SIZE
  ∧ (∃ k : nat, history_step learner = int_wrap (2 ^ Z.of_nat k))
  ∧ (0 < history_step learner →
     ∃ k : nat, (k ≤ 30)%nat ∧ history_step learner = 2 ^ Z.of_nat k).
Proof.
  intros HC Hlen Hr.
  destruct (reachable_history_invariant learner0 no_of_inputs no_of_hiddens
              hidden_layers no_of_outputs thresholds random_seed learner
              HC Hlen Hr) as [_ Hidx _ _ [k Hk]].
  split; [done|]. split; [by exists k|].
  intros Hpos. rewrite Hk in Hpos.
  destruct (int_wrap_pow2_pos k Hpos) as [Hk30 Hid].
  exists k. split; [done|]. by rewrite Hk.
Qed.
End HistoryBound.

Lemma history_bound_witness :
  let learner := test_learner_after quick_engine 20 in
  (0 < 8 <= INT_MAX
   ∧ Z.of_nat (length (history blank_learner)) = 8
   ∧ reachable (BP := quick_engine) (HDR := header8) blank_learner 10 4 2 2
       [float_tenth; float_tenth; float_tenth] 123 learner)
  ∧ 0 <= history_index learner < 8
  ∧ (∃ k : nat, history_step learner = int_wrap (2 ^ Z.of_nat k))
  ∧ (0 < history_step learner →
     ∃ k : nat, (k ≤ 30)%nat ∧ history_step learner = 2 ^ Z.of_nat k).
Proof.
  intros learner.
  assert (Hyp : 0 < 8 <= INT_MAX
                ∧ Z.of_nat (length (history blank_learner)) = 8
                ∧ reachable (BP := quick_engine) (HDR := header8)
                    blank_learner 10 4 2 2
                    [float_tenth; float_tenth; float_tenth] 123 learner).
  { split; [by vm_compute|]. split; [reflexivity|].
    apply (deeplearn_updates_later (BP := quick_engine) (HDR := header8) 20).
    vm_compute. reflexivity. }
  split; [exact Hyp|].
  destruct Hyp as (H1 & H2 & H3).
  exact (history_bound (BP := quick_engine) (HDR := header8) blank_learner
           10 4 2 2 [float_tenth; float_tenth; float_tenth] 123 learner
           H1 H2 H3).
Defined.

(** ** C6: the results of [deeplearn_compare] *)

Section CompareResults.
Context {W : Type} {BP : backprop W}.

(** C6, as amended.  [deeplearn_compare] returns 1 exactly when the two
    learners agree on the layer, the error, the networks (as
    [bp_compare] finds), the presence of an autocoder, the index, counter
    and step of the history, every sample below the index, the count of
    itterations and every threshold; otherwise it returns [-(k+1)] where
    the agreement number [k], counted from 0 in this order, is the first
    that fails.  Floats agree when C's [==] holds of them, which is not
    equality bit for bit: a NaN does not agree with itself and the two
    zeros agree. *)
Theorem compare_first_mismatch (learner1 learner2 : deeplearn W) :
  (deeplearn_compare learner1 learner2 = 1
   ↔ Forall id (agreements learner1 learner2))
  ∧ (∀ k, deeplearn_compare learner1 learner2 = - Z.of_nat (S k)
          ↔ first_mismatch learner1 learner2 k)
  ∧ (deeplearn_compare learner1 learner2 = 1
     ∨ ∃ k, (k < 10)%nat
            ∧ deeplearn_compare learner1 learner2 = - Z.of_nat (S k)).
Proof.
  destruct (compare_code learner1 learner2) as [H1 Hk].
  split; [done|]. split; [done|].
  rewrite compare_first_true.
  destruct (first_true (compare_tests learner1 learner2)) as [k|] eqn:E;
    [|by left].
  right. exists k. split; [|done].
  revert E. unfold compare_tests. cbn [first_true].
  repeat
    (match goal with
     | |- context [if ?b then _ else _] => destruct b
     end; cbn [fmap option_fmap option_map first_true];
     [intros [= <-]; lia|]).
  done.
Qed.
End CompareResults.

(** C6, as the claim states it, fails in both directions.  A learner whose
    error is a NaN agrees with itself bit for bit in every member, and
    [deeplearn_compare] returns -2; two learners whose errors are the two
    zeros do not agree bit for bit, and it returns 1. *)
Lemma compare_is_not_bitwise :
  let nan_learner := test_learner_after nan_engine 1 in
  let zero_learner := test_learner_after quick_engine 1 in
  let minus_zero_learner :=
    set_BPerror (float_of_bits 0x80000000) zero_learner in
  (Forall id (bitwise_agreements (BP := nan_engine) nan_learner nan_learner)
   ∧ deeplearn_compare (BP := nan_engine) nan_learner nan_learner = -2)
  ∧ (deeplearn_compare (BP := quick_engine) zero_learner minus_zero_learner
     = 1
     ∧ BPerror zero_learner ≠ BPerror minus_zero_learner).
Proof.
  split; split.
  - unfold bitwise_agreements. rewrite !Forall_cons, Forall_nil. unfold id.
    repeat split; try reflexivity; by vm_compute.
  - by vm_compute.
  - by vm_compute.
  - by vm_compute.
Qed.

(** ** The round trip of a well-formed learner *)

Section RoundTrip.
Context {W : Type} {BP : backprop W} {LAWS : backprop_laws W}.
Implicit Type learner : deeplearn W.

Lemma arr_get_take (a : list float32) (n i : Z) :
  0 <= i < n → arr_get (take (Z.to_nat n) a) i = arr_get a i.
Proof.
  intros Hi. unfold arr_get.
  destruct (Z.ltb_spec i 0); [lia|].
  by rewrite lookup_take_lt by lia.
Qed.

Lemma arr_get_take_app (a b : list float32) (n i : Z) :
  0 <= i < n → n <= Z.of_nat (length a) →
  arr_get (take (Z.to_nat n) a ++ b) i = arr_get a i.
Proof.
  intros Hi Hn. unfold arr_get.
  destruct (Z.ltb_spec i 0); [lia|].
  rewrite lookup_app_l by (rewrite length_take; lia).
  by rewrite lookup_take_lt by lia.
Qed.

Lemma load_save_compare learner learner0 random_seed rest :
  well_formed learner → nan_free learner →
  deeplearn_compare learner
    (deeplearn_load learner0 random_seed (learner_bytes learner ++ rest)).1.2
  = 1.
Proof.
  intros Hwf (Hnan_e & Hnan_h & Hnan_t).
  destruct (deeplearn_load_bytes learner learner0 random_seed rest Hwf)
    as (n' & ac' & -> & Hcmp & Hhl & Hac).
  cbn [fst snd].
  destruct Hwf as [_ _ _ _ _ Hhlr Hthr Hidx _ _ _].
  assert (Hw : int_wrap (bp.HiddenLayers (net learner) + 1)
               = bp.HiddenLayers (net learner) + 1).
  { apply int_wrap_id. unfold int_range, INT_MIN, INT_MAX in *. lia. }
  apply compare_code. unfold agreements. cbn.
  rewrite !Forall_cons, Forall_nil. unfold id.
  repeat match goal with |- _ ∧ _ => split end; try done.
  - by apply float_eq_refl.
  - intros i Hi. rewrite arr_get_take_app by lia.
    apply float_eq_refl. by apply Hnan_h.
  - intros i Hi. rewrite Hw in Hi. rewrite arr_get_take by lia.
    apply float_eq_refl. by apply Hnan_t.
Qed.
End RoundTrip.

(** ** C1: save, load, compare *)

Section SaveLoad.
Context {W : Type} {BP : backprop W} {LAWS : backprop_laws W}
  {HDR : deeplearn_h}.

Lemma invariant_well_formed hidden_layers thresholds (learner : deeplearn W) :
  0 < DEEPLEARN_HISTORY_SIZE <= INT_MAX →
  0 < hidden_layers < INT_MAX →
  hidden_layers + 1 <= Z.of_nat (length thresholds) →
  learner_invariant hidden_layers thresholds learner →
  history_invariant learner →
  well_formed learner.
Proof.
  intros HC Hhl Hthr [Hh Hn Hacv Hl Hac Ht Hit Htc] [Hlen Hidx Hctr Hcs [k Hk]].
  assert (Hsr : int_range (history_step learner))
    by (rewrite Hk; apply int_wrap_range).
  unfold int_range, uint_range, INT_MIN, INT_MAX, UINT_MAX in *.
  split; unfold int_range, uint_range, INT_MIN, INT_MAX, UINT_MAX.
  - lia.
  - lia.
  - lia.
  - done.
  - done.
  - lia.
  - rewrite Hh, Ht, length_take. lia.
  - lia.
  - lia.
  - lia.
  - done.
Qed.

(** C1, as amended.  Take a learner that [deeplearn_init] has made with
    at least one hidden layer, from an array of at least
    [hidden_layers+1] thresholds, in a state that updates reach, and in
    which neither the error nor a recorded sample nor a threshold is a
    NaN.  When it is saved to an empty file and the file is loaded into
    any other struct, [deeplearn_compare] of the learner and the loaded
    one returns 1. *)
Theorem save_load_compare (learner0 : deeplearn W)
    (no_of_inputs no_of_hiddens hidden_layers no_of_outputs : Z)
    (thresholds : list float32) (random_seed : Z) (learner : deeplearn W)
    (fresh : deeplearn W) (seed : Z) :
  0 < DEEPLEARN_HISTORY_SIZE <= INT_MAX →
  Z.of_nat (length (history learner0)) = DEEPLEARN_HISTORY_SIZE →
  0 < hidden_layers < INT_MAX →
  hidden_layers + 1 <= Z.of_nat (length thresholds) →
  reachable learner0 no_of_inputs no_of_hiddens hidden_layers no_of_outputs
    thresholds random_seed learner →
  nan_free learner →
  let file := (deeplearn_save learner []).2 in
  let loaded := (deeplearn_load fresh seed file).1.2 in
  deeplearn_compare learner loaded = 1.
Proof.
  intros HC Hlen Hhl Hthr Hr Hnan file loaded.
  subst loaded file. rewrite deeplearn_save_bytes. cbn [snd app].
  rewrite <- (app_nil_r (learner_bytes learner)).
  apply load_save_compare; [|done].
  apply (invariant_well_formed hidden_layers thresholds); try done.
  - by apply (reachable_invariant learner0 no_of_inputs no_of_hiddens
                hidden_layers no_of_outputs thresholds random_seed).
  - by apply (reachable_history_invariant learner0 no_of_inputs
                no_of_hiddens hidden_layers no_of_outputs thresholds
                random_seed).
Qed.
End SaveLoad.

Lemma nan_free_test_learner_after_20 :
  nan_free (test_learner_after quick_engine 20).
Proof.
  split; [by vm_compute|]. split.
  - intros i.
    change (history_index (test_learner_after quick_engine 20))
      with (Z.pos (Pos.of_nat 5)) at 1.
    intros Hi.
    assert (Hc : i = 0 ∨ i = 1 ∨ i = 2 ∨ i = 3 ∨ i = 4) by (cbn in Hi; lia).
    destruct Hc as [->|[->|[->|[->| ->]]]]; by vm_compute.
  - intros i.
    change (bp.HiddenLayers (net (test_learner_after quick_engine 20)))
      with (Z.pos (Pos.of_nat 2)) at 1.
    intros Hi.
    assert (Hc : i = 0 ∨ i = 1 ∨ i = 2) by (cbn in Hi; lia).
    destruct Hc as [->|[->| ->]]; by vm_compute.
Defined.

Lemma save_load_compare_witness :
  let learner := test_learner_after quick_engine 20 in
  let thresholds := [float_tenth; float_tenth; float_tenth] in
  (0 < 8 <= INT_MAX
   ∧ Z.of_nat (length (history blank_learner)) = 8
   ∧ 0 < 2 < INT_MAX
   ∧ 2 + 1 <= Z.of_nat (length thresholds)
   ∧ reachable (BP := quick_engine) (HDR := header8) blank_learner 10 4 2 2
       thresholds 123 learner
   ∧ nan_free learner)
  ∧ let file := (deeplearn_save (BP := quick_engine) learner []).2 in
    let loaded :=
      (deeplearn_load (BP := quick_engine) blank_learner 7 file).1.2 in
    deeplearn_compare (BP := quick_engine) learner loaded = 1.
Proof.
  intros learner thresholds.
  assert (Hyp : 0 < 8 <= INT_MAX
                ∧ Z.of_nat (length (history blank_learner)) = 8
                ∧ 0 < 2 < INT_MAX
                ∧ 2 + 1 <= Z.of_nat (length thresholds)
                ∧ reachable (BP := quick_engine) (HDR := header8)
                    blank_learner 10 4 2 2 thresholds 123 learner
                ∧ nan_free learner).
  { split; [by vm_compute|]. split; [reflexivity|].
    split; [by vm_compute|]. split; [by vm_compute|]. split.
    - apply (deeplearn_updates_later (BP := quick_engine) (HDR := header8)
               20).
      vm_compute. reflexivity.
    - exact nan_free_test_learner_after_20. }
  split; [exact Hyp|].
  destruct Hyp as (H1 & H2 & H3 & H4 & H5 & H6).
  exact (save_load_compare (LAWS := toy_laws (fun _ => float_zero))
           (HDR := header8) blank_learner 10 4 2 2 thresholds 123 learner
           blank_learner 7 H1 H2 H3 H4 H5 H6).
Defined.

(** C1, as the claim states it, fails.  The test learner made with a NaN
    as the threshold of layer 0 loads back with every member as it was
    written, and [deeplearn_compare] returns -10; the test learner on an
    engine that reports a NaN as its error loads back the same way after
    one update, and [deeplearn_compare] returns -2. *)
Lemma save_load_compare_fails_on_nan :
  let thresholds := [float_nan; float_tenth; float_tenth] in
  let learner :=
    deeplearn_init (BP := quick_engine) (HDR := header8) blank_learner
      10 4 2 2 thresholds 123 in
  let loaded :=
    (deeplearn_load (BP := quick_engine) blank_learner 123
       (deeplearn_save (BP := quick_engine) learner []).2).1.2 in
  let learner' := test_learner_after nan_engine 1 in
  let loaded' :=
    (deeplearn_load (BP := nan_engine) blank_learner 123
       (deeplearn_save (BP := nan_engine) learner' []).2).1.2 in
  (reachable (BP := quick_engine) (HDR := header8) blank_learner 10 4 2 2
     thresholds 123 learner
   ∧ deeplearn_compare (BP := quick_engine) learner loaded = -10)
  ∧ (reachable (BP := nan_engine) (HDR := header8) blank_learner 10 4 2 2
       [float_tenth; float_tenth; float_tenth] 123 learner'
     ∧ deeplearn_compare (BP := nan_engine) learner' loaded' = -2).
Proof.
  split; split.
  - apply later_now.
  - by vm_compute.
  - apply (deeplearn_updates_later (BP := nan_engine) (HDR := header8) 1).
    vm_compute. reflexivity.
  - by vm_compute.
Qed.

(** ** The test learner can be saved *)

Lemma test_learner_well_formed (n : N) (learner : deeplearn unit) :
  deeplearn_updates (BP := quick_engine) (HDR := header8) n
    (test_learner quick_engine) = Some learner →
  well_formed (LAWS := toy_laws (fun _ => float_zero)) learner.
Proof.
  intros Hup.
  assert (Hr : reachable (BP := quick_engine) (HDR := header8) blank_learner
                 10 4 2 2 [float_tenth; float_tenth; float_tenth] 123
                 learner)
    by (by apply (deeplearn_updates_later (BP := quick_engine)
                    (HDR := header8) n)).
  apply (invariant_well_formed (LAWS := toy_laws (fun _ => float_zero))
           (HDR := header8) 2 [float_tenth; float_tenth; float_tenth]).
  - by vm_compute.
  - by vm_compute.
  - by vm_compute.
  - apply (reachable_invariant (LAWS := toy_laws (fun _ => float_zero))
             (HDR := header8) blank_learner 10 4 2 2
             [float_tenth; float_tenth; float_tenth] 123); [by vm_compute|].
    exact Hr.
  - apply (reachable_history_invariant (BP := quick_engine) (HDR := header8)
             blank_learner 10 4 2 2
             [float_tenth; float_tenth; float_tenth] 123);
      [by vm_compute | reflexivity | exact Hr].
Qed.

(** ** C10: [training_complete] is saved and loaded, and not compared *)

Section TrainingComplete.
Context {W : Type} {BP : backprop W} {LAWS : backprop_laws W}.
Implicit Type learner : deeplearn W.



End TrainingComplete.



(** ** C5: a file that ends early *)

Lemma fread_items_short xs m (short : list byte) :
  (length short < 4)%nat →
  fread_items (length xs + S m) (concat (map float_bytes xs) ++ short)
  = (xs, []).
Proof.
  intros Hs. induction xs as [|x xs IH].
  - cbn. by destruct short as [|a [|b [|c [|d ?]]]]; cbn in *; try lia.
  - destruct x. cbn. by rewrite IH.
Qed.

Lemma floats_bytes_snoc (a : list float32) (n : Z) :
  1 <= n <= Z.of_nat (length a) →
  ∃ x, floats_bytes a n = floats_bytes a (n - 1) ++ float_bytes x.
Proof.
  intros Hn. unfold floats_bytes.
  assert (Hlt : (Z.to_nat (n - 1) < length a)%nat) by lia.
  destruct (lookup_lt_is_Some_2 a _ Hlt) as [x Hx].
  exists x. replace (Z.to_nat n) with (S (Z.to_nat (n - 1))) by lia.
  rewrite (take_S_r _ _ _ Hx), map_app, concat_app.
  f_equal.
Qed.

Section Truncated.
Context {W : Type} {BP : backprop W} {LAWS : backprop_laws W}.

(** C5 fails on the code.  Take a well-formed learner with at least two
    samples in its history, save it, and cut the last four bytes - the
    last sample - off the file.  [deeplearn_load] of this file, into any
    struct, returns the number of samples that it could read, which is
    not zero: the value that its description gives to success, although
    the file ended before the last sample was read. *)
Theorem load_accepts_truncated_file (learner learner0 : deeplearn W)
    (random_seed : Z) :
  well_formed learner →
  2 <= history_index learner →
  let file := (deeplearn_save learner []).2 in
  let truncated := take (length file - 4) file in
  (length truncated < length file)%nat
  ∧ (deeplearn_load learner0 random_seed truncated).1.1
    = history_index learner - 1
  ∧ (deeplearn_load learner0 random_seed truncated).1.1 ≠ 0.
Proof.
  intros Hwf Hidx file truncated.
  pose proof (wf_history_index _ Hwf) as Hlen.
  destruct (floats_bytes_snoc (history learner) (history_index learner)
              ltac:(lia)) as [x Hx].
  assert (Hfile : file
                  = (learner_header_bytes learner
                     ++ floats_bytes (history learner)
                          (history_index learner - 1))
                    ++ float_bytes x).
  { subst file. rewrite deeplearn_save_bytes. cbn [snd app].
    unfold learner_bytes. by rewrite Hx, app_assoc. }
  assert (Htr : truncated
                = learner_header_bytes learner
                  ++ floats_bytes (history learner)
                       (history_index learner - 1)).
  { subst truncated. rewrite Hfile, length_app.
    replace (length (float_bytes x)) with 4%nat by done.
    rewrite Nat.add_sub. apply take_app_length. }
  split.
  { rewrite Htr, Hfile, !length_app. cbn. lia. }
  assert (Hret : (deeplearn_load learner0 random_seed truncated).1.1
                 = history_index learner - 1); [|split; [done|lia]].
  rewrite Htr.
  destruct (deeplearn_load_header learner learner0 random_seed
              (floats_bytes (history learner) (history_index learner - 1))
              Hwf) as (n' & ac' & -> & _).
  unfold fread_floats, floats_bytes.
  set (xs := take (Z.to_nat (history_index learner - 1)) (history learner)).
  assert (Hxs : length xs = Z.to_nat (history_index learner - 1)).
  { subst xs. rewrite length_take. lia. }
  replace (Z.to_nat (history_index learner)) with (length xs + 1)%nat by lia.
  rewrite <- (app_nil_r (concat (map float_bytes xs))).
  rewrite fread_items_short by (cbn; lia).
  cbn [fst snd]. lia.
Qed.
End Truncated.

Lemma well_formed_test_learner_after_11 :
  well_formed (LAWS := toy_laws (fun _ => float_zero))
    (test_learner_after quick_engine 11).
Proof.
  assert (Hr : reachable (BP := quick_engine) (HDR := header8) blank_learner
                 10 4 2 2 [float_tenth; float_tenth; float_tenth] 123
                 (test_learner_after quick_engine 11)).
  { apply (deeplearn_updates_later (BP := quick_engine) (HDR := header8) 11).
    vm_compute. reflexivity. }
  apply (invariant_well_formed (LAWS := toy_laws (fun _ => float_zero))
           (HDR := header8) 2 [float_tenth; float_tenth; float_tenth]).
  - by vm_compute.
  - by vm_compute.
  - by vm_compute.
  - apply (reachable_invariant (LAWS := toy_laws (fun _ => float_zero))
             (HDR := header8) blank_learner 10 4 2 2
             [float_tenth; float_tenth; float_tenth] 123); [by vm_compute|].
    exact Hr.
  - apply (reachable_history_invariant (BP := quick_engine) (HDR := header8)
             blank_learner 10 4 2 2
             [float_tenth; float_tenth; float_tenth] 123);
      [by vm_compute | reflexivity | exact Hr].
Defined.

Lemma load_accepts_truncated_file_witness :
  let learner := test_learner_after quick_engine 11 in
  let file := (deeplearn_save (BP := quick_engine) learner []).2 in
  let truncated := take (length file - 4) file in
  (well_formed (LAWS := toy_laws (fun _ => float_zero)) learner
   ∧ 2 <= history_index learner)
  ∧ (length truncated < length file)%nat
  ∧ (deeplearn_load (BP := quick_engine) blank_learner 123 truncated).1.1
    = history_index learner - 1
  ∧ (deeplearn_load (BP := quick_engine) blank_learner 123 truncated).1.1
    ≠ 0.
Proof.
  intros learner file truncated.
  assert (Hyp : well_formed (LAWS := toy_laws (fun _ => float_zero)) learner
                ∧ 2 <= history_index learner).
  { split; [exact well_formed_test_learner_after_11 | by vm_compute]. }
  split; [exact Hyp|].
  destruct Hyp as (H1 & H2).
  exact (load_accepts_truncated_file (LAWS := toy_laws (fun _ => float_zero))
           learner blank_learner 123 H1 H2).
Defined.

(** C5, at the test learner after 11 updates, which has 5 samples: the
    file has 88 bytes; without the last four, [deeplearn_load] returns 4;
    and for the whole file of the learner as [deeplearn_init] leaves it,
    with no sample, it returns 0. *)
Example load_results :
  let learner := test_learner_after quick_engine 11 in
  let file := (deeplearn_save (BP := quick_engine) learner []).2 in
  let file0 :=
    (deeplearn_save (BP := quick_engine) (test_learner quick_engine) []).2 in
  length file = 88%nat
  ∧ (deeplearn_load (BP := quick_engine) blank_learner 123 file).1.1 = 5
  ∧ (deeplearn_load (BP := quick_engine) blank_learner 123 (take 84 file)).1.1
    = 4
  ∧ (deeplearn_load (BP := quick_engine) blank_learner 123 file0).1.1 = 0.
Proof. by vm_compute. Qed.

(** ** C8: the step after 31 compactions *)

Section Control.
Variable size : Z.
Hypothesis size_range : 0 < size <= INT_MAX.

Lemma control_skip (m : N) index ctr step :
  0 <= ctr → ctr + Z.of_N m < step → step <= INT_MAX →
  N.iter m (history_control size) (index, ctr, step)
  = (index, ctr + Z.of_N m, step).
Proof.
  induction m as [|m IH] using N.peano_ind; intros Hc Hm Hs.
  - cbn. do 2 f_equal. lia.
  - rewrite N.iter_succ, IH by lia.
    unfold history_control.
    rewrite int_wrap_id
      by (unfold int_range, INT_MIN, INT_MAX in *; lia).
    destruct (Z.geb_spec (ctr + Z.of_N m + 1) step); [lia|].
    do 2 f_equal. lia.
Qed.

Lemma control_record index step :
  0 <= index < size → 0 < step <= INT_MAX →
  N.iter (Z.to_N step) (history_control size) (index, 0, step)
  = if index + 1 >=? size
    then ((index + 1) `quot` 2, 0, int_wrap (step * 2))
    else (index + 1, 0, step).
Proof.
  intros Hi Hs.
  replace (Z.to_N step) with (N.succ (Z.to_N (step - 1))) by lia.
  rewrite N.iter_succ, control_skip by lia.
  unfold history_control.
  rewrite !int_wrap_id
    by (unfold int_range, INT_MIN, INT_MAX in *; lia).
  destruct (Z.geb_spec (0 + Z.of_N (Z.to_N (step - 1)) + 1) step); [|lia].
  reflexivity.
Qed.

Lemma control_fill (m : N) index step :
  0 <= index → index + Z.of_N m < size → 0 < step <= INT_MAX →
  N.iter (m * Z.to_N step) (history_control size) (index, 0, step)
  = (index + Z.of_N m, 0, step).
Proof.
  induction m as [|m IH] using N.peano_ind; intros Hi Hm Hs.
  - rewrite N.mul_0_l. cbn [N.iter]. do 2 f_equal. lia.
  - rewrite N.mul_succ_l, N.add_comm, N.iter_add, IH by lia.
    rewrite control_record by lia.
    destruct (Z.geb_spec (index + Z.of_N m + 1) size); [lia|].
    do 2 f_equal. lia.
Qed.

Lemma control_round index step :
  0 <= index < size → 0 < step <= INT_MAX →
  N.iter (Z.to_N ((size - index) * step)) (history_control size)
    (index, 0, step)
  = (size `quot` 2, 0, int_wrap (step * 2)).
Proof.
  intros Hi Hs.
  replace (Z.to_N ((size - index) * step))
    with (Z.to_N step + Z.to_N (size - index - 1) * Z.to_N step)%N by nia.
  rewrite N.iter_add, control_fill by lia.
  rewrite control_record by lia.
  destruct (Z.geb_spec (index + Z.of_N (Z.to_N (size - index - 1)) + 1) size);
    [|lia].
  do 3 f_equal. lia.
Qed.

Lemma control_rounds (rounds : nat) :
  (1 ≤ rounds ≤ 31)%nat →
  N.iter (updates_until size rounds) (history_control size) (0, 0, 1)
  = (size `quot` 2, 0, int_wrap (2 ^ Z.of_nat rounds)).
Proof.
  assert (Hq : 0 <= size `quot` 2 < size).
  { rewrite Z.quot_div_nonneg by lia.
    split; [apply Z.div_pos; lia | apply Z.div_lt; lia]. }
  induction rounds as [|rounds IH]; intros Hr; [lia|].
  destruct (decide (rounds = 0)%nat) as [->|Hne].
  - unfold updates_until.
    replace (size + (size - size `quot` 2) * (2 ^ Z.of_nat 1 - 2))
      with ((size - 0) * 1) by (change (2 ^ Z.of_nat 1) with 2; lia).
    rewrite control_round by (unfold INT_MAX in *; lia).
    reflexivity.
  - assert (Hpow : 2 <= 2 ^ Z.of_nat rounds <= 2 ^ 30).
    { split.
      - change 2 with (2 ^ 1) at 1. apply Z.pow_le_mono_r; lia.
      - apply Z.pow_le_mono_r; lia. }
    assert (Hw : int_wrap (2 ^ Z.of_nat rounds) = 2 ^ Z.of_nat rounds).
    { apply int_wrap_id. unfold int_range, INT_MIN, INT_MAX. lia. }
    assert (Hsplit : updates_until size (S rounds)
                     = (Z.to_N ((size - size `quot` 2) * 2 ^ Z.of_nat rounds)
                        + updates_until size rounds)%N).
    { unfold updates_until.
      rewrite Nat2Z.inj_succ, Z.pow_succ_r by lia. nia. }
    rewrite Hsplit, N.iter_add, IH, Hw by lia.
    rewrite control_round by (unfold INT_MAX; lia).
    replace (2 ^ Z.of_nat (S rounds)) with (2 ^ Z.of_nat rounds * 2)
      by (rewrite Nat2Z.inj_succ, Z.pow_succ_r by lia; lia).
    reflexivity.
Qed.
End Control.

Lemma update_history_control {W} {HDR : deeplearn_h} (learner : deeplearn W) :
  control (deeplean_update_history learner)
  = history_control DEEPLEARN_HISTORY_SIZE (control learner).
Proof.
  unfold control, history_control, deeplean_update_history. cbn.
  destruct (int_wrap (history_ctr learner + 1) >=? history_step learner);
    [|reflexivity].
  cbn.
  destruct (int_wrap (history_index learner + 1) >=? DEEPLEARN_HISTORY_SIZE);
    reflexivity.
Qed.

Section ControlOfUpdates.
Context {W : Type} {BP : backprop W} {HDR : deeplearn_h}.
Implicit Type learner : deeplearn W.

Lemma control_set_net n learner : control (set_net n learner) = control learner.
Proof. reflexivity. Qed.

(** Whatever the engine, an update of a learner that is not complete does
    to the index, the counter and the step what [history_control] says. *)
Lemma update_control learner learner' :
  training_complete learner ≠ 1 →
  deeplearn_update learner = Some learner' →
  control learner' = history_control DEEPLEARN_HISTORY_SIZE (control learner).
Proof.
  intros Htc Hup.
  destruct (Z.lt_ge_cases (current_hidden_layer learner)
              (bp.HiddenLayers (net learner))) as [Hlt|Hge].
  - destruct (autocoder learner) as [ac|] eqn:Eac;
      [|by rewrite update_null_autocoder in Hup].
    rewrite (update_pretraining learner ac Htc Hlt Eac) in Hup.
    apply (inj Some) in Hup. subst learner'.
    match goal with
    | |- context [if ?b then _ else _] => destruct b
    end;
      rewrite control_set_net, update_history_control; reflexivity.
  - rewrite (update_finetuning learner Htc Hge) in Hup.
    apply (inj Some) in Hup. subst learner'.
    match goal with
    | |- context [if ?b then _ else _] => destruct b
    end;
      rewrite control_set_net, update_history_control; reflexivity.
Qed.

(** So the step of any learner that is still not complete after the
    updates that 31 compactions take is the least int. *)
Lemma step_after_updates learner0 no_of_inputs no_of_hiddens hidden_layers
    no_of_outputs thresholds random_seed n learner :
  deeplearn_updates n
    (deeplearn_init learner0 no_of_inputs no_of_hiddens hidden_layers
       no_of_outputs thresholds random_seed) = Some learner →
  training_complete learner ≠ 1 →
  control learner
  = N.iter n (history_control DEEPLEARN_HISTORY_SIZE) (0, 0, 1).
Proof.
  revert learner. induction n as [|n IH] using N.peano_ind; intros l Hup Htc.
  - injection Hup as <-. reflexivity.
  - rewrite deeplearn_updates_succ in Hup.
    destruct (deeplearn_updates n _) as [l1|] eqn:E; [|done].
    cbn [mbind option_bind] in Hup.
    destruct (decide (training_complete l1 = 1)) as [H1|H1].
    + rewrite update_complete in Hup by done. by injection Hup as <-.
    + rewrite N.iter_succ, <- (IH l1 eq_refl H1).
      by apply update_control.
Qed.

Lemma step_overflows learner0 no_of_inputs no_of_hiddens hidden_layers
    no_of_outputs thresholds random_seed learner :
  0 < DEEPLEARN_HISTORY_SIZE <= INT_MAX →
  deeplearn_updates (updates_until DEEPLEARN_HISTORY_SIZE 31)
    (deeplearn_init learner0 no_of_inputs no_of_hiddens hidden_layers
       no_of_outputs thresholds random_seed) = Some learner →
  training_complete learner ≠ 1 →
  history_step learner = INT_MIN.
Proof.
  intros HC Hup Htc.
  pose proof (step_after_updates _ _ _ _ _ _ _ _ _ Hup Htc) as Hc.
  rewrite control_rounds in Hc by (done || lia).
  unfold control in Hc. by injection Hc as _ _ ->.
Qed.
End ControlOfUpdates.

Lemma stalled_update (learner : deeplearn unit) :
  stalled learner →
  ∃ learner',
    deeplearn_update (BP := stalled_engine) (HDR := header1024) learner
    = Some learner'
    ∧ stalled learner'
    ∧ control learner' = history_control 1024 (control learner).
Proof.
  intros (Htc & Hl & Hhl & Hac).
  destruct (autocoder learner) as [ac|] eqn:Eac; [clear Hac|done].
  rewrite (update_pretraining (BP := stalled_engine) (HDR := header1024)
             learner ac) by (rewrite ?Hl, ?Hhl; done || lia).
  change (bp.BPerrorAverage
            (bp_pretrain (backprop := stalled_engine) (net learner) ac
               (current_hidden_layer learner)).2) with toy_unknown.
  change (DEEPLEARN_UNKNOWN_ERROR (deeplearn_h := header1024))
    with toy_unknown.
  change (float_ne toy_unknown toy_unknown) with false.
  cbn [andb].
  change ((bp_pretrain (backprop := stalled_engine) (net learner) ac
             (current_hidden_layer learner)).1) with (net learner).
  eexists. split; [reflexivity|].
  match goal with
  | |- context [deeplean_update_history ?l] =>
      pose proof (update_history_control (HDR := header1024) l) as Hctl;
      revert Hctl
  end.
  apply update_history_frame_ind.
  intros d _ Ha Hl' _ _ _ Htc' Hctl. split.
  - unfold stalled.
    change (training_complete (set_net ?n d)) with (training_complete d).
    change (current_hidden_layer (set_net ?n d))
      with (current_hidden_layer d).
    change (autocoder (set_net ?n d)) with (autocoder d).
    change (net (set_net ?n d)) with n.
    rewrite Htc', Hl', Ha, counted_HiddenLayers.
    repeat split; done.
  - exact Hctl.
Qed.

Lemma stalled_updates (n : N) (learner : deeplearn unit) :
  stalled learner →
  ∃ learner',
    deeplearn_updates (BP := stalled_engine) (HDR := header1024) n learner
    = Some learner'
    ∧ stalled learner'
    ∧ control learner' = N.iter n (history_control 1024) (control learner).
Proof.
  intros Hs. induction n as [|n IH] using N.peano_ind.
  - exists learner. split; [reflexivity|]. split; [exact Hs|reflexivity].
  - destruct IH as (l & Hup & Hs' & Hc).
    destruct (stalled_update l Hs') as (l' & Hup' & Hs'' & Hc').
    exists l'. rewrite deeplearn_updates_succ, Hup, N.iter_succ, <- Hc.
    split; [exact Hup'|]. split; [exact Hs''|exact Hc'].
Qed.

(** C8 fails on the code.  The step is an int that every compaction
    doubles, and nothing stops the doubling as the test against [UINT_MAX]
    stops the count of itterations.  On a history of 1024 entries the step
    doubles after 1024 updates and then after every 512 recorded samples;
    when an engine does not let the learner leave layer 0, 2^40 updates
    after [deeplearn_init] the step has been doubled 31 times, and in
    32-bit arithmetic it is the least int, which is not a power of two
    times 1.  The index is 512, within the history. *)
Lemma history_step_wraps :
  ∃ learner,
    deeplearn_updates (BP := stalled_engine) (HDR := header1024)
      1099511627776 stalled_learner = Some learner
    ∧ history_index learner = 512
    ∧ history_step learner = -2147483648
    ∧ ¬ ∃ k : nat, history_step learner = 2 ^ Z.of_nat k * 1.
Proof.
  assert (Hs : stalled stalled_learner) by (by vm_compute).
  destruct (stalled_updates 1099511627776 stalled_learner Hs)
    as (l & Hup & _ & Hc).
  exists l. split; [exact Hup|].
  assert (Hn : 1099511627776%N = updates_until 1024 31)
    by (vm_compute; reflexivity).
  rewrite Hn in Hc.
  change (control stalled_learner) with (0, 0, 1) in Hc.
  rewrite control_rounds in Hc by (unfold INT_MAX; lia).
  change (1024 `quot` 2) with 512 in Hc.
  change (int_wrap (2 ^ Z.of_nat 31)) with (-2147483648) in Hc.
  unfold control in Hc. injection Hc as Hi _ Hst.
  split; [done|]. split; [done|].
  intros [k Hk]. rewrite Hst in Hk.
  assert (0 < 2 ^ Z.of_nat k) by (apply Z.pow_pos_nonneg; lia).
  lia.
Qed.

(** * More of the code *)

(** ** Strings *)

Lemma strcmp_eq s1 s2 : strcmp s1 s2 = 0 ↔ s1 = s2.
Proof.
  revert s2. induction s1 as [|c1 s1 IH]; intros [|c2 s2]; cbn; try done.
  destruct (Z.ltb_spec (byte.unsigned c1) (byte.unsigned c2)).
  { split; [done|]. intros [= -> _]. lia. }
  destruct (Z.ltb_spec (byte.unsigned c2) (byte.unsigned c1)).
  { split; [done|]. intros [= -> _]. lia. }
  assert (c1 = c2) as ->.
  { rewrite <- (byte.of_Z_unsigned c1), <- (byte.of_Z_unsigned c2).
    f_equal. lia. }
  rewrite IH. split; [by intros ->|by intros [= ->]].
Qed.

Lemma byte_eqb_eq (x c : byte) : Byte.eqb x c = true ↔ x = c.
Proof. apply Byte.byte_dec_bl || (split; [apply Byte.byte_dec_bl | apply Byte.byte_dec_lb]). Qed.

Lemma strrchr_None s c : strrchr s c = None ↔ c ∉ s.
Proof.
  induction s as [|x s IH]; cbn.
  - split; [intros _; apply not_elem_of_nil | done].
  - rewrite not_elem_of_cons.
    destruct (strrchr s c) as [r|].
    + split; [done|]. intros [_ H]. by apply IH in H.
    + destruct (Byte.eqb x c) eqn:E.
      * apply byte_eqb_eq in E. split; [done|]. intros [H _]. by subst.
      * split; [|done]. intros _. split; [|by apply IH].
        intros ->. rewrite (proj2 (byte_eqb_eq x x) eq_refl) in E. done.
Qed.

Lemma last_occurrence (c : byte) (p p' t t' : list byte) :
  p ++ c :: t = p' ++ c :: t' → c ∉ t → c ∉ t' → p = p' ∧ t = t'.
Proof.
  intros H Ht Ht'. revert p' H.
  induction p as [|y p IH]; intros [|y' p'] H; cbn in H.
  - by injection H as ->.
  - injection H as -> ->. exfalso. apply Ht.
    apply elem_of_app. right. apply elem_of_cons. by left.
  - injection H as -> <-. exfalso. apply Ht'.
    apply elem_of_app. right. apply elem_of_cons. by left.
  - injection H as -> H. destruct (IH p' H) as [-> ->]. done.
Qed.

Lemma strrchr_Some s c r :
  strrchr s c = Some r ↔ ∃ p t, s = p ++ c :: t ∧ r = c :: t ∧ c ∉ t.
Proof.
  revert r. induction s as [|x s IH]; intros r; cbn.
  - split; [done|]. intros (p & t & H & _). by destruct p.
  - destruct (strrchr s c) as [r'|] eqn:E.
    + destruct (proj1 (IH r') eq_refl) as (p & t & -> & -> & Ht).
      split.
      * intros [= <-]. by exists (x :: p), t.
      * intros (p' & t' & H & -> & Ht'). f_equal.
        destruct (last_occurrence c (x :: p) p' t t' H Ht Ht') as [_ ->].
        done.
    + apply strrchr_None in E.
      destruct (Byte.eqb x c) eqn:Ex.
      * apply byte_eqb_eq in Ex. subst x. split.
        -- intros [= <-]. by exists [], s.
        -- intros (p & t & H & -> & Ht). destruct p as [|y p].
           ++ by injection H as ->.
           ++ injection H as -> ->. exfalso. apply E.
              apply elem_of_app. right. apply elem_of_cons. by left.
      * split; [done|]. intros (p & t & H & -> & Ht).
        destruct p as [|y p].
        -- injection H as -> ->.
           by rewrite (proj2 (byte_eqb_eq c c) eq_refl) in Ex.
        -- injection H as -> ->. exfalso. apply E.
           apply elem_of_app. right. apply elem_of_cons. by left.
Qed.

(** X1.  What [string_ends_with_extension] decides.  The result is 1 (true)
    or 0 (false); it is 1 exactly when the string is some name, a dot and
    the extension, and the extension has no dot in it: the function
    compares what follows the last dot of the string. *)
Theorem string_ends_with_extension_spec (str extension : list byte) :
  (string_ends_with_extension str extension = 1
   ↔ (∃ name, str = name ++ "."%byte :: extension) ∧ "."%byte ∉ extension)
  ∧ (string_ends_with_extension str extension = 1
     ∨ string_ends_with_extension str extension = 0).
Proof.
  unfold string_ends_with_extension.
  destruct (strrchr str "."%byte) as [r|] eqn:E.
  - apply strrchr_Some in E. destruct E as (p & t & -> & -> & Ht). cbn.
    destruct (Z.eqb_spec (strcmp t extension) 0) as [H|H].
    + apply strcmp_eq in H. subst t. split; [|by left].
      split; [|done]. intros _. split; [by exists p|done].
    + split; [|by right]. split; [done|].
      intros [[name Hn] Hd]. exfalso. apply H. apply strcmp_eq.
      by destruct (last_occurrence "."%byte p name t extension Hn Ht Hd).
  - split; [|by right]. split; [done|].
    intros [[name ->] _]. apply strrchr_None in E. exfalso. apply E.
    apply elem_of_app. right. apply elem_of_cons. by left.
Qed.

(** X2.  Where the answer is no.  An extension with a dot in it, as "tar.gz",
    is found in no string, not in one that ends with a dot and that
    extension; and a string with no dot has no extension, not the empty
    one. *)
Theorem string_ends_with_extension_no (str extension : list byte) :
  "."%byte ∈ extension ∨ "."%byte ∉ str →
  string_ends_with_extension str extension = 0.
Proof.
  intros H. unfold string_ends_with_extension.
  destruct (strrchr str "."%byte) as [r|] eqn:E; [|done].
  apply strrchr_Some in E. destruct E as (p & t & -> & -> & Ht). cbn.
  destruct (Z.eqb_spec (strcmp t extension) 0) as [H0|H0]; [|done].
  apply strcmp_eq in H0. subst t. destruct H as [H|H]; [done|].
  exfalso. apply H. apply elem_of_app. right. apply elem_of_cons. by left.
Qed.

Lemma string_ends_with_extension_no_witness :
  let str := ["a"; "."; "t"; "a"; "r"; "."; "g"; "z"]%byte in
  let extension := ["t"; "a"; "r"; "."; "g"; "z"]%byte in
  ("."%byte ∈ extension ∨ "."%byte ∉ str)
  ∧ string_ends_with_extension str extension = 0.
Proof.
  intros str extension.
  assert (Hyp : "."%byte ∈ extension ∨ "."%byte ∉ str).
  { left. unfold extension. rewrite !elem_of_cons. auto. }
  split; [exact Hyp|].
  exact (string_ends_with_extension_no str extension Hyp).
Defined.

(** The function at "net.dat": the extension "dat" is found, "DAT" and
    "at" are not, and the empty extension is found in "net." only. *)
Example string_ends_with_extension_examples :
  let net_dat := ["n"; "e"; "t"; "."; "d"; "a"; "t"]%byte in
  string_ends_with_extension net_dat ["d"; "a"; "t"]%byte = 1
  ∧ string_ends_with_extension net_dat ["D"; "A"; "T"]%byte = 0
  ∧ string_ends_with_extension net_dat ["a"; "t"]%byte = 0
  ∧ string_ends_with_extension net_dat [] = 0
  ∧ string_ends_with_extension ["n"; "e"; "t"; "."]%byte [] = 1
  ∧ string_ends_with_extension ["n"; "e"; "t"]%byte [] = 0.
Proof. by vm_compute. Qed.

(** ** Updates, seen from outside *)

Section UpdateShape.
Context {W : Type} {BP : backprop W} {HDR : deeplearn_h}.
Implicit Type learner : deeplearn W.

(** An update of a learner that is not complete, seen from outside: the
    training step leaves a learner [L] with the history as it was, the
    history is updated, and the count of the network is incremented. *)
Lemma update_shape learner learner' :
  training_complete learner ≠ 1 →
  deeplearn_update learner = Some learner' →
  ∃ L n,
    learner' = set_net n (deeplean_update_history L)
    ∧ same_history learner L
    ∧ error_threshold L = error_threshold learner
    ∧ itterations L = itterations learner
    ∧ (training_complete L = training_complete learner
       ∨ training_complete L = 1
         ∧ bp.HiddenLayers (net learner) <= current_hidden_layer learner)
    ∧ (current_hidden_layer L = current_hidden_layer learner
       ∨ current_hidden_layer L = int_wrap (current_hidden_layer learner + 1)
         ∧ BPerror L = DEEPLEARN_UNKNOWN_ERROR).
Proof.
  intros Htc Hup.
  destruct (Z.lt_ge_cases (current_hidden_layer learner)
              (bp.HiddenLayers (net learner))) as [Hlt|Hge].
  - destruct (autocoder learner) as [ac|] eqn:Eac;
      [|by rewrite update_null_autocoder in Hup].
    rewrite (update_pretraining learner ac Htc Hlt Eac) in Hup.
    apply (inj Some) in Hup. subst learner'.
    match goal with
    | |- context [if ?b then _ else _] => destruct b
    end;
      match goal with
      | |- context [set_net ?n (deeplean_update_history ?l)] => exists l, n
      end.
    + split; [reflexivity|]. split; [by repeat split|].
      split; [reflexivity|]. split; [reflexivity|].
      split; [by left|]. right. by split.
    + split; [reflexivity|]. split; [by repeat split|].
      split; [reflexivity|]. split; [reflexivity|].
      split; [by left|]. by left.
  - rewrite (update_finetuning learner Htc Hge) in Hup.
    apply (inj Some) in Hup. subst learner'.
    match goal with
    | |- context [if ?b then _ else _] => destruct b
    end;
      match goal with
      | |- context [set_net ?n (deeplean_update_history ?l)] => exists l, n
      end.
    + split; [reflexivity|]. split; [by repeat split|].
      split; [reflexivity|]. split; [reflexivity|].
      split; [by right|]. by left.
    + split; [reflexivity|]. split; [by repeat split|].
      split; [reflexivity|]. split; [reflexivity|].
      split; [by left|]. by left.
Qed.
End UpdateShape.

Lemma arr_get_arr_set (a : list float32) (i j : Z) (v : float32) :
  0 <= i < Z.of_nat (length a) →
  arr_get (arr_set a i v) j = if decide (j = i) then v else arr_get a j.
Proof.
  intros Hi. unfold arr_get, arr_set.
  destruct (Z.ltb_spec i 0); [lia|].
  destruct (Z.ltb_spec j 0); [by case_decide; [lia|]|].
  case_decide as Hj.
  - subst j. by rewrite list_lookup_insert_eq by lia.
  - by rewrite list_lookup_insert_ne by lia.
Qed.

Lemma int_wrap_succ z : 0 <= z < INT_MAX → int_wrap (z + 1) = z + 1.
Proof.
  intros Hz. apply int_wrap_id. unfold int_range, INT_MIN, INT_MAX in *. lia.
Qed.

Section Samples.
Context {W : Type} {HDR : deeplearn_h}.
Implicit Type learner : deeplearn W.

(** [ok step k x]: the sample [x] is the right one for entry [k] of a
    history whose step is [step]. *)
Variable ok : Z → Z → float32 → Prop.
Hypothesis ok_double : ∀ step k x, ok step (2 * k + 1) x → ok (step * 2) k x.
Hypothesis size_range : 0 < DEEPLEARN_HISTORY_SIZE <= INT_MAX.
Hypothesis size_even : Z.even DEEPLEARN_HISTORY_SIZE = true.

Lemma update_history_samples learner :
  Z.of_nat (length (history learner)) = DEEPLEARN_HISTORY_SIZE →
  0 <= history_index learner < DEEPLEARN_HISTORY_SIZE →
  0 <= history_ctr learner < history_step learner →
  history_step learner <= INT_MAX →
  (∀ k, 0 <= k < history_index learner →
        ok (history_step learner) k (arr_get (history learner) k)) →
  (history_ctr learner + 1 = history_step learner →
   ok (history_step learner) (history_index learner)
     (recorded_value learner)) →
  let learner' := deeplean_update_history learner in
  0 < history_step learner' →
  history_index learner' * history_step learner' + history_ctr learner'
  = history_index learner * history_step learner + history_ctr learner + 1
  ∧ ∀ k, 0 <= k < history_index learner' →
         ok (history_step learner') k (arr_get (history learner') k).
Proof.
  intros Hlen Hidx Hctr Hstep Hok Hnew learner' Hpos.
  assert (Hwc : int_wrap (history_ctr learner + 1) = history_ctr learner + 1)
    by (apply int_wrap_succ; lia).
  assert (Hwi : int_wrap (history_index learner + 1)
                = history_index learner + 1)
    by (apply int_wrap_succ; lia).
  destruct (Z.lt_ge_cases (history_ctr learner + 1) (history_step learner))
    as [Hskip|Hrec].
  { subst learner'. rewrite update_history_skip in * by lia.
    cbn. rewrite Hwc. split; [lia|done]. }
  assert (Hs : history_ctr learner + 1 = history_step learner) by lia.
  specialize (Hnew Hs).
  destruct (Z.lt_ge_cases (history_index learner + 1) DEEPLEARN_HISTORY_SIZE)
    as [Hfree|Hfull].
  - destruct (update_history_record learner) as (Hh & Hi & Hc & Hst);
      [lia|lia|].
    fold learner' in Hh, Hi, Hc, Hst.
    rewrite Hh, Hi, Hc, Hst, Hwi. split; [lia|].
    intros k Hk. rewrite arr_get_arr_set by lia.
    case_decide as Hki; [by subst k|]. apply Hok. lia.
  - destruct (update_history_compact learner) as (Hh & Hi & Hc & Hst);
      [lia|lia|].
    fold learner' in Hh, Hi, Hc, Hst.
    assert (Hfill : history_index learner + 1 = DEEPLEARN_HISTORY_SIZE)
      by lia.
    rewrite Hwi, Hfill in Hh, Hi.
    destruct (Zeven_ex DEEPLEARN_HISTORY_SIZE) as [half Hhalf];
      [by apply Zeven_bool_iff|].
    assert (Hq : DEEPLEARN_HISTORY_SIZE `quot` 2 = half).
    { rewrite Z.quot_div_nonneg by lia. rewrite Hhalf.
      rewrite Z.mul_comm. apply Z.div_mul. lia. }
    rewrite Hq in Hi.
    assert (Hst2 : history_step learner' = history_step learner * 2).
    { rewrite Hst. rewrite Hst in Hpos.
      apply int_wrap_id. unfold int_range, INT_MIN, INT_MAX in *.
      unfold int_wrap in Hpos.
      destruct (Z.le_gt_cases (history_step learner * 2) 2147483647);
        [lia|exfalso].
      replace ((history_step learner * 2 + 2 ^ 31) `mod` 2 ^ 32)
        with (history_step learner * 2 + 2 ^ 31 - 2 ^ 32) in Hpos; [lia|].
      rewrite <- (Z_mod_plus_full (history_step learner * 2 + 2 ^ 31) (-1)).
      symmetry. apply Z.mod_small. lia. }
    rewrite Hi, Hc, Hst2. split; [lia|].
    intros k Hk. apply ok_double.
    rewrite Hh.
    replace k with (Z.of_nat (Z.to_nat k)) at 2 by lia.
    rewrite arr_get_nat.
    rewrite compact_history_lookup by (rewrite arr_set_length; lia).
    case_decide; [|lia].
    rewrite <- arr_get_nat.
    replace (Z.of_nat (2 * Z.to_nat k + 1)) with (2 * k + 1) by lia.
    rewrite arr_get_arr_set by lia.
    case_decide as Hki; [by rewrite Hki|]. apply Hok. lia.
Qed.
End Samples.

Section HistorySamples.
Context {W : Type} {BP : backprop W} {HDR : deeplearn_h}.
Implicit Type learner : deeplearn W.

Lemma recorded_value_BPerror learner learner' :
  BPerror learner' = BPerror learner →
  recorded_value learner' = recorded_value learner.
Proof. unfold recorded_value. by intros ->. Qed.

Lemma step_positive_before learner :
  (∃ k : nat, history_step learner = int_wrap (2 ^ Z.of_nat k)) →
  0 < history_step (deeplean_update_history learner) →
  0 < history_step learner <= 2 ^ 30.
Proof.
  intros [k Hk] Hpos.
  assert (Hk' : 0 < int_wrap (2 ^ Z.of_nat k)
                ∨ 0 < int_wrap (2 ^ Z.of_nat (S k))).
  { pose proof (update_history_control learner) as Hc.
    unfold control, history_control in Hc.
    destruct (_ >=? _) in Hc.
    - destruct (_ >=? _) in Hc.
      + injection Hc as _ _ Hc. rewrite Hc, Hk, int_wrap_double in Hpos.
        right. rewrite Nat2Z.inj_succ, Z.pow_succ_r by lia.
        by rewrite Z.mul_comm.
      + injection Hc as _ _ Hc. rewrite Hc, Hk in Hpos. by left.
    - injection Hc as _ _ Hc. rewrite Hc, Hk in Hpos. by left. }
  assert (Hk30 : (k ≤ 30)%nat).
  { destruct Hk' as [H|H]; apply int_wrap_pow2_pos in H; lia. }
  rewrite Hk. rewrite int_wrap_id.
  - split; [apply Z.pow_pos_nonneg; lia|]. apply Z.pow_le_mono_r; lia.
  - assert (0 < 2 ^ Z.of_nat k <= 2 ^ 30).
    { split; [apply Z.pow_pos_nonneg; lia|]. apply Z.pow_le_mono_r; lia. }
    unfold int_range, INT_MIN, INT_MAX. lia.
Qed.

(** X3.  What the history holds.  Take a history of an even number of entries
    and a learner that [n] updates after [deeplearn_init] have not
    completed, and whose step has not left the positive range.  Then the
    index, the step and the counter give the number of updates, and entry
    [k] of the history is the error - 0 for the unknown error - that the
    learner had after update [(k+1) * history_step]. *)
Theorem history_samples (learner0 : deeplearn W)
    (no_of_inputs no_of_hiddens hidden_layers no_of_outputs : Z)
    (thresholds : list float32) (random_seed : Z) (n : N)
    (learner : deeplearn W) :
  0 < DEEPLEARN_HISTORY_SIZE <= INT_MAX →
  Z.even DEEPLEARN_HISTORY_SIZE = true →
  Z.of_nat (length (history learner0)) = DEEPLEARN_HISTORY_SIZE →
  let start :=
    deeplearn_init learner0 no_of_inputs no_of_hiddens hidden_layers
      no_of_outputs thresholds random_seed in
  deeplearn_updates n start = Some learner →
  training_complete learner ≠ 1 →
  0 < history_step learner →
  Z.of_N n
  = history_index learner * history_step learner + history_ctr learner
  ∧ ∀ k, 0 <= k < history_index learner →
      ∃ learner_k,
        deeplearn_updates (Z.to_N ((k + 1) * history_step learner)) start
        = Some learner_k
        ∧ arr_get (history learner) k = recorded_value learner_k.
Proof.
  intros HC Heven Hlen start. revert learner.
  induction n as [|n IH] using N.peano_ind; intros l Hup Htc Hpos.
  { injection Hup as <-. cbn. split; [done|]. intros k Hk. lia. }
  pose proof Hup as Hup0.
  rewrite deeplearn_updates_succ in Hup.
  destruct (deeplearn_updates n start) as [l1|] eqn:E; [|done].
  cbn [mbind option_bind] in Hup.
  assert (Htc1 : training_complete l1 ≠ 1).
  { intros H1. rewrite update_complete in Hup by done.
    by injection Hup as <-. }
  assert (Hhi1 : history_invariant l1).
  { apply (later_history_invariant HC start); [by eapply deeplearn_updates_later|].
    apply init_history_invariant; [lia|done]. }
  destruct (update_shape l1 l Htc1 Hup)
    as (L & n' & -> & (Hh & Hi & Hc & Hs) & _).
  change (history_step (set_net n' ?d)) with (history_step d) in *.
  change (history_index (set_net n' ?d)) with (history_index d).
  change (history_ctr (set_net n' ?d)) with (history_ctr d).
  change (history (set_net n' ?d)) with (history d).
  destruct Hhi1 as [Hlen1 Hidx1 Hctr1 Hcs1 Hst1].
  rewrite Hh in Hlen1. rewrite Hi in Hidx1. rewrite Hc in Hctr1, Hcs1.
  rewrite Hs in Hcs1, Hst1.
  pose proof (step_positive_before L Hst1 Hpos) as Hstep.
  destruct (IH l1 eq_refl Htc1 ltac:(rewrite Hs; lia)) as [IHn IHk].
  rewrite Hh, Hi, Hc, Hs in *.
  set (ok := fun (step k : Z) (x : float32) =>
               ∃ learner_k,
                 deeplearn_updates (Z.to_N ((k + 1) * step)) start
                 = Some learner_k
                 ∧ x = recorded_value learner_k).
  assert (Hdouble : ∀ step k x, ok step (2 * k + 1) x → ok (step * 2) k x).
  { intros step k x (lk & Hlk & Hx). exists lk. split; [|done].
    rewrite <- Hlk. f_equal. lia. }
  assert (Hnew : history_ctr L + 1 = history_step L →
                 ok (history_step L) (history_index L) (recorded_value L)).
  { intros Hrec. exists (set_net n' (deeplean_update_history L)).
    split.
    - rewrite <- Hup0. f_equal. lia.
    - symmetry. apply recorded_value_BPerror.
      change (BPerror (set_net n' ?d)) with (BPerror d).
      by destruct (update_history_frame L) as (_ & _ & _ & -> & _). }
  destruct (update_history_samples ok Hdouble HC Heven L Hlen1 Hidx1
              ltac:(lia) ltac:(unfold INT_MAX; lia) IHk Hnew Hpos)
    as [Hn Hk].
  split; [lia|exact Hk].
Qed.
End HistorySamples.


Lemma history_samples_witness :
  let thresholds := [float_tenth; float_tenth; float_tenth] in
  let start := test_learner quick_engine in
  let learner := test_learner_after quick_engine 20 in
  (0 < 8 <= INT_MAX
   ∧ Z.even 8 = true
   ∧ Z.of_nat (length (history blank_learner)) = 8
   ∧ deeplearn_updates (BP := quick_engine) (HDR := header8) 20 start
     = Some learner
   ∧ training_complete learner ≠ 1
   ∧ 0 < history_step learner)
  ∧ 20 = history_index learner * history_step learner + history_ctr learner
  ∧ ∀ k, 0 <= k < history_index learner →
      ∃ learner_k,
        deeplearn_updates (BP := quick_engine) (HDR := header8)
          (Z.to_N ((k + 1) * history_step learner)) start
        = Some learner_k
        ∧ arr_get (history learner) k
          = recorded_value (HDR := header8) learner_k.
Proof.
  intros thresholds start learner.
  assert (Hyp : 0 < 8 <= INT_MAX
                ∧ Z.even 8 = true
                ∧ Z.of_nat (length (history blank_learner)) = 8
                ∧ deeplearn_updates (BP := quick_engine) (HDR := header8)
                    20 start = Some learner
                ∧ training_complete learner ≠ 1
                ∧ 0 < history_step learner).
  { split; [by vm_compute|]. split; [reflexivity|]. split; [reflexivity|].
    split; [vm_compute; reflexivity|]. split; by vm_compute. }
  split; [exact Hyp|].
  destruct Hyp as (H1 & H2 & H3 & H4 & H5 & H6).
  exact (history_samples (BP := quick_engine) (HDR := header8) blank_learner
           10 4 2 2 thresholds 123 20 learner H1 H2 H3 H4 H5 H6).
Defined.

(** The history of 8 entries of the test learner after 20 updates: the
    step is 4 and the 5 samples are those of the updates 4, 8, 12, 16 and
    20. *)
Example history_after_20_updates :
  let learner := test_learner_after quick_engine 20 in
  control learner = (5, 0, 4)
  ∧ ∀ k, In k [0; 1; 2; 3; 4] →
      arr_get (history learner) k
      = recorded_value (HDR := header8)
          (test_learner_after quick_engine (Z.to_N ((k + 1) * 4))).
Proof.
  split; [by vm_compute|].
  intros k Hk. cbn in Hk.
  destruct Hk as [<-|[<-|[<-|[<-|[<-|[]]]]]]; by vm_compute.
Qed.

Section UpdateRecords.
Context {W : Type} {BP : backprop W} {HDR : deeplearn_h}.
Implicit Type learner : deeplearn W.

(** X4.  The sample of an update.  When an update of a learner that is not
    complete records a sample (the counter reaches the step) and the
    history does not fill, the sample goes to the entry at the index and is
    the error that the learner has after the update, 0 for the unknown
    error.  An update that promotes a layer resets the error to the
    unknown one before the sample is taken: its sample is 0, not the error
    that was below the threshold. *)
Theorem update_records_error learner learner' :
  DEEPLEARN_HISTORY_SIZE <= INT_MAX →
  Z.of_nat (length (history learner)) = DEEPLEARN_HISTORY_SIZE →
  training_complete learner ≠ 1 →
  deeplearn_update learner = Some learner' →
  0 <= history_ctr learner < INT_MAX →
  history_step learner <= history_ctr learner + 1 →
  0 <= history_index learner →
  history_index learner + 1 < DEEPLEARN_HISTORY_SIZE →
  arr_get (history learner') (history_index learner)
  = recorded_value learner'
  ∧ history_index learner' = history_index learner + 1
  ∧ (float_isnan DEEPLEARN_UNKNOWN_ERROR = false →
     current_hidden_layer learner' ≠ current_hidden_layer learner →
     arr_get (history learner') (history_index learner) = float_zero).
Proof.
  intros HC Hlen Htc Hup Hctr Hrec Hidx Hfree.
  destruct (update_shape learner learner' Htc Hup)
    as (L & n & -> & (Hh & Hi & Hc & Hs) & _ & _ & _ & Hlayer).
  change (history (set_net n ?d)) with (history d).
  change (history_index (set_net n ?d)) with (history_index d).
  change (current_hidden_layer (set_net n ?d)) with (current_hidden_layer d).
  assert (HB : recorded_value (set_net n (deeplean_update_history L))
               = recorded_value L).
  { apply recorded_value_BPerror.
    change (BPerror (set_net n ?d)) with (BPerror d).
    by destruct (update_history_frame L) as (_ & _ & _ & -> & _). }
  assert (HL : current_hidden_layer (deeplean_update_history L)
               = current_hidden_layer L)
    by (by destruct (update_history_frame L) as (_ & _ & -> & _)).
  rewrite HB, HL. rewrite Hh in Hlen. rewrite Hi in *. rewrite Hc, Hs in *.
  destruct (update_history_record L) as (Hh' & Hi' & _).
  { rewrite int_wrap_succ by lia. lia. }
  { rewrite int_wrap_succ by lia. lia. }
  rewrite Hh', Hi', int_wrap_succ by lia.
  rewrite arr_get_arr_set by lia.
  case_decide; [|done].
  split; [done|]. split; [done|].
  intros Hnan Hne. destruct Hlayer as [Hl|[_ HU]]; [congruence|].
  unfold recorded_value. rewrite HU.
  by rewrite float_eq_refl.
Qed.

(** X5.  The completion of the training.  An update of a learner that is not
    complete sets [training_complete] exactly when it is in the
    fine-tuning phase and the running error of the network, after the
    training step [bp_update], is below the threshold at the index of the
    current layer; an update that does not set it leaves it as it was.  In
    the fine-tuning phase the network is the trained one with its count
    incremented, the error is its running error, and the layer and the
    autocoder are left alone. *)
Theorem completion_rule learner learner' :
  training_complete learner ≠ 1 →
  deeplearn_update learner = Some learner' →
  let n1 := bp_update (net learner) in
  let below :=
    float_lt (bp.BPerrorAverage n1)
      (arr_get (error_threshold learner) (current_hidden_layer learner)) in
  (training_complete learner' = 1
   ↔ bp.HiddenLayers (net learner) <= current_hidden_layer learner
     ∧ below = true)
  ∧ (training_complete learner' ≠ 1 →
     training_complete learner' = training_complete learner)
  ∧ (bp.HiddenLayers (net learner) <= current_hidden_layer learner →
     net learner' = counted n1
     ∧ BPerror learner' = bp.BPerrorAverage n1
     ∧ current_hidden_layer learner' = current_hidden_layer learner
     ∧ autocoder learner' = autocoder learner).
Proof.
  intros Htc Hup n1 below.
  destruct (Z.lt_ge_cases (current_hidden_layer learner)
              (bp.HiddenLayers (net learner))) as [Hlt|Hge].
  - destruct (autocoder learner) as [ac|] eqn:Eac;
      [|by rewrite update_null_autocoder in Hup].
    rewrite (update_pretraining learner ac Htc Hlt Eac) in Hup.
    apply (inj Some) in Hup. subst learner'.
    assert (Hsame : ∀ n (L : deeplearn W),
              training_complete L = training_complete learner →
              training_complete (set_net n (deeplean_update_history L))
              = training_complete learner).
    { intros n L HL.
      change (training_complete (set_net n ?d)) with (training_complete d).
      by destruct (update_history_frame L) as (_&_&_&_&_&_& ->). }
    match goal with
    | |- context [if ?b then _ else _] => destruct b
    end; rewrite Hsame by reflexivity;
      (split; [split; [done|lia]|]; split; [done|lia]).
  - rewrite (update_finetuning learner Htc Hge) in Hup.
    apply (inj Some) in Hup. subst learner'. fold n1. fold below.
    destruct below eqn:Eb.
    + apply update_history_frame_ind. intros d _ Ha Hl HB _ _ Ht.
      change (training_complete (set_net ?n d)) with (training_complete d).
      change (net (set_net ?n d)) with n.
      change (BPerror (set_net ?n d)) with (BPerror d).
      change (current_hidden_layer (set_net ?n d))
        with (current_hidden_layer d).
      change (autocoder (set_net ?n d)) with (autocoder d).
      rewrite Ht, Ha, Hl, HB. cbn.
      split; [done|]. split; [done|]. done.
    + apply update_history_frame_ind. intros d _ Ha Hl HB _ _ Ht.
      change (training_complete (set_net ?n d)) with (training_complete d).
      change (net (set_net ?n d)) with n.
      change (BPerror (set_net ?n d)) with (BPerror d).
      change (current_hidden_layer (set_net ?n d))
        with (current_hidden_layer d).
      change (autocoder (set_net ?n d)) with (autocoder d).
      rewrite Ht, Ha, Hl, HB. cbn.
      split; [split; [done|by intros [_ ?]]|]. split; [done|]. done.
Qed.

(** X6.  Complete is final.  Once [training_complete] is 1, an update returns
    the learner as it is, so that any number of updates changes nothing -
    no training step, no sample, no count - and in every later state the
    flag is 1 and only the network differs, by the inputs and outputs that
    the caller has set. *)
Theorem complete_is_final learner learner' (n : N) :
  training_complete learner = 1 →
  later learner learner' →
  deeplearn_updates n learner = Some learner
  ∧ training_complete learner' = 1
  ∧ learner' = set_net (net learner') learner.
Proof.
  intros Htc Hlater. split.
  - induction n as [|n IH] using N.peano_ind; [done|].
    rewrite deeplearn_updates_succ, IH. cbn. by apply update_complete.
  - induction Hlater as [|l l' _ [IH1 IH2] Hup|l i v _ [IH1 IH2]
                         |l i v _ [IH1 IH2]].
    + split; [done|]. by destruct learner.
    + rewrite update_complete in Hup by done. by injection Hup as <-.
    + split; [done|]. rewrite IH2. reflexivity.
    + split; [done|]. rewrite IH2. reflexivity.
Qed.

(** X7.  What no update touches.  In every later state of a learner, whatever
    the engine does, the thresholds and the learner's own count of
    [itterations] are the ones it had, and the array of the history has
    the length it had. *)
Theorem later_keeps_thresholds learner learner' :
  later learner learner' →
  error_threshold learner' = error_threshold learner
  ∧ itterations learner' = itterations learner
  ∧ length (history learner') = length (history learner).
Proof.
  induction 1 as [|l l' _ (IH1 & IH2 & IH3) Hup|l i v _ IH|l i v _ IH];
    [done| |done|done].
  destruct (decide (training_complete l = 1)) as [Htc|Htc].
  { rewrite update_complete in Hup by done. by injection Hup as <-. }
  destruct (update_shape l l' Htc Hup)
    as (L & n & -> & (Hh & _) & Ht & Hi & _).
  change (error_threshold (set_net n ?d)) with (error_threshold d).
  change (itterations (set_net n ?d)) with (itterations d).
  change (history (set_net n ?d)) with (history d).
  destruct (update_history_frame L) as (_&_&_&_& -> & -> &_).
  rewrite Ht, Hi, IH1, IH2, <- IH3, Hh. split; [done|]. split; [done|].
  clear. unfold deeplean_update_history. cbn.
  destruct (_ >=? _); [|done]. cbn.
  destruct (_ >=? _); cbn.
  - by rewrite compact_history_length, arr_set_length.
  - by rewrite arr_set_length.
Qed.
End UpdateRecords.


Lemma update_records_error_witness :
  let learner := test_learner_1024_after 100 in
  let learner' := test_learner_1024_after 101 in
  (1024 <= INT_MAX
   ∧ Z.of_nat (length (history learner)) = 1024
   ∧ training_complete learner ≠ 1
   ∧ deeplearn_update (BP := quick_engine) (HDR := header1024) learner
     = Some learner'
   ∧ 0 <= history_ctr learner < INT_MAX
   ∧ history_step learner <= history_ctr learner + 1
   ∧ 0 <= history_index learner
   ∧ history_index learner + 1 < 1024)
  ∧ arr_get (history learner') (history_index learner)
    = recorded_value (HDR := header1024) learner'
  ∧ history_index learner' = history_index learner + 1
  ∧ (float_isnan toy_unknown = false →
     current_hidden_layer learner' ≠ current_hidden_layer learner →
     arr_get (history learner') (history_index learner) = float_zero).
Proof.
  intros learner learner'.
  assert (Hyp : 1024 <= INT_MAX
                ∧ Z.of_nat (length (history learner)) = 1024
                ∧ training_complete learner ≠ 1
                ∧ deeplearn_update (BP := quick_engine) (HDR := header1024)
                    learner = Some learner'
                ∧ 0 <= history_ctr learner < INT_MAX
                ∧ history_step learner <= history_ctr learner + 1
                ∧ 0 <= history_index learner
                ∧ history_index learner + 1 < 1024).
  { split; [by vm_compute|]. split; [by vm_compute|].
    split; [by vm_compute|]. split; [vm_compute; reflexivity|].
    split; [by vm_compute|]. split; [by vm_compute|].
    split; by vm_compute. }
  split; [exact Hyp|].
  destruct Hyp as (H1 & H2 & H3 & H4 & H5 & H6 & H7 & H8).
  exact (update_records_error (BP := quick_engine) (HDR := header1024)
           learner learner' H1 H2 H3 H4 H5 H6 H7 H8).
Defined.

Lemma completion_rule_witness :
  let learner := test_learner_after quick_engine 202 in
  let learner' := test_learner_after quick_engine 203 in
  (training_complete learner ≠ 1
   ∧ deeplearn_update (BP := quick_engine) (HDR := header8) learner
     = Some learner')
  ∧ let n1 := bp_update (backprop := quick_engine) (net learner) in
    let below :=
      float_lt (bp.BPerrorAverage n1)
        (arr_get (error_threshold learner) (current_hidden_layer learner)) in
    (training_complete learner' = 1
     ↔ bp.HiddenLayers (net learner) <= current_hidden_layer learner
       ∧ below = true)
    ∧ (training_complete learner' ≠ 1 →
       training_complete learner' = training_complete learner)
    ∧ (bp.HiddenLayers (net learner) <= current_hidden_layer learner →
       net learner' = counted n1
       ∧ BPerror learner' = bp.BPerrorAverage n1
       ∧ current_hidden_layer learner' = current_hidden_layer learner
       ∧ autocoder learner' = autocoder learner).
Proof.
  intros learner learner'.
  assert (Hyp : training_complete learner ≠ 1
                ∧ deeplearn_update (BP := quick_engine) (HDR := header8)
                    learner = Some learner').
  { split; [by vm_compute|vm_compute; reflexivity]. }
  split; [exact Hyp|].
  destruct Hyp as (H1 & H2).
  exact (completion_rule (BP := quick_engine) (HDR := header8) learner
           learner' H1 H2).
Defined.

Lemma complete_is_final_witness :
  let learner := test_learner_after quick_engine 203 in
  let learner' :=
    deeplearn_set_input (BP := quick_engine) learner 0 float_tenth in
  (training_complete learner = 1
   ∧ later (BP := quick_engine) (HDR := header8) learner learner')
  ∧ deeplearn_updates (BP := quick_engine) (HDR := header8) 1000 learner
    = Some learner
  ∧ training_complete learner' = 1
  ∧ learner' = set_net (net learner') learner.
Proof.
  intros learner learner'.
  assert (Hyp : training_complete learner = 1
                ∧ later (BP := quick_engine) (HDR := header8) learner
                    learner').
  { split; [by vm_compute|]. apply later_set_input, later_now. }
  split; [exact Hyp|].
  destruct Hyp as (H1 & H2).
  exact (complete_is_final (BP := quick_engine) (HDR := header8) learner
           learner' 1000 H1 H2).
Defined.

Lemma later_keeps_thresholds_witness :
  let learner := test_learner quick_engine in
  let learner' := test_learner_after quick_engine 150 in
  later (BP := quick_engine) (HDR := header8) learner learner'
  ∧ error_threshold learner' = error_threshold learner
  ∧ itterations learner' = itterations learner
  ∧ length (history learner') = length (history learner).
Proof.
  intros learner learner'.
  assert (Hyp : later (BP := quick_engine) (HDR := header8) learner
                  learner').
  { apply (deeplearn_updates_later (BP := quick_engine) (HDR := header8)
             150).
    vm_compute. reflexivity. }
  split; [exact Hyp|].
  exact (later_keeps_thresholds (BP := quick_engine) (HDR := header8)
           learner learner' Hyp).
Defined.

(** ** A learner without its autocoder *)

Lemma unchecked_learner_well_formed :
  well_formed (LAWS := toy_laws (fun _ => float_zero)) unchecked_learner.
Proof.
  split.
  - by vm_compute.
  - by vm_compute.
  - by vm_compute.
  - change (toy_valid (bp.mk 2 toy_unknown 0 tt)). split; by vm_compute.
  - intros ac [=].
  - by vm_compute.
  - by vm_compute.
  - by vm_compute.
  - by vm_compute.
  - by vm_compute.
  - by vm_compute.
Qed.

(** ** Files *)

Section Files.
Context {W : Type} {BP : backprop W} {LAWS : backprop_laws W}
  {HDR : deeplearn_h}.
Implicit Type learner : deeplearn W.

(** X8.  Learners in one file.  [deeplearn_save] appends to the file and
    [deeplearn_load] reads a learner from the front and leaves the rest:
    two learners saved one after the other are loaded back one after the
    other, each to a learner that [deeplearn_compare] accepts, and nothing
    is left of the file. *)
Theorem two_learners_one_file learner1 learner2 fresh1 fresh2 seed1 seed2 :
  well_formed learner1 → nan_free learner1 →
  well_formed learner2 → nan_free learner2 →
  let file := (deeplearn_save learner2 (deeplearn_save learner1 []).2).2 in
  let first := deeplearn_load fresh1 seed1 file in
  let second := deeplearn_load fresh2 seed2 first.2 in
  deeplearn_compare learner1 first.1.2 = 1
  ∧ deeplearn_compare learner2 second.1.2 = 1
  ∧ second.2 = [].
Proof.
  intros Hwf1 Hnan1 Hwf2 Hnan2 file first second.
  assert (Hfile : file = learner_bytes learner1 ++ learner_bytes learner2).
  { unfold file. by rewrite !deeplearn_save_bytes. }
  assert (Hrest : first.2 = learner_bytes learner2 ++ []).
  { unfold first. rewrite Hfile, app_nil_r.
    by destruct (deeplearn_load_bytes learner1 fresh1 seed1
                   (learner_bytes learner2) Hwf1) as (? & ? & -> & _). }
  split; [|split].
  - unfold first. rewrite Hfile. by apply load_save_compare.
  - unfold second. rewrite Hrest. by apply load_save_compare.
  - unfold second. rewrite Hrest.
    by destruct (deeplearn_load_bytes learner2 fresh2 seed2 [] Hwf2)
      as (? & ? & -> & _).
Qed.

(** X9.  What [deeplearn_save] and [deeplearn_load] return.  The result of
    [deeplearn_save] is that of its last [fwrite], the number of samples
    in the history, whatever [bp_save] has returned, and the file is the
    one it was given with the learner appended; [deeplearn_load] of the
    learner's bytes returns the same number and leaves what follows them
    in the file.  For a learner with no sample, as [deeplearn_init] makes
    it, both return 0. *)
Theorem save_and_load_results learner fresh seed fp rest :
  well_formed learner →
  let bytes := (deeplearn_save learner []).2 in
  deeplearn_save learner fp = (history_index learner, fp ++ bytes)
  ∧ (deeplearn_load fresh seed (bytes ++ rest)).1.1 = history_index learner
  ∧ (deeplearn_load fresh seed (bytes ++ rest)).2 = rest.
Proof.
  intros Hwf bytes. unfold bytes. rewrite !deeplearn_save_bytes. cbn [snd app].
  destruct (deeplearn_load_bytes learner fresh seed rest Hwf)
    as (? & ? & -> & _).
  split; [|done]. f_equal. destruct Hwf. lia.
Qed.

(** X10.  [deeplearn_load] checks nothing.  A file that says there is no
    autocoder, for a learner that is below the last hidden layer and not
    complete, is loaded as it is: every read succeeds, and the first
    [deeplearn_update] of the loaded learner dereferences the null
    autocoder. *)
Theorem load_unchecked learner fresh seed :
  well_formed learner →
  autocoder learner = None →
  current_hidden_layer learner < bp.HiddenLayers (net learner) →
  training_complete learner ≠ 1 →
  let file := (deeplearn_save learner []).2 in
  let loaded := (deeplearn_load fresh seed file).1.2 in
  current_hidden_layer loaded = current_hidden_layer learner
  ∧ autocoder loaded = None
  ∧ deeplearn_update loaded = None.
Proof.
  intros Hwf Hac Hlayer Htc file loaded.
  unfold loaded, file. rewrite deeplearn_save_bytes. cbn [snd app].
  rewrite <- (app_nil_r (learner_bytes learner)).
  destruct (deeplearn_load_bytes learner fresh seed [] Hwf)
    as (n' & ac' & -> & _ & Hhl & Hnone).
  cbn [fst snd]. apply Hnone in Hac. subst ac'.
  split; [done|]. split; [done|].
  apply update_null_autocoder; cbn; [done| |done]. by rewrite Hhl.
Qed.
End Files.


Lemma two_learners_one_file_witness :
  let learner1 := test_learner_after quick_engine 20 in
  let learner2 := test_learner_after quick_engine 20 in
  (well_formed (LAWS := toy_laws (fun _ => float_zero)) learner1
   ∧ nan_free learner1
   ∧ well_formed (LAWS := toy_laws (fun _ => float_zero)) learner2
   ∧ nan_free learner2)
  ∧ let file :=
      (deeplearn_save (BP := quick_engine) learner2
         (deeplearn_save (BP := quick_engine) learner1 []).2).2 in
    let first := deeplearn_load (BP := quick_engine) blank_learner 1 file in
    let second :=
      deeplearn_load (BP := quick_engine) blank_learner 2 first.2 in
    deeplearn_compare (BP := quick_engine) learner1 first.1.2 = 1
    ∧ deeplearn_compare (BP := quick_engine) learner2 second.1.2 = 1
    ∧ second.2 = [].
Proof.
  intros learner1 learner2.
  assert (Hwf : well_formed (LAWS := toy_laws (fun _ => float_zero))
                  learner1).
  { apply (test_learner_well_formed 20). vm_compute. reflexivity. }
  assert (Hyp : well_formed (LAWS := toy_laws (fun _ => float_zero))
                  learner1
                ∧ nan_free learner1
                ∧ well_formed (LAWS := toy_laws (fun _ => float_zero))
                    learner2
                ∧ nan_free learner2).
  { split; [exact Hwf|]. split; [exact nan_free_test_learner_after_20|].
    split; [exact Hwf|exact nan_free_test_learner_after_20]. }
  split; [exact Hyp|].
  destruct Hyp as (H1 & H2 & H3 & H4).
  exact (two_learners_one_file (LAWS := toy_laws (fun _ => float_zero))
           learner1 learner2 blank_learner blank_learner 1 2 H1 H2 H3 H4).
Defined.

Lemma save_and_load_results_witness :
  let learner := test_learner_after quick_engine 11 in
  let bytes := (deeplearn_save (BP := quick_engine) learner []).2 in
  well_formed (LAWS := toy_laws (fun _ => float_zero)) learner
  ∧ deeplearn_save (BP := quick_engine) learner [x2a]
    = (history_index learner, [x2a] ++ bytes)
  ∧ (deeplearn_load (BP := quick_engine) blank_learner 7 (bytes ++ [x2b])).1.1
    = history_index learner
  ∧ (deeplearn_load (BP := quick_engine) blank_learner 7 (bytes ++ [x2b])).2
    = [x2b].
Proof.
  intros learner bytes.
  assert (Hyp : well_formed (LAWS := toy_laws (fun _ => float_zero))
                  learner).
  { apply (test_learner_well_formed 11). vm_compute. reflexivity. }
  split; [exact Hyp|].
  exact (save_and_load_results (LAWS := toy_laws (fun _ => float_zero))
           learner blank_learner 7 [x2a] [x2b] Hyp).
Defined.

Lemma load_unchecked_witness :
  let learner := unchecked_learner in
  (well_formed (LAWS := toy_laws (fun _ => float_zero)) learner
   ∧ autocoder learner = None
   ∧ current_hidden_layer learner < bp.HiddenLayers (net learner)
   ∧ training_complete learner ≠ 1)
  ∧ let file := (deeplearn_save (BP := quick_engine) learner []).2 in
    let loaded :=
      (deeplearn_load (BP := quick_engine) blank_learner 123 file).1.2 in
    current_hidden_layer loaded = current_hidden_layer learner
    ∧ autocoder loaded = None
    ∧ deeplearn_update (BP := quick_engine) (HDR := header8) loaded = None.
Proof.
  intros learner.
  assert (Hyp : well_formed (LAWS := toy_laws (fun _ => float_zero)) learner
                ∧ autocoder learner = None
                ∧ current_hidden_layer learner
                  < bp.HiddenLayers (net learner)
                ∧ training_complete learner ≠ 1).
  { split; [exact unchecked_learner_well_formed|].
    split; [reflexivity|]. split; by vm_compute. }
  split; [exact Hyp|].
  destruct Hyp as (H1 & H2 & H3 & H4).
  exact (load_unchecked (LAWS := toy_laws (fun _ => float_zero))
           (HDR := header8) learner blank_learner 123 H1 H2 H3 H4).
Defined.

Section LoadEmpty.
Context {W : Type} {BP : backprop W}.
Implicit Type learner : deeplearn W.

(** X11.  The empty file.  Every read of [deeplearn_load] fails on it: the
    function returns 0; the flag, the count, the layer, the error and the
    whole history stay as the struct had them; the network is what
    [bp_load] makes of an empty file, there is no autocoder, and the
    thresholds are a fresh block. *)
Theorem load_empty_file learner seed :
  (bp_load seed []).2 = [] →
  let n := (bp_load seed []).1.2 in
  deeplearn_load learner seed []
  = ((0,
      set_error_threshold
        (malloc_floats (int_wrap (bp.HiddenLayers n + 1)))
        (set_autocoder None (set_net n learner))),
     []).
Proof.
  intros Hrest n. unfold deeplearn_load, io_bind, io_ret.
  cbn [fread_int fread_uint fread_float fread4].
  destruct (bp_load seed []) as [[r n0] fp] eqn:E. cbn in Hrest, n.
  subst fp n. cbn [fread_int fread4 Z.eqb].
  cbn [net set_net set_autocoder set_training_complete set_itterations
       set_current_hidden_layer set_BPerror].
  unfold fread_floats.
  assert (Hitems : ∀ k, fread_items k [] = ([], [])) by (by intros [|k]).
  rewrite !Hitems. cbn [length drop app fread_int fread4].
  rewrite Hitems. cbn.
  by destruct learner.
Qed.
End LoadEmpty.


Lemma load_empty_file_witness :
  (bp_load (backprop := quick_engine) 123 []).2 = []
  ∧ let n := (bp_load (backprop := quick_engine) 123 []).1.2 in
    deeplearn_load (BP := quick_engine) blank_learner 123 []
    = ((0,
        set_error_threshold
          (malloc_floats (int_wrap (bp.HiddenLayers n + 1)))
          (set_autocoder None (set_net n blank_learner))),
       []).
Proof.
  assert (Hyp : (bp_load (backprop := quick_engine) 123 []).2 = [])
    by reflexivity.
  split; [exact Hyp|].
  exact (load_empty_file (BP := quick_engine) blank_learner 123 Hyp).
Defined.

(** ** A learner against itself *)

Section CompareSelf.
Context {W : Type} {BP : backprop W}.
Implicit Type learner : deeplearn W.

(** X12.  A learner against itself.  [deeplearn_compare] of a learner and
    itself returns 1 exactly when the engine finds the network equal to
    itself and none of the floats compared - the error, the samples below
    the index, the thresholds - is a NaN. *)
Theorem compare_self learner :
  int_range (bp.HiddenLayers (net learner) + 1) →
  (deeplearn_compare learner learner = 1
   ↔ 1 <= bp_compare (net learner) (net learner) ∧ nan_free learner).
Proof.
  intros Hhl.
  destruct (compare_code learner learner) as [-> _].
  unfold agreements, nan_free. rewrite (int_wrap_id _ Hhl).
  rewrite !Forall_cons, Forall_nil. unfold id.
  rewrite float_eq_self.
  split.
  - intros (_ & H2 & H3 & _ & _ & _ & _ & H8 & _ & H10 & _).
    split; [done|]. split; [done|].
    split; intros i Hi; apply float_eq_self; auto.
  - intros (H3 & H2 & H8 & H10).
    repeat match goal with |- _ ∧ _ => split end; try done;
      intros i Hi; apply float_eq_self; auto.
Qed.
End CompareSelf.


Lemma compare_self_witness :
  let learner := test_learner_after quick_engine 20 in
  int_range (bp.HiddenLayers (net learner) + 1)
  ∧ (deeplearn_compare (BP := quick_engine) learner learner = 1
     ↔ 1 <= bp_compare (backprop := quick_engine) (net learner) (net learner)
       ∧ nan_free learner).
Proof.
  intros learner.
  assert (Hyp : int_range (bp.HiddenLayers (net learner) + 1)).
  { split; by vm_compute. }
  split; [exact Hyp|].
  exact (compare_self (BP := quick_engine) learner Hyp).
Defined.

(** ** The heap *)

Lemma used_Some b a (h : heap) : h !! a = Some b → used b a h = Some h.
Proof. intros H. unfold used. rewrite H. by case_decide. Qed.


Lemma used_Freed b a (h : heap) :
  h !! a = Some Freed → b ≠ Freed → used b a h = None.
Proof. intros H Hb. unfold used. rewrite H. by case_decide. Qed.

Lemma bp_free_Some a (h : heap) :
  h !! a = Some Network → bp_free a h = Some (<[a := Raw]> h).
Proof. intros H. unfold bp_free. by rewrite H. Qed.

Lemma bp_made_Some a (h : heap) :
  h !! a = Some Raw → bp_made a h = Some (<[a := Network]> h).
Proof. intros H. unfold bp_made. by rewrite H. Qed.

Lemma free_Raw a (h : heap) :
  h !! a = Some Raw → free a h = Some (<[a := Freed]> h).
Proof. intros H. unfold free. by rewrite H. Qed.

Lemma free_Floats a (h : heap) :
  h !! a = Some Floats → free a h = Some (<[a := Freed]> h).
Proof. intros H. unfold free. by rewrite H. Qed.

Lemma free_Freed a (h : heap) : h !! a = Some Freed → free a h = None.
Proof. intros H. unfold free. by rewrite H. Qed.

Lemma bp_free_Freed a (h : heap) : h !! a = Some Freed → bp_free a h = None.
Proof. intros H. unfold bp_free. by rewrite H. Qed.

Lemma heap_lookup_insert (h : heap) a x a' :
  (a < length h)%nat →
  <[a := x]> h !! a' = if decide (a' = a) then Some x else h !! a'.
Proof.
  intros Ha. case_decide as E.
  - subst. by apply list_lookup_insert_eq.
  - by apply list_lookup_insert_ne.
Qed.

Section OwnershipProofs.
Context {W : Type} {BP : backprop W} {HDR : deeplearn_h}.
Implicit Type s : deeplearn_mem W.

Lemma init_mem_owns s no_of_inputs no_of_hiddens hidden_layers no_of_outputs
    thresholds random_seed (h0 : heap) :
  ∃ s' h',
    deeplearn_init_mem s no_of_inputs no_of_hiddens hidden_layers
      no_of_outputs thresholds random_seed h0 = Some (s', h')
    ∧ members s'
      = deeplearn_init (members s) no_of_inputs no_of_hiddens hidden_layers
          no_of_outputs thresholds random_seed
    ∧ owns h0 s' h'.
Proof.
  unfold deeplearn_init_mem, malloc.
  assert (H1 : bp_made (length (h0 ++ [Floats])) ((h0 ++ [Floats]) ++ [Raw])
               = Some (h0 ++ [Floats; Network])).
  { rewrite <- app_assoc, length_app. cbn [length app].
    rewrite bp_made_Some by (by rewrite lookup_app_r, Nat.add_comm, Nat.add_sub by lia).
    by rewrite insert_app_r. }
  rewrite H1. cbn [mbind option_bind].
  assert (H2 : used Network (length (h0 ++ [Floats]))
                 ((h0 ++ [Floats; Network]) ++ [Raw])
               = Some (h0 ++ [Floats; Network; Raw])).
  { rewrite <- app_assoc, length_app. cbn [length app].
    apply used_Some.
    by rewrite lookup_app_r, Nat.add_comm, Nat.add_sub by lia. }
  rewrite H2. cbn [mbind option_bind].
  assert (H3 : bp_made (length (h0 ++ [Floats; Network]))
                 (h0 ++ [Floats; Network; Raw])
               = Some (h0 ++ [Floats; Network; Network])).
  { rewrite length_app. cbn [length].
    rewrite bp_made_Some by (by rewrite lookup_app_r, Nat.add_comm, Nat.add_sub by lia).
    by rewrite insert_app_r. }
  rewrite H3. cbn [mbind option_bind].
  eexists _, _. split; [reflexivity|]. split; [reflexivity|].
  clear. rewrite !length_app. cbn [length].
  assert (Hlook : ∀ a i : nat,
            a = (length h0 + i)%nat →
            (h0 ++ [Floats; Network; Network]) !! a
            = [Floats; Network; Network] !! i).
  { intros a i ->. by rewrite lookup_app_r, Nat.add_comm, Nat.add_sub by lia. }
  split; cbn.
  - rewrite length_app. lia.
  - intros a Ha. by rewrite lookup_app_l by lia.
  - split; [lia|]. by rewrite (Hlook _ 1%nat) by lia.
  - split; [lia|]. by rewrite (Hlook _ 0%nat) by lia.
  - intros _. split; [lia|]. split; [|lia]. by rewrite (Hlook _ 2%nat) by lia.
  - intros a. rewrite length_app. cbn. intros Ha H1 H2 H3.
    specialize (H3 ltac:(done)). lia.
Qed.

(** Ownership looks at the pointers and at whether there is an
    autocoder. *)
Lemma owns_members h0 (l l' : deeplearn W) net_at autocoder_at thresholds_at
    (h : heap) :
  is_null (autocoder l') = is_null (autocoder l) →
  owns h0 (mk_mem l net_at autocoder_at thresholds_at) h →
  owns h0 (mk_mem l' net_at autocoder_at thresholds_at) h.
Proof.
  intros Hnull [H1 H2 H3 H4 H5 H6]. cbn in *.
  assert (E : autocoder l' ≠ None ↔ autocoder l ≠ None).
  { by destruct (autocoder l'), (autocoder l). }
  split; cbn; try done.
  - intros H. by apply H5, E.
  - intros a Ha Hn Ht Hne. apply H6; try done. intros H. by apply Hne, E.
Qed.

(** The autocoder is released and none is made. *)
Lemma owns_release h0 s (h : heap) (l' : deeplearn W) :
  owns h0 s h →
  autocoder (members s) ≠ None →
  autocoder l' = None →
  owns h0
    (mk_mem l' (net_ptr s) (autocoder_ptr s) (error_threshold_ptr s))
    (<[autocoder_ptr s := Freed]> h).
Proof.
  intros [H1 H2 [H3 H3'] [H4 H4'] H5 H6] Hac Hnone.
  destruct (H5 Hac) as (H7 & H8 & H9).
  pose proof (lookup_lt_Some _ _ _ H8) as Hlt.
  split; cbn; rewrite ?Hnone, ?length_insert, ?heap_lookup_insert by done.
  - done.
  - intros a Ha. rewrite heap_lookup_insert by done.
    case_decide; [lia|]. by apply H2.
  - split; [done|]. by case_decide.
  - split; [done|]. case_decide as E; [|done]. rewrite E, H8 in H4'. done.
  - done.
  - intros a Ha Hn Ht _. rewrite heap_lookup_insert by done.
    case_decide; [done|]. by apply H6.
Qed.

(** The autocoder is released and a new one is made. *)
Lemma owns_replace h0 s (h : heap) (l' : deeplearn W) :
  owns h0 s h →
  autocoder (members s) ≠ None →
  autocoder l' ≠ None →
  owns h0
    (mk_mem l' (net_ptr s) (length h) (error_threshold_ptr s))
    (<[autocoder_ptr s := Freed]> h ++ [Network]).
Proof.
  intros [H1 H2 [H3 H3'] [H4 H4'] H5 H6] Hac Hsome.
  destruct (H5 Hac) as (H7 & H8 & H9).
  pose proof (lookup_lt_Some _ _ _ H8) as Hlt.
  pose proof (lookup_lt_Some _ _ _ H3').
  pose proof (lookup_lt_Some _ _ _ H4').
  assert (Hlook : ∀ a,
            (<[autocoder_ptr s := Freed]> h ++ [Network]) !! a
            = if decide (a = length h) then Some Network
              else if decide (a = autocoder_ptr s) then Some Freed
              else h !! a).
  { intros a. case_decide as E.
    - subst a. rewrite lookup_app_r by (rewrite length_insert; lia).
      by rewrite length_insert, Nat.sub_diag.
    - destruct (decide (a < length h)%nat).
      + rewrite lookup_app_l by (rewrite length_insert; lia).
        by apply heap_lookup_insert.
      + rewrite lookup_ge_None_2
          by (rewrite length_app, length_insert; cbn; lia).
        case_decide; [lia|]. symmetry. apply lookup_ge_None_2. lia. }
  split; cbn; rewrite ?Hlook.
  - rewrite length_app, length_insert. lia.
  - intros a Ha. rewrite Hlook. repeat case_decide; try lia. by apply H2.
  - split; [done|]. repeat case_decide; try lia; done.
  - split; [done|]. repeat case_decide; try lia; [|done].
    exfalso. congruence.
  - intros _. split; [lia|]. split; [|lia]. by case_decide.
  - intros a. rewrite length_app, length_insert, Hlook. cbn.
    intros Ha Hn Ht Hne. repeat case_decide; try done.
    + by specialize (Hne Hsome).
    + apply H6; try done. lia.
Qed.

Lemma update_tail_mem (learner : deeplearn W) :
  let learner' := deeplean_update_history learner in
  (if bp.itterations (net learner') <? UINT_MAX then
     set_net
       (bp.set_itterations (bp.itterations (net learner') + 1)
          (net learner'))
       learner'
   else learner')
  = set_net (counted (net learner)) learner'.
Proof.
  intros learner'.
  destruct (update_history_frame learner) as (Hn & _).
  fold learner' in Hn. unfold counted. rewrite Hn.
  destruct (bp.itterations (net learner) <? UINT_MAX); [done|].
  rewrite <- Hn. by destruct learner'.
Qed.

Lemma autocoder_tail n (learner : deeplearn W) :
  autocoder (set_net n (deeplean_update_history learner))
  = autocoder learner.
Proof.
  change (autocoder (set_net n ?d)) with (autocoder d).
  by destruct (update_history_frame learner) as (_ & -> & _).
Qed.

Lemma owns_eta h0 s (h : heap) :
  owns h0 s h →
  owns h0
    (mk_mem (members s) (net_ptr s) (autocoder_ptr s)
       (error_threshold_ptr s)) h.
Proof. by destruct s. Qed.

(** An update on a heap where the learner owns its blocks does to the
    members what [deeplearn_update] says, fails when it fails, and leaves
    the learner owning its blocks. *)
Lemma update_mem_owns h0 s (h : heap) :
  owns h0 s h →
  match deeplearn_update (members s) with
  | Some learner' =>
      ∃ s' h',
        deeplearn_update_mem s h = Some (s', h')
        ∧ members s' = learner'
        ∧ owns h0 s' h'
  | None => deeplearn_update_mem s h = None
  end.
Proof.
  intros Ho.
  pose proof Ho as [_ _ [_ Hn] [_ Ht] Ha _].
  unfold deeplearn_update_mem, deeplearn_update.
  destruct (training_complete (members s) =? 1).
  { exists s, h. split; [reflexivity|]. split; [reflexivity|exact Ho]. }
  rewrite (used_Some _ _ _ Ht). cbn [mbind option_bind].
  rewrite (used_Some _ _ _ Hn). cbn [mbind option_bind].
  destruct (current_hidden_layer (members s)
            <? bp.HiddenLayers (net (members s))).
  - destruct (autocoder (members s)) as [ac|] eqn:Eac; [|done].
    destruct (Ha ltac:(done)) as (_ & Hac & _).
    cbn [mbind option_bind].
    rewrite (used_Some _ _ _ Hac). cbn [mbind option_bind].
    destruct (bp_pretrain (net (members s)) ac
                (current_hidden_layer (members s))) as [n1 ac1].
    cbn [fst snd set_BPerror set_autocoder set_net set_current_hidden_layer
         BPerror current_hidden_layer net].
    match goal with
    | |- context [if ?a && ?b && ?c then _ else _] => destruct (a && b && c)
    end.
    + rewrite (bp_free_Some _ _ Hac). cbn [mbind option_bind].
      pose proof (lookup_lt_Some _ _ _ Hac) as Hlt.
      rewrite free_Raw by (by rewrite list_lookup_insert_eq).
      cbn [mbind option_bind]. rewrite list_insert_insert_eq.
      cbn [fst snd set_BPerror set_autocoder set_net
           set_current_hidden_layer BPerror current_hidden_layer net].
      match goal with
      | |- context [if int_wrap ?x <? ?y then _ else _] =>
          destruct (int_wrap x <? y)
      end.
      * unfold malloc. rewrite length_insert.
        rewrite bp_made_Some
          by (by rewrite lookup_app_r, length_insert, Nat.sub_diag
                by (rewrite length_insert; lia)).
        cbn [mbind option_bind members net_ptr autocoder_ptr
             error_threshold_ptr].
        rewrite update_tail, update_tail_mem.
        eexists _, _. split; [reflexivity|]. split; [reflexivity|].
        replace (<[length h := Network]>
                   (<[autocoder_ptr s := Freed]> h ++ [Raw]))
          with (<[autocoder_ptr s := Freed]> h ++ [Network]).
        { apply owns_replace; [done|by rewrite Eac|].
          by rewrite autocoder_tail. }
        rewrite insert_app_r_alt by (rewrite length_insert; lia).
        by rewrite length_insert, Nat.sub_diag.
      * cbn [mbind option_bind members net_ptr autocoder_ptr
             error_threshold_ptr].
        rewrite update_tail, update_tail_mem.
        eexists _, _. split; [reflexivity|]. split; [reflexivity|].
        apply owns_release; [done|by rewrite Eac|].
        by rewrite autocoder_tail.
    + cbn [mbind option_bind members net_ptr autocoder_ptr
           error_threshold_ptr].
      rewrite update_tail, update_tail_mem.
      eexists _, _. split; [reflexivity|]. split; [reflexivity|].
      apply (owns_members h0 (members s)); [|by apply owns_eta].
      by rewrite autocoder_tail, Eac.
  - cbn [fst snd set_BPerror set_autocoder set_net set_current_hidden_layer
         BPerror current_hidden_layer net].
    match goal with
    | |- context [if float_lt ?a ?b then _ else _] => destruct (float_lt a b)
    end;
      cbn [mbind option_bind members net_ptr autocoder_ptr
           error_threshold_ptr];
      rewrite update_tail, update_tail_mem;
      (eexists _, _; split; [reflexivity|]; split; [reflexivity|]);
      (apply (owns_members h0 (members s)); [|by apply owns_eta]);
      by rewrite autocoder_tail.
Qed.

Lemma released_iff (h0 h : heap) :
  released h0 h
  ↔ (length h0 ≤ length h)%nat
    ∧ (∀ a, (a < length h0)%nat → h !! a = h0 !! a)
    ∧ (∀ a, (length h0 ≤ a < length h)%nat → h !! a = Some Freed).
Proof.
  unfold released. split.
  - intros E.
    assert (Hlen : (length h0 ≤ length h)%nat).
    { rewrite E, length_app. lia. }
    split; [done|]. split.
    + intros a Ha. rewrite E. by apply lookup_app_l.
    + intros a Ha. rewrite E, lookup_app_r by lia.
      apply lookup_replicate_2. lia.
  - intros (Hlen & Hbase & Hrest). apply list_eq. intros a.
    destruct (decide (a < length h0)%nat).
    + rewrite lookup_app_l by done. by apply Hbase.
    + rewrite lookup_app_r by lia.
      destruct (decide (a < length h)%nat).
      * rewrite Hrest by lia. symmetry. apply lookup_replicate_2. lia.
      * rewrite lookup_ge_None_2 by lia. symmetry.
        apply lookup_ge_None_2. rewrite length_replicate. lia.
Qed.

(** [deeplearn_free] of a learner that owns its blocks. *)
Lemma free_owns h0 s (h : heap) :
  owns h0 s h →
  ∃ h',
    deeplearn_free s h = Some h'
    ∧ released h0 h'
    ∧ h' !! net_ptr s = Some Freed
    ∧ h' !! error_threshold_ptr s = Some Freed.
Proof.
  intros [H1 H2 [H3 H3'] [H4 H4'] H5 H6].
  pose proof (lookup_lt_Some _ _ _ H3') as Hn.
  pose proof (lookup_lt_Some _ _ _ H4') as Ht.
  assert (Hnt : net_ptr s ≠ error_threshold_ptr s) by congruence.
  unfold deeplearn_free.
  rewrite (bp_free_Some _ _ H3'). cbn [mbind option_bind].
  rewrite free_Raw by (by rewrite list_lookup_insert_eq).
  cbn [mbind option_bind]. rewrite list_insert_insert_eq.
  rewrite free_Floats
    by (by rewrite list_lookup_insert_ne).
  cbn [mbind option_bind].
  destruct (autocoder (members s)) as [ac|] eqn:Eac; cbn [is_null negb].
  - destruct (H5 ltac:(done)) as (H7 & H8 & H9).
    pose proof (lookup_lt_Some _ _ _ H8) as Ha.
    assert (Hat : autocoder_ptr s ≠ error_threshold_ptr s) by congruence.
    rewrite bp_free_Some
      by (by rewrite !list_lookup_insert_ne).
    cbn [mbind option_bind].
    rewrite free_Raw
      by (by rewrite list_lookup_insert_eq by (by rewrite !length_insert)).
    rewrite list_insert_insert_eq.
    eexists. split; [reflexivity|].
    assert (Hlook : ∀ a,
              <[autocoder_ptr s := Freed]>
                (<[error_threshold_ptr s := Freed]>
                   (<[net_ptr s := Freed]> h)) !! a
              = if decide (a = autocoder_ptr s) then Some Freed
                else if decide (a = error_threshold_ptr s) then Some Freed
                else if decide (a = net_ptr s) then Some Freed
                else h !! a).
    { intros a.
      rewrite !heap_lookup_insert by (by rewrite ?length_insert). done. }
    split; [|split].
    + apply released_iff. rewrite !length_insert.
      split; [done|]. split.
      * intros a Ha'. rewrite Hlook. repeat case_decide; try lia.
        by apply H2.
      * intros a Ha'. rewrite Hlook. repeat case_decide; try done.
        by apply H6.
    + rewrite Hlook. by repeat case_decide.
    + rewrite Hlook. by repeat case_decide.
  - eexists. split; [reflexivity|].
    assert (Hlook : ∀ a,
              <[error_threshold_ptr s := Freed]>
                (<[net_ptr s := Freed]> h) !! a
              = if decide (a = error_threshold_ptr s) then Some Freed
                else if decide (a = net_ptr s) then Some Freed
                else h !! a).
    { intros a.
      rewrite !heap_lookup_insert by (by rewrite ?length_insert). done. }
    split; [|split].
    + apply released_iff. rewrite !length_insert.
      split; [done|]. split.
      * intros a Ha'. rewrite Hlook. repeat case_decide; try lia.
        by apply H2.
      * intros a Ha'. rewrite Hlook. repeat case_decide; try done.
        by apply H6.
    + rewrite Hlook. by repeat case_decide.
    + rewrite Hlook. by repeat case_decide.
Qed.

Lemma set_input_mem_owns h0 s index value (h : heap) :
  owns h0 s h →
  ∃ s',
    deeplearn_set_input_mem s index value h = Some (s', h)
    ∧ members s' = deeplearn_set_input (members s) index value
    ∧ owns h0 s' h.
Proof.
  intros Ho. pose proof Ho as [_ _ [_ Hn] _ _ _].
  unfold deeplearn_set_input_mem. rewrite (used_Some _ _ _ Hn).
  eexists. split; [reflexivity|]. split; [reflexivity|].
  apply (owns_members h0 (members s)); [done|by apply owns_eta].
Qed.

Lemma set_output_mem_owns h0 s index value (h : heap) :
  owns h0 s h →
  ∃ s',
    deeplearn_set_output_mem s index value h = Some (s', h)
    ∧ members s' = deeplearn_set_output (members s) index value
    ∧ owns h0 s' h.
Proof.
  intros Ho. pose proof Ho as [_ _ [_ Hn] _ _ _].
  unfold deeplearn_set_output_mem. rewrite (used_Some _ _ _ Hn).
  eexists. split; [reflexivity|]. split; [reflexivity|].
  apply (owns_members h0 (members s)); [done|by apply owns_eta].
Qed.

(** Every later state in memory owns its blocks, and its members are a
    later state of the members. *)
Lemma later_mem_owns h0 s1 (h1 : heap) s (h : heap) :
  owns h0 s1 h1 →
  later_mem s1 h1 s h →
  owns h0 s h ∧ later (members s1) (members s).
Proof.
  intros Ho Hl.
  induction Hl as [|sa ha sb hb _ [IHo IHl] Hup
                   |sa ha i v sb hb _ [IHo IHl] Hset
                   |sa ha i v sb hb _ [IHo IHl] Hset].
  - split; [done|apply later_now].
  - pose proof (update_mem_owns h0 sa ha IHo) as Hsim.
    destruct (deeplearn_update (members sa)) as [l'|] eqn:E;
      [|congruence].
    destruct Hsim as (s' & h' & Hup' & Hm & Ho').
    rewrite Hup in Hup'. injection Hup' as <- <-.
    split; [done|]. eapply later_update; [exact IHl|]. by rewrite Hm.
  - destruct (set_input_mem_owns h0 sa i v ha IHo) as (s' & Hs & Hm & Ho').
    rewrite Hset in Hs. injection Hs as <- <-.
    split; [done|]. rewrite Hm. by apply later_set_input.
  - destruct (set_output_mem_owns h0 sa i v ha IHo) as (s' & Hs & Hm & Ho').
    rewrite Hset in Hs. injection Hs as <- <-.
    split; [done|]. rewrite Hm. by apply later_set_output.
Qed.


Lemma deeplearn_updates_mem_later n s1 (h1 : heap) s (h : heap) :
  deeplearn_updates_mem n s1 h1 = Some (s, h) → later_mem s1 h1 s h.
Proof.
  revert s h. unfold deeplearn_updates_mem.
  induction n as [|n IH] using N.peano_ind; intros s h H.
  - injection H as <- <-. apply later_mem_now.
  - rewrite N.iter_succ in H.
    destruct (N.iter n _ _) as [[sa ha]|]; [|done].
    cbn in H. eapply later_mem_update; [by apply IH|done].
Qed.


(** X14.  No leak.  [deeplearn_free] of a learner in any later state after
    [deeplearn_init] returns, and leaves the heap as it was before
    [deeplearn_init] with every block allocated since released: the
    blocks of the learner by [deeplearn_free] - each network after
    [bp_free] - and the autocoders of the layers before by the updates
    that promoted them. *)
Theorem free_releases_every_block s0 no_of_inputs no_of_hiddens
    hidden_layers no_of_outputs thresholds random_seed (h0 : heap) s1 h1
    s h :
  deeplearn_init_mem s0 no_of_inputs no_of_hiddens hidden_layers
    no_of_outputs thresholds random_seed h0 = Some (s1, h1) →
  later_mem s1 h1 s h →
  ∃ h', deeplearn_free s h = Some h' ∧ released h0 h'.
Proof.
  intros Hinit Hl.
  destruct (init_mem_owns s0 no_of_inputs no_of_hiddens hidden_layers
              no_of_outputs thresholds random_seed h0)
    as (s1' & h1' & Hinit' & _ & Ho).
  rewrite Hinit in Hinit'. injection Hinit' as <- <-.
  destruct (later_mem_owns h0 s1 h1 s h Ho Hl) as [Ho' _].
  destruct (free_owns h0 s h Ho') as (h' & Hf & Hr & _).
  by exists h'.
Qed.

(** X15.  After [deeplearn_free].  The function leaves the pointers of the
    struct as they are: on the heap that it returns, a second
    [deeplearn_free] releases a block that has been released, and an
    update of a learner that is not complete, or setting an input or an
    output, uses one. *)
Theorem free_leaves_dangling_pointers h0 s (h h' : heap) :
  owns h0 s h →
  deeplearn_free s h = Some h' →
  deeplearn_free s h' = None
  ∧ (training_complete (members s) ≠ 1 → deeplearn_update_mem s h' = None)
  ∧ (∀ index value, deeplearn_set_input_mem s index value h' = None)
  ∧ (∀ index value, deeplearn_set_output_mem s index value h' = None).
Proof.
  intros Ho Hf.
  destruct (free_owns h0 s h Ho) as (h'' & Hf' & _ & Hn & Ht).
  rewrite Hf in Hf'. injection Hf' as <-.
  split; [|split; [|split]].
  - unfold deeplearn_free. by rewrite bp_free_Freed.
  - intros Htc. unfold deeplearn_update_mem.
    destruct (Z.eqb_spec (training_complete (members s)) 1); [done|].
    by rewrite (used_Freed _ _ _ Ht).
  - intros i v. unfold deeplearn_set_input_mem.
    by rewrite (used_Freed _ _ _ Hn).
  - intros i v. unfold deeplearn_set_output_mem.
    by rewrite (used_Freed _ _ _ Hn).
Qed.

(** X16.  [deeplearn_init] releases nothing.  Called on a learner that owns its
    blocks it allocates three more and overwrites the pointers: whatever
    runs and whatever [deeplearn_free] follow, the blocks that the learner
    owned stay allocated, with no pointer to them. *)
Theorem init_again_leaks h0 s (h : heap) no_of_inputs no_of_hiddens
    hidden_layers no_of_outputs thresholds random_seed s1 h1 s2 h2 h3 :
  owns h0 s h →
  deeplearn_init_mem s no_of_inputs no_of_hiddens hidden_layers
    no_of_outputs thresholds random_seed h = Some (s1, h1) →
  later_mem s1 h1 s2 h2 →
  deeplearn_free s2 h2 = Some h3 →
  h3 !! net_ptr s = Some Network
  ∧ h3 !! error_threshold_ptr s = Some Floats
  ∧ (autocoder (members s) ≠ None → h3 !! autocoder_ptr s = Some Network)
  ∧ ¬ released h0 h3.
Proof.
  intros Ho Hinit Hl Hf.
  destruct (init_mem_owns s no_of_inputs no_of_hiddens hidden_layers
              no_of_outputs thresholds random_seed h)
    as (s1' & h1' & Hinit' & _ & Ho1).
  rewrite Hinit in Hinit'. injection Hinit' as <- <-.
  destruct (later_mem_owns h s1 h1 s2 h2 Ho1 Hl) as [Ho2 _].
  destruct (free_owns h s2 h2 Ho2) as (h3' & Hf' & Hr & _).
  rewrite Hf in Hf'. injection Hf' as <-.
  apply released_iff in Hr as (_ & Hbase & _).
  destruct Ho as [H1 H2 [H3 H3'] [H4 H4'] H5 H6].
  assert (Hnet : h3 !! net_ptr s = Some Network).
  { rewrite Hbase; [done|]. by eapply lookup_lt_Some. }
  split; [done|]. split; [|split].
  - rewrite Hbase; [done|]. by eapply lookup_lt_Some.
  - intros Hac. destruct (H5 Hac) as (_ & H8 & _).
    rewrite Hbase; [done|]. by eapply lookup_lt_Some.
  - intros Hr. apply released_iff in Hr as (_ & _ & Hrest).
    rewrite Hrest in Hnet; [done|].
    split; [done|]. by eapply lookup_lt_Some.
Qed.
End OwnershipProofs.

(** The heap of the test learner, made on a heap that holds one block of
    somebody else: [deeplearn_init] allocates the thresholds, the network
    and the autocoder of layer 0; update 101 releases that autocoder and
    allocates the one of layer 1; update 202 releases that one; and
    [deeplearn_free] releases the network and the thresholds. *)
Example heap_of_the_test_learner :
  let heap_after n := (test_struct_after [Floats] n).2 in
  heap_after 0%N = [Floats; Floats; Network; Network]
  ∧ heap_after 100%N = [Floats; Floats; Network; Network]
  ∧ heap_after 101%N = [Floats; Floats; Network; Freed; Network]
  ∧ heap_after 202%N = [Floats; Floats; Network; Freed; Freed]
  ∧ deeplearn_free (test_struct_after [Floats] 202).1 (heap_after 202%N)
    = Some [Floats; Freed; Freed; Freed; Freed].
Proof. by vm_compute. Qed.

Lemma test_struct_after_owns (n : N) s (h : heap) :
  deeplearn_updates_mem (BP := quick_engine) (HDR := header8) n
    (test_struct [Floats]).1 (test_struct [Floats]).2 = Some (s, h) →
  owns [Floats] s h.
Proof.
  intros Hup.
  destruct (init_mem_owns (BP := quick_engine) (HDR := header8) blank_struct
              10 4 2 2 [float_tenth; float_tenth; float_tenth] 123 [Floats])
    as (s1 & h1 & E & _ & Ho).
  assert (Es : test_struct [Floats] = (s1, h1))
    by (unfold test_struct; by rewrite E).
  rewrite Es in Hup.
  by destruct (later_mem_owns [Floats] s1 h1 s h Ho
                 (deeplearn_updates_mem_later n s1 h1 s h Hup)).
Qed.

Lemma free_releases_every_block_witness :
  let h0 := [Floats] in
  let thresholds := [float_tenth; float_tenth; float_tenth] in
  let start := test_struct h0 in
  let after := test_struct_after h0 150 in
  (deeplearn_init_mem (BP := quick_engine) (HDR := header8) blank_struct
     10 4 2 2 thresholds 123 h0 = Some (start.1, start.2)
   ∧ later_mem (BP := quick_engine) (HDR := header8) start.1 start.2
       after.1 after.2)
  ∧ ∃ h', deeplearn_free after.1 after.2 = Some h' ∧ released h0 h'.
Proof.
  intros h0 thresholds start after.
  assert (Hyp : deeplearn_init_mem (BP := quick_engine) (HDR := header8)
                  blank_struct 10 4 2 2 thresholds 123 h0
                = Some (start.1, start.2)
                ∧ later_mem (BP := quick_engine) (HDR := header8)
                    start.1 start.2 after.1 after.2).
  { split; [vm_compute; reflexivity|].
    apply (deeplearn_updates_mem_later 150). vm_compute. reflexivity. }
  split; [exact Hyp|].
  destruct Hyp as (H1 & H2).
  exact (free_releases_every_block (BP := quick_engine) (HDR := header8)
           blank_struct 10 4 2 2 thresholds 123 h0 start.1 start.2
           after.1 after.2 H1 H2).
Defined.

Lemma free_leaves_dangling_pointers_witness :
  let h0 := [Floats] in
  let s := (test_struct_after h0 150).1 in
  let h := (test_struct_after h0 150).2 in
  let h' := [Floats; Freed; Freed; Freed; Freed] in
  (owns h0 s h ∧ deeplearn_free s h = Some h')
  ∧ deeplearn_free s h' = None
  ∧ (training_complete (members s) ≠ 1 →
     deeplearn_update_mem (BP := quick_engine) (HDR := header8) s h' = None)
  ∧ (∀ index value,
       deeplearn_set_input_mem (BP := quick_engine) s index value h' = None)
  ∧ (∀ index value,
       deeplearn_set_output_mem (BP := quick_engine) s index value h'
       = None).
Proof.
  intros h0 s h h'.
  assert (Hyp : owns h0 s h ∧ deeplearn_free s h = Some h').
  { split; [|vm_compute; reflexivity].
    apply (test_struct_after_owns 150). vm_compute. reflexivity. }
  split; [exact Hyp|].
  destruct Hyp as (H1 & H2).
  exact (free_leaves_dangling_pointers (BP := quick_engine) (HDR := header8)
           h0 s h h' H1 H2).
Defined.

Lemma init_again_leaks_witness :
  let h0 := [Floats] in
  let thresholds := [float_tenth; float_tenth; float_tenth] in
  let s := (test_struct_after h0 150).1 in
  let h := (test_struct_after h0 150).2 in
  let s1 :=
    (default (s, h)
       (deeplearn_init_mem (BP := quick_engine) (HDR := header8) s
          10 4 2 2 thresholds 123 h)).1 in
  let h1 :=
    (default (s, h)
       (deeplearn_init_mem (BP := quick_engine) (HDR := header8) s
          10 4 2 2 thresholds 123 h)).2 in
  let s2 := (test_struct_again h0).1 in
  let h2 := (test_struct_again h0).2 in
  let h3 :=
    [Floats; Floats; Network; Freed; Network; Freed; Freed; Freed] in
  (owns h0 s h
   ∧ deeplearn_init_mem (BP := quick_engine) (HDR := header8) s
       10 4 2 2 thresholds 123 h = Some (s1, h1)
   ∧ later_mem (BP := quick_engine) (HDR := header8) s1 h1 s2 h2
   ∧ deeplearn_free s2 h2 = Some h3)
  ∧ h3 !! net_ptr s = Some Network
  ∧ h3 !! error_threshold_ptr s = Some Floats
  ∧ (autocoder (members s) ≠ None → h3 !! autocoder_ptr s = Some Network)
  ∧ ¬ released h0 h3.
Proof.
  intros h0 thresholds s h s1 h1 s2 h2 h3.
  assert (Hyp : owns h0 s h
                ∧ deeplearn_init_mem (BP := quick_engine) (HDR := header8) s
                    10 4 2 2 thresholds 123 h = Some (s1, h1)
                ∧ later_mem (BP := quick_engine) (HDR := header8) s1 h1
                    s2 h2
                ∧ deeplearn_free s2 h2 = Some h3).
  { split; [|split; [|split]].
    - apply (test_struct_after_owns 150). vm_compute. reflexivity.
    - vm_compute. reflexivity.
    - apply (deeplearn_updates_mem_later 3). vm_compute. reflexivity.
    - vm_compute. reflexivity. }
  split; [exact Hyp|].
  destruct Hyp as (H1 & H2 & H3 & H4).
  exact (init_again_leaks (BP := quick_engine) (HDR := header8) h0 s h
           10 4 2 2 thresholds 123 s1 h1 s2 h2 h3 H1 H2 H3 H4).
Defined.

(** ** Loading in memory *)

Section MemoryLoadProofs.
Context {W : Type} {BP : backprop W} {HDR : deeplearn_h}.
Implicit Type s : deeplearn_mem W.

Lemma load_mem_owns s random_seed fp (h0 : heap) :
  ∃ s' h',
    deeplearn_load_mem s random_seed fp h0
    = Some ((deeplearn_load (members s) random_seed fp).1.1, s',
            (deeplearn_load (members s) random_seed fp).2, h')
    ∧ members s' = (deeplearn_load (members s) random_seed fp).1.2
    ∧ owns h0 s' h'.
Proof.
  unfold deeplearn_load_mem, deeplearn_load, io_bind, io_ret, malloc.
  destruct (fread_int _ fp) as [[r1 v1] fp1].
  destruct (fread_uint _ fp1) as [[r2 v2] fp2].
  destruct (fread_int _ fp2) as [[r3 v3] fp3].
  destruct (fread_float _ fp3) as [[r4 v4] fp4].
  destruct (bp_load random_seed fp4) as [[r5 n] fp5].
  rewrite bp_made_Some by (by rewrite lookup_app_r, Nat.sub_diag by lia).
  cbn [mbind option_bind].
  destruct (fread_int 0 fp5) as [[r6 val] fp6].
  rewrite insert_app_r_alt, Nat.sub_diag by lia. cbn [insert list_insert].
  assert (Hlook : ∀ (ext : list block) (a i : nat),
            a = (length h0 + i)%nat → (h0 ++ ext) !! a = ext !! i).
  { intros ext a i ->.
    by rewrite lookup_app_r, Nat.add_comm, Nat.add_sub by lia. }
  destruct (val =? 1).
  - destruct (bp_load random_seed fp6) as [[r7 ac] fp7].
    rewrite <- app_assoc. cbn [app].
    rewrite bp_made_Some
      by (by rewrite (Hlook _ _ 1%nat) by (rewrite length_app; cbn; lia)).
    cbn [mbind option_bind].
    rewrite length_app. cbn [length].
    rewrite insert_app_r. cbn [insert list_insert].
    rewrite (used_Some Network)
      by (by rewrite (Hlook _ _ 0%nat) by lia).
    cbn [mbind option_bind].
    cbn [net set_autocoder set_net].
    destruct (fread_floats _ _ fp7) as [[r8 a8] fp8].
    cbn [history_index set_error_threshold].
    destruct (fread_int _ fp8) as [[r9 v9] fp9].
    cbn [history_ctr set_history_index].
    destruct (fread_int _ fp9) as [[r10 v10] fp10].
    cbn [history_step set_history_ctr].
    destruct (fread_int _ fp10) as [[r11 v11] fp11].
    cbn [history history_index set_history_step set_history_ctr
         set_history_index set_error_threshold set_autocoder set_net
         set_BPerror set_current_hidden_layer set_itterations
         set_training_complete].
    destruct (fread_floats _ _ fp11) as [[r12 a12] fp12].
    eexists _, _. split; [reflexivity|]. split; [reflexivity|].
    rewrite <- app_assoc, length_app. cbn [app length].
    split; cbn.
    + rewrite length_app. cbn. lia.
    + intros a Ha. by rewrite lookup_app_l by lia.
    + split; [lia|]. by rewrite (Hlook _ _ 0%nat) by lia.
    + split; [lia|]. by rewrite (Hlook _ _ 2%nat) by lia.
    + intros _. split; [lia|]. split; [|lia].
      by rewrite (Hlook _ _ 1%nat) by lia.
    + intros a. rewrite length_app. cbn. intros Ha H1 H2 H3.
      specialize (H3 ltac:(done)). lia.
  - cbn [mbind option_bind].
    rewrite (used_Some Network)
      by (by rewrite (Hlook _ _ 0%nat) by lia).
    cbn [mbind option_bind].
    cbn [net set_autocoder set_net].
    destruct (fread_floats _ _ fp6) as [[r8 a8] fp8].
    cbn [history_index set_error_threshold].
    destruct (fread_int _ fp8) as [[r9 v9] fp9].
    cbn [history_ctr set_history_index].
    destruct (fread_int _ fp9) as [[r10 v10] fp10].
    cbn [history_step set_history_ctr].
    destruct (fread_int _ fp10) as [[r11 v11] fp11].
    cbn [history history_index set_history_step set_history_ctr
         set_history_index set_error_threshold set_autocoder set_net
         set_BPerror set_current_hidden_layer set_itterations
         set_training_complete].
    destruct (fread_floats _ _ fp11) as [[r12 a12] fp12].
    eexists _, _. split; [reflexivity|]. split; [reflexivity|].
    rewrite <- app_assoc, length_app. cbn [app length].
    split; cbn.
    + rewrite length_app. cbn. lia.
    + intros a Ha. by rewrite lookup_app_l by lia.
    + split; [lia|]. by rewrite (Hlook _ _ 0%nat) by lia.
    + split; [lia|]. by rewrite (Hlook _ _ 1%nat) by lia.
    + done.
    + intros a. rewrite length_app. cbn. intros Ha H1 H2 _. lia.
Qed.
End MemoryLoadProofs.

(** ** The test in memory *)

Section MemoryTestProofs.
Context {W : Type} {BP : backprop W} {HDR : deeplearn_h}.
Implicit Type s : deeplearn_mem W.

Lemma owns_blocks_of h0 s (h : heap) : owns h0 s h → blocks_of s h.
Proof.
  intros [_ _ [_ H3] [_ H4] H5 _]. split; [done|]. split; [done|].
  intros Hac. by destruct (H5 Hac) as (_ & ? & ?).
Qed.

Lemma save_mem_blocks s fp (h : heap) :
  blocks_of s h →
  deeplearn_save_mem s fp h = Some (deeplearn_save (members s) fp).
Proof.
  intros (Hn & Ht & Ha). unfold deeplearn_save_mem.
  rewrite (used_Some _ _ _ Hn). cbn [mbind option_bind].
  destruct (autocoder (members s)) as [ac|]; cbn [is_null negb].
  - destruct (Ha ltac:(done)) as [Hac _].
    rewrite (used_Some _ _ _ Hac). cbn [mbind option_bind].
    by rewrite (used_Some _ _ _ Ht).
  - cbn [mbind option_bind]. by rewrite (used_Some _ _ _ Ht).
Qed.

Lemma compare_mem_blocks s1 s2 (h : heap) :
  blocks_of s1 h → blocks_of s2 h →
  deeplearn_compare_mem s1 s2 h
  = Some (deeplearn_compare (members s1) (members s2)).
Proof.
  intros (Hn1 & Ht1 & _) (Hn2 & Ht2 & _).
  unfold deeplearn_compare_mem, deeplearn_compare.
  rewrite (used_Some _ _ _ Hn1). cbn [mbind option_bind].
  rewrite (used_Some _ _ _ Hn2). cbn [mbind option_bind].
  rewrite (used_Some _ _ _ Ht1). cbn [mbind option_bind].
  rewrite (used_Some _ _ _ Ht2).
  repeat match goal with
         | |- (if ?b then _ else _) = _ => destruct b; [reflexivity|]
         end.
  destruct (0 <? _); cbn [mbind option_bind];
    destruct (arrays_differ _ _ _); reflexivity.
Qed.

(** What [deeplearn_free] does to a heap that has the blocks. *)
Lemma free_blocks s (h : heap) :
  blocks_of s h →
  deeplearn_free s h
  = Some
      (let h := <[error_threshold_ptr s := Freed]>
                  (<[net_ptr s := Freed]> h) in
       if is_null (autocoder (members s)) then h
       else <[autocoder_ptr s := Freed]> h).
Proof.
  intros (H3' & H4' & H5).
  pose proof (lookup_lt_Some _ _ _ H3') as Hn.
  pose proof (lookup_lt_Some _ _ _ H4') as Ht.
  assert (Hnt : net_ptr s ≠ error_threshold_ptr s) by congruence.
  unfold deeplearn_free.
  rewrite (bp_free_Some _ _ H3'). cbn [mbind option_bind].
  rewrite free_Raw by (by rewrite list_lookup_insert_eq).
  cbn [mbind option_bind]. rewrite list_insert_insert_eq.
  rewrite free_Floats by (by rewrite list_lookup_insert_ne).
  cbn [mbind option_bind].
  destruct (autocoder (members s)) as [ac|] eqn:Eac; cbn [is_null negb];
    [|done].
  destruct (H5 ltac:(done)) as (H8 & H9).
  pose proof (lookup_lt_Some _ _ _ H8) as Ha.
  assert (Hat : autocoder_ptr s ≠ error_threshold_ptr s) by congruence.
  rewrite bp_free_Some by (by rewrite !list_lookup_insert_ne).
  cbn [mbind option_bind].
  rewrite free_Raw
    by (by rewrite list_lookup_insert_eq by (by rewrite !length_insert)).
  by rewrite list_insert_insert_eq.
Qed.

Lemma free_blocks_lookup s (h : heap) :
  blocks_of s h →
  ∃ h',
    deeplearn_free s h = Some h'
    ∧ length h' = length h
    ∧ ∀ a,
        h' !! a
        = if decide (a = net_ptr s ∨ a = error_threshold_ptr s
                     ∨ (autocoder (members s) ≠ None ∧ a = autocoder_ptr s))
          then Some Freed else h !! a.
Proof.
  intros Hb. rewrite (free_blocks s h Hb). destruct Hb as (Hn & Ht & Ha).
  pose proof (lookup_lt_Some _ _ _ Hn).
  pose proof (lookup_lt_Some _ _ _ Ht).
  eexists. split; [reflexivity|].
  destruct (autocoder (members s)) as [ac|]; cbn [is_null].
  - destruct (Ha ltac:(done)) as [Hac _].
    pose proof (lookup_lt_Some _ _ _ Hac).
    split; [by rewrite !length_insert|].
    intros a. rewrite !heap_lookup_insert by (by rewrite ?length_insert).
    repeat case_decide; try done; exfalso; intuition congruence.
  - split; [by rewrite !length_insert|].
    intros a. rewrite !heap_lookup_insert by (by rewrite ?length_insert).
    repeat case_decide; try done; exfalso; intuition congruence.
Qed.

(** Two learners, the second made on the heap of the first: both are
    released, the first first, and nothing allocated stays. *)
Lemma free_two h0 s1 (h1 : heap) s2 (h2 : heap) :
  owns h0 s1 h1 →
  owns h1 s2 h2 →
  blocks_of s1 h2
  ∧ ∃ h3 h4,
      deeplearn_free s1 h2 = Some h3
      ∧ deeplearn_free s2 h3 = Some h4
      ∧ released h0 h4.
Proof.
  intros Ho1 Ho2.
  pose proof (owns_blocks_of _ _ _ Ho1) as (Hn1 & Ht1 & Ha1).
  pose proof (owns_blocks_of _ _ _ Ho2) as Hb2.
  destruct Ho1 as [L1 B1 [N1 _] [T1 _] A1 O1].
  destruct Ho2 as [L2 B2 [N2 N2'] [T2 T2'] A2 O2].
  pose proof (lookup_lt_Some _ _ _ Hn1) as Hln1.
  pose proof (lookup_lt_Some _ _ _ Ht1) as Hlt1.
  assert (Hb1 : blocks_of s1 h2).
  { split; [by rewrite B2|]. split; [by rewrite B2|].
    intros Hac. destruct (Ha1 Hac) as [Hl Hne]. split; [|done].
    rewrite B2; [done|]. by eapply lookup_lt_Some. }
  split; [done|].
  destruct (free_blocks_lookup s1 h2 Hb1) as (h3 & Hf1 & Hlen3 & Hlook3).
  assert (Hb2' : blocks_of s2 h3).
  { destruct Hb2 as (Hn2 & Ht2 & Ha2).
    split; [|split].
    - rewrite Hlook3. case_decide as Hc; [|done].
      exfalso. destruct Hc as [Hc|[Hc|[Hac Hc]]]; try lia.
      destruct (Ha1 Hac) as [Hl _].
      apply lookup_lt_Some in Hl. lia.
    - rewrite Hlook3. case_decide as Hc; [|done].
      exfalso. destruct Hc as [Hc|[Hc|[Hac Hc]]]; try lia.
      destruct (Ha1 Hac) as [Hl _].
      apply lookup_lt_Some in Hl. lia.
    - intros Hac2. destruct (Ha2 Hac2) as [Hl2 Hne2]. split; [|done].
      destruct (A2 Hac2) as (Hge & _).
      rewrite Hlook3. case_decide as Hc; [|done].
      exfalso. destruct Hc as [Hc|[Hc|[Hac Hc]]]; try lia.
      destruct (Ha1 Hac) as [Hl _].
      apply lookup_lt_Some in Hl. lia. }
  destruct (free_blocks_lookup s2 h3 Hb2') as (h4 & Hf2 & Hlen4 & Hlook4).
  exists h3, h4. split; [done|]. split; [done|].
  apply released_iff. split; [lia|]. split.
  - intros a Ha. rewrite Hlook4, Hlook3.
    case_decide as Hc2.
    { exfalso. destruct Hc2 as [Hc|[Hc|[Hac Hc]]]; try lia.
      destruct (A2 Hac) as (Hge & _). lia. }
    case_decide as Hc1.
    { exfalso. destruct Hc1 as [Hc|[Hc|[Hac Hc]]]; try lia.
      destruct (A1 Hac) as (Hge & _). lia. }
    rewrite B2 by lia. by apply B1.
  - intros a Ha. rewrite Hlook4, Hlook3.
    case_decide as Hc2; [done|].
    case_decide as Hc1; [done|].
    destruct (decide (a < length h1)%nat).
    + rewrite B2 by done. apply O1; [lia|tauto..].
    + apply O2; [lia|tauto..].
Qed.
End MemoryTestProofs.

Section LoadInMemory.
Context {W : Type} {BP : backprop W} {LAWS : backprop_laws W}.
Implicit Type s : deeplearn_mem W.

(** X17.  [deeplearn_load] in memory, of a file that [deeplearn_save] has
    written.  Take the bytes of a well-formed learner, followed by
    anything, and a struct whose history has room for the samples of the
    file.  On any heap [deeplearn_load] returns the number of samples and
    leaves what follows the learner in the file; the array of the history
    keeps its length; the loaded learner has an autocoder exactly when
    the saved one had, and owns the blocks that the function has
    allocated: the network, the thresholds, and the autocoder if there is
    one; [deeplearn_free] of the loaded learner releases them.
    [deeplearn_load] releases nothing: the blocks that the struct had
    before are still there afterwards. *)
Theorem load_in_memory (learner : deeplearn W) s random_seed rest
    (h0 : heap) :
  well_formed learner →
  history_index learner <= Z.of_nat (length (history (members s))) →
  let fp := (deeplearn_save learner []).2 ++ rest in
  ∃ s' h',
    deeplearn_load_mem s random_seed fp h0
    = Some (history_index learner, s', rest, h')
    ∧ members s' = (deeplearn_load (members s) random_seed fp).1.2
    ∧ (autocoder (members s') = None ↔ autocoder learner = None)
    ∧ length (history (members s')) = length (history (members s))
    ∧ owns h0 s' h'
    ∧ ∃ h'',
        deeplearn_free s' h' = Some h''
        ∧ released h0 h''
        ∧ (blocks_of s h0 → blocks_of s h'').
Proof.
  intros Hwf Hroom fp. unfold fp. rewrite deeplearn_save_bytes. cbn [snd app].
  destruct (load_mem_owns s random_seed (learner_bytes learner ++ rest) h0)
    as (s' & h' & E & Hm & Ho).
  destruct (deeplearn_load_bytes learner (members s) random_seed rest Hwf)
    as (n' & ac' & Hload & _ & _ & Hac).
  rewrite Hload in E, Hm. cbn [fst snd] in E, Hm.
  exists s', h'. split; [done|]. split; [by rewrite Hload|].
  split; [rewrite Hm; cbn; by symmetry|].
  split.
  { rewrite Hm. cbn. destruct Hwf as [_ _ _ _ _ _ _ Hidx _ _ _].
    rewrite length_app, length_take, length_drop. lia. }
  split; [done|].
  destruct (free_owns h0 s' h' Ho) as (h'' & Hf & Hr & _).
  exists h''. split; [done|]. split; [done|].
  apply released_iff in Hr as (_ & Hbase & _).
  intros (Hn & Ht & Ha). split; [|split].
  - rewrite Hbase; [done|]. by eapply lookup_lt_Some.
  - rewrite Hbase; [done|]. by eapply lookup_lt_Some.
  - intros Hnn. destruct (Ha Hnn) as [Hl Hne]. split; [|done].
    rewrite Hbase; [done|]. by eapply lookup_lt_Some.
Qed.
End LoadInMemory.

Lemma load_in_memory_witness :
  let learner := test_learner_after quick_engine 11 in
  let fp := (deeplearn_save (BP := quick_engine) learner []).2 ++ [x2a] in
  (well_formed (LAWS := toy_laws (fun _ => float_zero)) learner
   ∧ history_index learner
     <= Z.of_nat (length (history (members blank_struct))))
  ∧ ∃ s' h',
      deeplearn_load_mem (BP := quick_engine) blank_struct 7 fp [Floats]
      = Some (history_index learner, s', [x2a], h')
      ∧ members s'
        = (deeplearn_load (BP := quick_engine) (members blank_struct) 7
             fp).1.2
      ∧ (autocoder (members s') = None ↔ autocoder learner = None)
      ∧ length (history (members s'))
        = length (history (members blank_struct))
      ∧ owns [Floats] s' h'
      ∧ ∃ h'',
          deeplearn_free s' h' = Some h''
          ∧ released [Floats] h''
          ∧ (blocks_of blank_struct [Floats]
             → blocks_of blank_struct h'').
Proof.
  intros learner fp.
  assert (Hyp : well_formed (LAWS := toy_laws (fun _ => float_zero)) learner
                ∧ history_index learner
                  <= Z.of_nat (length (history (members blank_struct)))).
  { split; [|by vm_compute].
    apply (test_learner_well_formed 11). vm_compute. reflexivity. }
  split; [exact Hyp|].
  destruct Hyp as (H1 & H2).
  exact (load_in_memory (LAWS := toy_laws (fun _ => float_zero))
           learner blank_struct 7 [x2a] [Floats] H1 H2).
Defined.

Section TestInMemory.
Context {W : Type} {BP : backprop W} {LAWS : backprop_laws W}
  {HDR : deeplearn_h}.

Lemma init_round_trip (learner fresh : deeplearn W) (seed : Z) :
  0 < DEEPLEARN_HISTORY_SIZE <= INT_MAX →
  Z.of_nat (length (history learner)) = DEEPLEARN_HISTORY_SIZE →
  float_isnan DEEPLEARN_UNKNOWN_ERROR = false →
  let learner1 :=
    deeplearn_init learner 10 4 3 3
      [float_hundredth; float_hundredth; float_hundredth; float_hundredth]
      123 in
  deeplearn_compare learner1
    (deeplearn_load fresh seed (learner_bytes learner1)).1.2 = 1.
Proof.
  intros HC Hlen Hnan.
  set (thresholds := [float_hundredth; float_hundredth; float_hundredth;
                      float_hundredth]).
  intros l1.
  assert (Hli : learner_invariant 3 thresholds l1).
  { apply init_invariant. unfold INT_MAX. lia. }
  assert (Hwf : well_formed l1).
  { apply (invariant_well_formed 3 thresholds).
    - done.
    - unfold INT_MAX. lia.
    - cbn. lia.
    - done.
    - apply init_history_invariant; [lia|done]. }
  pose proof (load_save_compare l1 fresh seed [] Hwf) as Hcmp.
  rewrite app_nil_r in Hcmp. apply Hcmp.
  split; [done|]. split.
  - intros i Hi. cbn in Hi. lia.
  - intros i. destruct Hli as [-> _ _ _ _ _ _ _]. intros Hi.
    assert (Hc : i = 0 ∨ i = 1 ∨ i = 2 ∨ i = 3) by lia.
    destruct Hc as [->|[->|[->| ->]]]; by vm_compute.
Qed.

(** X18.  The test [test_deeplearn_save_load] passes on every engine that
    keeps the laws, for a history of any size and an unknown error that
    is not a NaN, on any heap, whatever the two structs hold and whatever
    seed [bp_init] leaves: no call uses a block that is not there, the
    learner that [deeplearn_init] makes is saved, loaded and found equal,
    and the two calls of [deeplearn_free] release every block that the
    test has allocated.  ([deeplearn_load] returns 0 here, which the test
    does not look at.) *)
Theorem test_deeplearn_save_load_passes (learner1 learner2 : deeplearn_mem W)
    (seed : Z) (h0 : heap) :
  0 < DEEPLEARN_HISTORY_SIZE <= INT_MAX →
  Z.of_nat (length (history (members learner1))) = DEEPLEARN_HISTORY_SIZE →
  float_isnan DEEPLEARN_UNKNOWN_ERROR = false →
  ∃ h',
    test_deeplearn_save_load learner1 learner2 seed h0 = Some (true, h')
    ∧ released h0 h'.
Proof.
  intros HC Hlen Hnan. unfold test_deeplearn_save_load.
  destruct (init_mem_owns learner1 10 4 3 3
              [float_hundredth; float_hundredth; float_hundredth;
               float_hundredth] 123 h0)
    as (s1 & h1 & -> & Hm1 & Ho1).
  cbn [mbind option_bind].
  rewrite save_mem_blocks by (by eapply owns_blocks_of).
  cbn [mbind option_bind]. rewrite deeplearn_save_bytes. cbn [app].
  destruct (load_mem_owns learner2 seed
              (learner_bytes (members s1)) h1)
    as (s2 & h2 & -> & Hm2 & Ho2).
  cbn [mbind option_bind].
  destruct (free_two h0 s1 h1 s2 h2 Ho1 Ho2)
    as (Hb1 & h3 & h4 & Hf1 & Hf2 & Hr).
  rewrite compare_mem_blocks by (done || by eapply owns_blocks_of).
  cbn [mbind option_bind].
  assert (Hcmp : deeplearn_compare (members s1) (members s2) = 1).
  { rewrite Hm2, Hm1. by apply init_round_trip. }
  rewrite Hcmp. cbn [Z.eqb Pos.eqb negb].
  rewrite Hf1. cbn [mbind option_bind].
  rewrite Hf2. cbn [mbind option_bind].
  by exists h4.
Qed.
End TestInMemory.

Lemma test_deeplearn_save_load_passes_witness :
  (0 < 8 <= INT_MAX
   ∧ Z.of_nat (length (history (members blank_struct))) = 8
   ∧ float_isnan toy_unknown = false)
  ∧ ∃ h',
      test_deeplearn_save_load (BP := quick_engine) (HDR := header8)
        blank_struct blank_struct 77 [Floats] = Some (true, h')
      ∧ released [Floats] h'.
Proof.
  assert (Hyp : 0 < 8 <= INT_MAX
                ∧ Z.of_nat (length (history (members blank_struct))) = 8
                ∧ float_isnan toy_unknown = false).
  { split; [by vm_compute|]. split; reflexivity. }
  split; [exact Hyp|].
  destruct Hyp as (H1 & H2 & H3).
  exact (test_deeplearn_save_load_passes
           (LAWS := toy_laws (fun _ => float_zero)) (HDR := header8)
           blank_struct blank_struct 77 [Floats] H1 H2 H3).
Defined.

(** The test on the small engine, on a heap that holds one block of
    somebody else: it passes, and leaves that block and six released
    ones. *)
Example test_deeplearn_save_load_run :
  test_deeplearn_save_load (BP := quick_engine) (HDR := header8)
    blank_struct blank_struct 77 [Floats]
  = Some (true, [Floats; Freed; Freed; Freed; Freed; Freed; Freed]).
Proof. by vm_compute. Qed.
